(** * Sound level sensor (firmware/Power/Sensors/sound_level.c)

    A shallow embedding of the sound-level measurement core: the ADC
    interrupt callback that fills the sample buffer, the two-pass reduction
    to a decibel value, the threshold / host-interrupt policy and the
    watchdog-related handling of the persistent threshold-enable flag.

    Conventions.
    - Integers of the C program are [Z]; every place where the C code
      truncates to a fixed width has the wrap-around written out ([u8],
      [u16], [u32]).  Inputs range over the values of their C types.
    - [float] variables are read as exact real numbers ([R]): every float
      operation of the source is the corresponding exact operation.  The
      only operation of the source that can leave the reals under this
      reading is [log10], whose result is therefore an [fval]
      (a real, minus infinity at the pole, or NaN on a negative argument).
      The rounding of the float operations can change the transmitted
      value ([step_up_exact_output] against [step_up_output]); the
      properties that depend on rounding are stated on [Binary32], a
      second embedding of the reduction with the IEEE 754 binary32
      operations.
    - Undefined behaviour of C (an out-of-range float-to-integer
      conversion, an out-of-bounds array access) is the result [None];
      so is a busy-wait that is never released.
    - Peripheral activity (pins, delays, ADC control) is recorded in a
      trace of events, oldest first.
    - The conversion results that the ADC delivers during a cycle are an
      input of the cycle: a list of codes, one per callback invocation. *)

From Stdlib Require Import ZArith List Bool Reals Lra Lia Zfloor.
From Stdlib Require Import SpecFloat.
From stdpp Require Import base list.
Import ListNotations.

Local Open Scope Z_scope.

(** ** Fixed-width integers *)

Definition u8 (z : Z) : Z := z mod 2 ^ 8.
Definition u16 (z : Z) : Z := z mod 2 ^ 16.
Definition u32 (z : Z) : Z := z mod 2 ^ 32.

Definition is_u8 (z : Z) : Prop := 0 <= z < 2 ^ 8.
Definition is_u16 (z : Z) : Prop := 0 <= z < 2 ^ 16.

(** ** Local constants of sound_level.c *)

Definition SAMPLES : Z := 400.
Definition AMP_FACTOR : R := 44.
Definition SENSITIVITY : R := 0.01258925.
Definition V_SUPPLY : R := 3.3.
Definition ADC_SCALE : R := 4095.
Definition REF_PRESSURE : R := 20e-6.
Definition DBZ_MAX : R := 106.
Definition SCALE_FACTOR : R := 600.

(** ** Values of float expressions around [log10] *)

Inductive fval : Type :=
  | Finite (r : R)
  | NegInfinity
  | NaN.

(** [log10] of math.h: finite on positive arguments, minus infinity at
    zero (pole error), NaN on negative arguments (domain error). *)
Definition log10 (x : R) : fval :=
  if Rlt_dec 0 x then Finite (ln x / ln 10)%R
  else if Req_dec_T x 0 then NegInfinity
  else NaN.

(** Multiplication of a float value by a positive finite constant. *)
Definition fscale (k : R) (v : fval) : fval :=
  match v with
  | Finite r => Finite (k * r)%R
  | NegInfinity => NegInfinity
  | NaN => NaN
  end.

(** The comparison [v > k]: false on NaN and on minus infinity. *)
Definition fgt (v : fval) (k : R) : bool :=
  match v with
  | Finite r => if Rgt_dec r k then true else false
  | NegInfinity => false
  | NaN => false
  end.

(** [round] of math.h on a real: nearest integer, halves away from zero. *)
Definition round_real (r : R) : Z :=
  if Rle_dec 0 r then Zfloor (r + / 2)%R else - Zfloor (- r + / 2)%R.

(** [round] leaves infinities and NaN as they are. *)
Inductive rounded : Type :=
  | RInt (z : Z)
  | RNegInfinity
  | RNaN.

Definition fround (v : fval) : rounded :=
  match v with
  | Finite r => RInt (round_real r)
  | NegInfinity => RNegInfinity
  | NaN => RNaN
  end.

(** The conversion [(uint16_t) x] of an integral float value: defined when
    the value is representable in 16 bits, undefined behaviour otherwise
    (C11 6.3.1.4), in particular on infinities and NaN. *)
Definition to_uint16 (x : rounded) : option Z :=
  match x with
  | RInt z => if decide (0 <= z < 2 ^ 16) then Some z else None
  | RNegInfinity => None
  | RNaN => None
  end.

(** ** Peripherals *)

Inductive pin : Type := AnalogIn | DOUT | mode | powerMic | READY.

Inductive event : Type :=
  | SetDigitalInput (p : pin)
  | SetDigitalOutput (p : pin)
  | SetAnalogMode (p : pin)
  | SetLow (p : pin)
  | SetHigh (p : pin)
  | delay_ms (n : Z)
  | ADCC_Initialize
  | ADCC_StartConversion
  | ADCC_StopConversion.

#[global] Instance pin_eq_dec : EqDecision pin.
Proof. solve_decision. Defined.

#[global] Instance event_eq_dec : EqDecision event.
Proof. solve_decision. Defined.

(** ** Program state: the file's variables and the registers it touches *)

Record state : Type := mkState {
  presSumSquared : R;            (* float *)
  adcScaler : R;                 (* float *)
  measurementRunning : bool;
  sampling : bool;
  sampleCounter : Z;             (* uint16_t *)
  sampleSum : Z;                 (* uint32_t *)
  sampleAverage : R;             (* float *)
  sampleArray : list Z;          (* uint16_t [SAMPLES] *)
  measurementData : Z * Z;       (* uint8_t [2]: msb, lsb *)
  thresholdEnabled : Z;          (* __persistent uint8_t *)
  thresholdLevel : Z;            (* uint16_t *)
  polledMeasurement : bool;
  overThreshold : bool;
  nTO : bool;                    (* STATUSbits.nTO *)
  WDTCON0 : Z;                   (* bit 0: WDTCON0bits.SWDTEN *)
  WDTCON1 : Z;
  adc_continuous : bool;         (* continuous conversion mode *)
  adc_converting : bool;         (* a conversion is in progress *)
  trace : list event
}.

Definition set_presSumSquared (v : R) (s : state) : state :=
  mkState v (adcScaler s) (measurementRunning s) (sampling s) (sampleCounter s)
    (sampleSum s) (sampleAverage s) (sampleArray s) (measurementData s)
    (thresholdEnabled s) (thresholdLevel s) (polledMeasurement s)
    (overThreshold s) (nTO s) (WDTCON0 s) (WDTCON1 s)
    (adc_continuous s) (adc_converting s) (trace s).

Definition set_adcScaler (v : R) (s : state) : state :=
  mkState (presSumSquared s) v (measurementRunning s) (sampling s)
    (sampleCounter s) (sampleSum s) (sampleAverage s) (sampleArray s)
    (measurementData s) (thresholdEnabled s) (thresholdLevel s)
    (polledMeasurement s) (overThreshold s) (nTO s) (WDTCON0 s) (WDTCON1 s) (adc_continuous s) (adc_converting s) (trace s).

Definition set_measurementRunning (v : bool) (s : state) : state :=
  mkState (presSumSquared s) (adcScaler s) v (sampling s) (sampleCounter s)
    (sampleSum s) (sampleAverage s) (sampleArray s) (measurementData s)
    (thresholdEnabled s) (thresholdLevel s) (polledMeasurement s)
    (overThreshold s) (nTO s) (WDTCON0 s) (WDTCON1 s)
    (adc_continuous s) (adc_converting s) (trace s).

Definition set_sampling (v : bool) (s : state) : state :=
  mkState (presSumSquared s) (adcScaler s) (measurementRunning s) v
    (sampleCounter s) (sampleSum s) (sampleAverage s) (sampleArray s)
    (measurementData s) (thresholdEnabled s) (thresholdLevel s)
    (polledMeasurement s) (overThreshold s) (nTO s) (WDTCON0 s) (WDTCON1 s) (adc_continuous s) (adc_converting s) (trace s).

Definition set_sampleCounter (v : Z) (s : state) : state :=
  mkState (presSumSquared s) (adcScaler s) (measurementRunning s) (sampling s)
    v (sampleSum s) (sampleAverage s) (sampleArray s) (measurementData s)
    (thresholdEnabled s) (thresholdLevel s) (polledMeasurement s)
    (overThreshold s) (nTO s) (WDTCON0 s) (WDTCON1 s)
    (adc_continuous s) (adc_converting s) (trace s).

Definition set_sampleSum (v : Z) (s : state) : state :=
  mkState (presSumSquared s) (adcScaler s) (measurementRunning s) (sampling s)
    (sampleCounter s) v (sampleAverage s) (sampleArray s) (measurementData s)
    (thresholdEnabled s) (thresholdLevel s) (polledMeasurement s)
    (overThreshold s) (nTO s) (WDTCON0 s) (WDTCON1 s)
    (adc_continuous s) (adc_converting s) (trace s).

Definition set_sampleAverage (v : R) (s : state) : state :=
  mkState (presSumSquared s) (adcScaler s) (measurementRunning s) (sampling s)
    (sampleCounter s) (sampleSum s) v (sampleArray s) (measurementData s)
    (thresholdEnabled s) (thresholdLevel s) (polledMeasurement s)
    (overThreshold s) (nTO s) (WDTCON0 s) (WDTCON1 s)
    (adc_continuous s) (adc_converting s) (trace s).

Definition set_sampleArray (v : list Z) (s : state) : state :=
  mkState (presSumSquared s) (adcScaler s) (measurementRunning s) (sampling s)
    (sampleCounter s) (sampleSum s) (sampleAverage s) v (measurementData s)
    (thresholdEnabled s) (thresholdLevel s) (polledMeasurement s)
    (overThreshold s) (nTO s) (WDTCON0 s) (WDTCON1 s)
    (adc_continuous s) (adc_converting s) (trace s).

Definition set_measurementData (v : Z * Z) (s : state) : state :=
  mkState (presSumSquared s) (adcScaler s) (measurementRunning s) (sampling s)
    (sampleCounter s) (sampleSum s) (sampleAverage s) (sampleArray s) v
    (thresholdEnabled s) (thresholdLevel s) (polledMeasurement s)
    (overThreshold s) (nTO s) (WDTCON0 s) (WDTCON1 s)
    (adc_continuous s) (adc_converting s) (trace s).

Definition set_thresholdEnabled (v : Z) (s : state) : state :=
  mkState (presSumSquared s) (adcScaler s) (measurementRunning s) (sampling s)
    (sampleCounter s) (sampleSum s) (sampleAverage s) (sampleArray s)
    (measurementData s) v (thresholdLevel s) (polledMeasurement s)
    (overThreshold s) (nTO s) (WDTCON0 s) (WDTCON1 s)
    (adc_continuous s) (adc_converting s) (trace s).

Definition set_thresholdLevel (v : Z) (s : state) : state :=
  mkState (presSumSquared s) (adcScaler s) (measurementRunning s) (sampling s)
    (sampleCounter s) (sampleSum s) (sampleAverage s) (sampleArray s)
    (measurementData s) (thresholdEnabled s) v (polledMeasurement s)
    (overThreshold s) (nTO s) (WDTCON0 s) (WDTCON1 s)
    (adc_continuous s) (adc_converting s) (trace s).

Definition set_polledMeasurement (v : bool) (s : state) : state :=
  mkState (presSumSquared s) (adcScaler s) (measurementRunning s) (sampling s)
    (sampleCounter s) (sampleSum s) (sampleAverage s) (sampleArray s)
    (measurementData s) (thresholdEnabled s) (thresholdLevel s) v
    (overThreshold s) (nTO s) (WDTCON0 s) (WDTCON1 s)
    (adc_continuous s) (adc_converting s) (trace s).

Definition set_overThreshold (v : bool) (s : state) : state :=
  mkState (presSumSquared s) (adcScaler s) (measurementRunning s) (sampling s)
    (sampleCounter s) (sampleSum s) (sampleAverage s) (sampleArray s)
    (measurementData s) (thresholdEnabled s) (thresholdLevel s)
    (polledMeasurement s) v (nTO s) (WDTCON0 s) (WDTCON1 s)
    (adc_continuous s) (adc_converting s) (trace s).

Definition set_nTO (v : bool) (s : state) : state :=
  mkState (presSumSquared s) (adcScaler s) (measurementRunning s) (sampling s)
    (sampleCounter s) (sampleSum s) (sampleAverage s) (sampleArray s)
    (measurementData s) (thresholdEnabled s) (thresholdLevel s)
    (polledMeasurement s) (overThreshold s) v (WDTCON0 s) (WDTCON1 s) (adc_continuous s) (adc_converting s) (trace s).

Definition set_WDTCON (v0 v1 : Z) (s : state) : state :=
  mkState (presSumSquared s) (adcScaler s) (measurementRunning s) (sampling s)
    (sampleCounter s) (sampleSum s) (sampleAverage s) (sampleArray s)
    (measurementData s) (thresholdEnabled s) (thresholdLevel s)
    (polledMeasurement s) (overThreshold s) (nTO s) v0 v1
    (adc_continuous s) (adc_converting s) (trace s).

(** [WDTCON0bits.SWDTEN], the software enable of the watchdog: bit 0 of
    [WDTCON0], so that a write to the whole register writes it too. *)
Definition SWDTEN (s : state) : bool := Z.testbit (WDTCON0 s) 0.

Definition set_SWDTEN (v : bool) (s : state) : state :=
  set_WDTCON
    (if v then Z.lor (WDTCON0 s) 1 else Z.land (WDTCON0 s) (Z.lnot 1))
    (WDTCON1 s) s.

Definition set_adc (continuous converting : bool) (s : state) : state :=
  mkState (presSumSquared s) (adcScaler s) (measurementRunning s) (sampling s)
    (sampleCounter s) (sampleSum s) (sampleAverage s) (sampleArray s)
    (measurementData s) (thresholdEnabled s) (thresholdLevel s)
    (polledMeasurement s) (overThreshold s) (nTO s) (WDTCON0 s) (WDTCON1 s) continuous converting (trace s).

Definition emit (es : list event) (s : state) : state :=
  mkState (presSumSquared s) (adcScaler s) (measurementRunning s) (sampling s)
    (sampleCounter s) (sampleSum s) (sampleAverage s) (sampleArray s)
    (measurementData s) (thresholdEnabled s) (thresholdLevel s)
    (polledMeasurement s) (overThreshold s) (nTO s) (WDTCON0 s) (WDTCON1 s) (adc_continuous s) (adc_converting s) (trace s ++ es).

(** ** Peripheral primitives *)

(** [CLRWDT()] refreshes the watchdog and sets [nTO] back to 1
    ("CLRWDT will reset it to 1", source line 128). *)
Definition CLRWDT (s : state) : state := set_nTO true s.

Definition SoundLevel_StartADC (s : state) : state :=
  emit [ADCC_StartConversion] (set_adc true true s).

Definition SoundLevel_StopADC (s : state) : state :=
  emit [ADCC_StopConversion] (set_adc false false s).

(** The LED helpers have an empty body unless BLINK_ACTIVE_LED is defined. *)
Definition SoundLevel_LedOn (s : state) : state := s.
Definition SoundLevel_LedOff (s : state) : state := s.

(** One pulse of the host-interrupt line. *)
Definition pulse : list event := [SetLow READY; delay_ms 5; SetHigh READY].

Definition generateInt (s : state) : state := emit pulse s.

(** ** Boot *)

(** What boot-time cause detection reports: [nTO] "becomes 0 after
    WDT-int has occurred" (source lines 128 and 151). *)
Definition watchdog_expiry_reported (s : state) : bool := negb (nTO s).

(** The state at the entry of [SoundLevel_Init]: the C start-up code has
    given every variable its initial value, except the [__persistent]
    [thresholdEnabled], which holds what it held before the reset; [nTO]
    is as the hardware left it. *)
Definition boot (persisted : Z) (nTO_bit : bool) : state :=
  mkState 0%R 0%R false false 0 0 0%R (replicate (Z.to_nat SAMPLES) 0)
    (0, 0) persisted 0 false false nTO_bit 0 0 false false [].

Definition SoundLevel_Init (s : state) : state :=
  let s := emit [SetDigitalInput AnalogIn; SetAnalogMode AnalogIn;
                 SetDigitalInput DOUT;
                 SetDigitalOutput mode; SetLow mode;
                 SetDigitalOutput powerMic; SetLow powerMic] s in
  let s := set_adcScaler
             (V_SUPPLY / (ADC_SCALE * SENSITIVITY * AMP_FACTOR))%R s in
  let s := emit [ADCC_Initialize] s in
  let s := set_WDTCON 0x14 0x07 s in
  let s := if nTO s then set_thresholdEnabled 0 s else s in
  let s := CLRWDT s in
  set_SWDTEN true s.

(** ** Public operations *)

Definition SoundLevel_Measure (s : state) : state :=
  set_polledMeasurement true s.

Definition SoundLevel_GetData (s : state) : Z * (Z * Z) :=
  (2, measurementData s).

(** [thresholdData] is the caller's buffer; reading past its end is
    undefined. *)
Definition SoundLevel_SetThreshold (metric : Z) (thresholdData : list Z)
    (s : state) : option state :=
  if decide (metric = 0) then
    match thresholdData !! 0%nat, thresholdData !! 3%nat,
          thresholdData !! 4%nat with
    | Some b0, Some b3, Some b4 =>
        let s := set_thresholdEnabled b0 s in
        let s := set_thresholdLevel (u16 (Z.lor (Z.shiftl b3 8) b4)) s in
        Some (if decide (thresholdEnabled s = 0) then s
              else set_SWDTEN true s)
    | _, _, _ => None
    end
  else Some s.

(** ** Sampling *)

(** The ADC interrupt callback; [sample] is the conversion result.  A
    write at an index outside [sampleArray] is undefined. *)
Definition SoundLevel_GetSample (sample : Z) (s : state) : option state :=
  if decide (0 <= sampleCounter s < SAMPLES) then
    let s := set_sampleArray
               (<[Z.to_nat (sampleCounter s) := sample]> (sampleArray s)) s in
    let s := set_sampleSum (u32 (sampleSum s + sample)) s in
    let s := set_sampleCounter (u16 (sampleCounter s + 1)) s in
    Some (if decide (sampleCounter s > SAMPLES - 1)
          then set_sampling false (SoundLevel_StopADC s)
          else s)
  else None.

(** [while(sampling) CLRWDT();] with the conversion results that the ADC
    delivers meanwhile, one callback each.  With no result left and
    [sampling] still set, the loop does not end. *)
Fixpoint wait_sampling (codes : list Z) (s : state) : option state :=
  if sampling s then
    match codes with
    | [] => None
    | c :: codes' => SoundLevel_GetSample c (CLRWDT s) ≫= wait_sampling codes'
    end
  else Some s.

(** ** Reduction *)

Definition processSamples (s : state) : state :=
  let s := set_sampleAverage (IZR (sampleSum s) / IZR SAMPLES)%R s in
  let step (acc : R) (i : nat) : R :=
    let sampleToPressure :=
      ((IZR (nth i (sampleArray s) 0%Z) - sampleAverage s) * adcScaler s)%R in
    (acc + sampleToPressure * sampleToPressure)%R in
  set_presSumSquared
    (fold_left step (seq 0 (Z.to_nat SAMPLES)) (presSumSquared s)) s.

(** The decibel value before clamping. *)
Definition dBZ_raw (s : state) : fval :=
  let presAvgSquared := (presSumSquared s / IZR SAMPLES)%R in
  fscale 10 (log10 (presAvgSquared / (REF_PRESSURE * REF_PRESSURE))%R).

(** [dBZ] after [if(dBZ > DBZ_MAX) dBZ = DBZ_MAX;]. *)
Definition dBZ (s : state) : fval :=
  if fgt (dBZ_raw s) DBZ_MAX then Finite DBZ_MAX else dBZ_raw s.

Definition dataToSend (s : state) : option Z :=
  to_uint16 (fround (fscale SCALE_FACTOR (dBZ s))).

(** The "notify motherboard" part of [SoundLevel_PrepareData]. *)
Definition notify_motherboard (d : Z) (s : state) : state :=
  if polledMeasurement s then generateInt s
  else
    let s :=
      if decide (d > thresholdLevel s) then
        if overThreshold s then s
        else generateInt (set_overThreshold true s)
      else set_overThreshold false s in
    set_SWDTEN true s.

Definition SoundLevel_PrepareData (s : state) : option state :=
  d ← dataToSend s;
  let s := set_measurementData (u8 (Z.shiftr d 8), u8 d) s in
  Some (SoundLevel_LedOff (notify_motherboard d s)).

(** ** One measurement cycle and the foreground loop *)

Definition measure (codes : list Z) (s : state) : option state :=
  let s := SoundLevel_LedOn (CLRWDT s) in
  let s := set_sampling true s in
  let s := set_sampleCounter 0 s in
  let s := set_presSumSquared 0%R s in
  let s := set_sampleSum 0 s in
  let s := emit [SetHigh powerMic; delay_ms 500] s in
  let s := SoundLevel_StartADC s in
  s ← wait_sampling codes s;
  let s := processSamples s in
  let s := CLRWDT s in
  let s := emit [SetLow powerMic] s in
  SoundLevel_PrepareData s.

Definition SoundLevel_Loop (codes : list Z) (s : state) : option state :=
  let startMeasurement :=
    negb (nTO s) && negb (measurementRunning s)
    && negb (thresholdEnabled s =? 0) in
  let s := if nTO s then s else set_SWDTEN true s in
  let s := CLRWDT s in
  if startMeasurement || polledMeasurement s then
    s ← measure codes (set_measurementRunning true s);
    Some (set_measurementRunning false (set_polledMeasurement false s))
  else Some s.

(** A watchdog time-out while the device sleeps wakes it up with [nTO]
    at 0 ("nTO = 0 if WDT overflow has occurred while sleeping", source
    line 151). *)
Definition wdt_timeout (s : state) : state := set_nTO false s.

(** The number of pulses of the host-interrupt line in a trace. *)
Definition interrupts (t : list event) : nat :=
  length (filter (fun e => e = SetLow READY) t).

(** The two bytes of [SoundLevel_GetData] read as one big-endian value. *)
Definition transmitted (s : state) : Z :=
  let '(_, (msb, lsb)) := SoundLevel_GetData s in msb * 2 ^ 8 + lsb.

(** ** The interrupt source *)

(** The callback invoked once per conversion result, in arrival order. *)
Fixpoint callbacks (codes : list Z) (s : state) : option state :=
  match codes with
  | [] => Some s
  | c :: codes' => SoundLevel_GetSample c s ≫= callbacks codes'
  end.

Definition Zsum (l : list Z) : Z := foldr Z.add 0 l.
Definition Rsum (l : list R) : R := foldr Rplus 0%R l.

(** The variables that sampling does not touch. *)
Definition outside_sampling (s s' : state) : Prop :=
  presSumSquared s' = presSumSquared s /\
  adcScaler s' = adcScaler s /\
  sampleAverage s' = sampleAverage s /\
  measurementRunning s' = measurementRunning s /\
  measurementData s' = measurementData s /\
  thresholdEnabled s' = thresholdEnabled s /\
  thresholdLevel s' = thresholdLevel s /\
  polledMeasurement s' = polledMeasurement s /\
  overThreshold s' = overThreshold s /\
  SWDTEN s' = SWDTEN s.

(** ** The reduction as the specification words it *)

Definition spec_adcScaler : R := (3.3 / (4095 * 0.01258925 * 44))%R.

Definition spec_mean (sum : Z) : R := (IZR sum / 400)%R.

Definition spec_pressure (mean : R) (sample : Z) : R :=
  ((IZR sample - mean) * spec_adcScaler)%R.

Definition spec_sumSquares (samples : list Z) (sum : Z) : R :=
  Rsum (map (fun x => (spec_pressure (spec_mean sum) x) ^ 2)%R samples).

Definition spec_avgSquared (samples : list Z) (sum : Z) : R :=
  (spec_sumSquares samples sum / 400)%R.

Definition spec_dB (samples : list Z) (sum : Z) : fval :=
  fscale 10 (log10 (spec_avgSquared samples sum / (20e-6) ^ 2)%R).

Definition spec_output (samples : list Z) (sum : Z) : option Z :=
  let dB := spec_dB samples sum in
  let clamped := if fgt dB 106 then Finite 106 else dB in
  to_uint16 (fround (fscale 600 clamped)).

(** What the foreground loop needs to start an autonomous cycle once the
    watchdog has timed out, with the buffer and the calibration constant
    in place. *)
Definition autonomous_ready (s : state) : Prop :=
  polledMeasurement s = false /\
  measurementRunning s = false /\
  thresholdEnabled s <> 0 /\
  length (sampleArray s) = 400%nat /\
  adcScaler s = spec_adcScaler.

(** ** Some states and conversion sequences *)

(** After a power-on reset and [SoundLevel_Init]. *)
Definition powered_on : state := SoundLevel_Init (boot 0 true).

(** Threshold mode enabled by the host with level 50000 = 0xC350. *)
Definition armed_50000 : state :=
  default powered_on
    (SoundLevel_SetThreshold 0 [1; 0; 0; 195; 80] powered_on).

(** A cycle about to sample: the control variables as [measure] sets them. *)
Definition sampling_started : state :=
  SoundLevel_StartADC
    (set_sampleSum 0 (set_sampleCounter 0 (set_sampling true powered_on))).

(** A buffer of 400 samples of the same value 2048, ready to be reduced. *)
Definition silent : state :=
  set_sampleSum (400 * 2048)
    (set_sampleArray (replicate 400 2048) powered_on).

(** A buffer that swings over the whole 16-bit range, ready to be
    reduced. *)
Definition clipping : state :=
  set_sampleSum (200 * 65535)
    (set_sampleArray (replicate 200 0 ++ replicate 200 65535) powered_on).

(** Two conversion sequences around the mid-scale value 2000: a loud one
    (about 100 dB) and a quiet one (about 66.7 dB). *)
Definition burst : list Z :=
  replicate 149 3375 ++ replicate 149 625 ++
  replicate 51 3374 ++ replicate 51 626.

Definition hum : list Z :=
  replicate 123 2030 ++ replicate 123 1970 ++
  replicate 77 2029 ++ replicate 77 1971.

(** ** Resets and runs of cycles *)

(** The state after a watchdog reset: the C start-up code re-initialises
    every variable except the [__persistent] flag, and [nTO] reads 0. *)
Definition watchdog_reset (s : state) : state := boot (thresholdEnabled s) false.

(** A run of autonomous cycles, one watchdog wake-up before each, with the
    values it leaves for [SoundLevel_GetData] on the way. *)
Fixpoint autonomous_run (cycles : list (list Z)) (s : state)
    : option (list Z * state) :=
  match cycles with
  | [] => Some ([], s)
  | codes :: cycles' =>
      s1 ← SoundLevel_Loop codes (wdt_timeout s);
      r ← autonomous_run cycles' s1;
      Some (transmitted s1 :: r.1, r.2)
  end.

(** The number of crossings from "not above [level]" to "above [level]" in
    a sequence of values, starting from the edge state [above]. *)
Fixpoint rising_edges (level : Z) (above : bool) (values : list Z) : nat :=
  match values with
  | [] => 0%nat
  | v :: values' =>
      ((if decide (v > level)%Z then if above then 0 else 1 else 0)
       + rising_edges level (bool_decide (v > level)%Z) values')%nat
  end.

(** * Power sensor (the second source file: Power_Init, Power_Measure,
      Power_Loop, Power_GetData, Power_SetThreshold)

    The same conventions.  [M_NR], the number of 16-bit values of the
    result buffer [measurementData[2 * M_NR]], comes from a header that is
    not part of the sources: it is a parameter.  The register set-up of
    [Power_Init] is not modelled. *)

Module Power.

Definition SOL_VOLT : Z := 0x13.
Definition BAT_VOLT : Z := 0x14.

Inductive pin : Type := SOL_MEAS_EN | BAT_MEAS_EN | LED0 | LED1 | READY.

Inductive event : Type :=
  | SetHigh (p : pin)
  | SetLow (p : pin)
  | delay_ms (n : Z)
  | ADCC_GetSingleConversion (channel : Z).

#[global] Instance power_pin_eq_dec : EqDecision pin.
Proof. solve_decision. Defined.

#[global] Instance power_event_eq_dec : EqDecision event.
Proof. solve_decision. Defined.

Record state : Type := mkState {
  startMeasurement : bool;
  measurementRunning : bool;
  measurementData : list Z;      (* volatile uint8_t [2 * M_NR] *)
  floatsolvoltage : R;           (* float *)
  floatbatvoltage : R;           (* float *)
  solvoltage : Z;                (* uint16_t *)
  tempValue : Z;                 (* uint16_t *)
  batvoltage : Z;                (* uint16_t *)
  batteryundervoltage : Z;       (* uint8_t *)
  FVRCON : Z;
  trace : list event
}.

(** The five results that [ADCC_GetSingleConversion] returns during one
    measurement, in the order of the calls. *)
Record conversions : Type := mkConversions {
  sol_rejected : Z;
  sol_first : Z;
  sol_second : Z;
  bat_rejected : Z;
  bat_value : Z
}.

Definition set_FVRCON (v : Z) (s : state) : state :=
  mkState (startMeasurement s) (measurementRunning s) (measurementData s)
    (floatsolvoltage s) (floatbatvoltage s) (solvoltage s) (tempValue s)
    (batvoltage s) (batteryundervoltage s) v (trace s).

Definition Power_Measure (s : state) : state :=
  mkState true (measurementRunning s) (measurementData s)
    (floatsolvoltage s) (floatbatvoltage s) (solvoltage s) (tempValue s)
    (batvoltage s) (batteryundervoltage s) (FVRCON s) (trace s).

(** [data[i] = v]: a write past the end of the buffer is undefined. *)
Definition store (i : nat) (v : Z) (data : list Z) : option (list Z) :=
  if decide (i < length data)%nat then Some (<[i := v]> data) else None.

(** [((float)code / 4096) * 2 * 2.048] *)
Definition voltage (code : Z) : R := (IZR code / 4096 * 2 * 2.048)%R.

(** [(uint16_t)(round(v * 600))] *)
Definition scaled (v : R) : option Z :=
  to_uint16 (RInt (round_real (v * 600)%R)).

Definition pulse : list event := [SetLow READY; delay_ms 5; SetHigh READY].

Definition Power_Loop (adc : conversions) (s : state) : option state :=
  let s := set_FVRCON 0x82 s in
  if startMeasurement s && negb (measurementRunning s) then
    let solvoltage1 := sol_first adc in
    let tempValue' := sol_second adc in
    let solvoltage' :=
      if decide (tempValue' < solvoltage1) then tempValue' else solvoltage1 in
    let floatsolvoltage' := voltage solvoltage' in
    let batvoltage' := bat_value adc in
    let floatbatvoltage' := voltage batvoltage' in
    let under1 :=
      if Rlt_dec floatbatvoltage' 3.3 then 1 else batteryundervoltage s in
    let under2 :=
      if decide (under1 = 1) then
        if Rgt_dec floatbatvoltage' 3.5 then 0 else under1
      else under1 in
    databatvoltage ← scaled floatbatvoltage';
    datasolvoltage ← scaled floatsolvoltage';
    data ← store 0 (u8 (Z.shiftr databatvoltage 8)) (measurementData s);
    data ← store 1 (u8 databatvoltage) data;
    data ← store 2 (u8 (Z.shiftr datasolvoltage 8)) data;
    data ← store 3 (u8 datasolvoltage) data;
    data ← store 4 (u8 under2) data;
    data ← store 5 0x00 data;
    Some (mkState false false data floatsolvoltage' floatbatvoltage'
            solvoltage' tempValue' batvoltage' under2 0x00
            (trace s ++
             [SetHigh SOL_MEAS_EN; SetHigh BAT_MEAS_EN;
              SetHigh LED1; SetHigh LED0; delay_ms 50;
              ADCC_GetSingleConversion SOL_VOLT;
              ADCC_GetSingleConversion SOL_VOLT; delay_ms 2000;
              ADCC_GetSingleConversion SOL_VOLT;
              ADCC_GetSingleConversion BAT_VOLT;
              ADCC_GetSingleConversion BAT_VOLT;
              SetLow SOL_MEAS_EN; SetLow BAT_MEAS_EN;
              SetLow LED0; SetLow LED1] ++ pulse))
  else Some (set_FVRCON 0x00 s).

(** [*length = 2; data[0] = measurementData[0]; data[1] = ...[1]] *)
Definition Power_GetData (s : state) : option (Z * (Z * Z)) :=
  d0 ← measurementData s !! 0%nat;
  d1 ← measurementData s !! 1%nat;
  Some (2, (d0, d1)).

Definition Power_SetThreshold (metric : Z) (thresholdData : list Z)
    (s : state) : state := s.

Definition interrupts (t : list event) : nat :=
  length (filter (fun e => e = SetLow READY) t).

(** The variables as the C start-up code leaves them, for a buffer of
    [M_NR] 16-bit values. *)
Definition boot (M_NR : nat) : state :=
  mkState false false (replicate (2 * M_NR) 0) 0%R 0%R 0 0 0 0 0 [].

End Power.

(** A measurement of the power sensor: solar readings 2900 and 2850,
    battery reading 3700. *)
Definition Power_sample : Power.conversions :=
  Power.mkConversions 0 2900 2850 0 3700.

(** * The reduction in the float arithmetic of the target

    The reduction of [processSamples] and [SoundLevel_PrepareData] once
    more, with every float operation of the source as the IEEE 754
    binary32 operation (round to nearest, ties to even; [SpecFloat] of the
    Standard Library), for the properties that depend on rounding.
    - [float] and [double] are both binary32, as in the C99 mode of the
      target's compiler (the mode that has [round]).
    - A decimal literal is the binary32 value nearest to it.
    - [log10] belongs to the C library, not to the sources: it is a
      parameter, [log10f], of the definitions that call it. *)

Module Binary32.

Definition prec : Z := 24.
Definition emax : Z := 128.

Definition fadd : spec_float -> spec_float -> spec_float := SFadd prec emax.
Definition fsub : spec_float -> spec_float -> spec_float := SFsub prec emax.
Definition fmul : spec_float -> spec_float -> spec_float := SFmul prec emax.
Definition fdiv : spec_float -> spec_float -> spec_float := SFdiv prec emax.

(** [(float) z] for an integer [z]. *)
Definition of_Z (z : Z) : spec_float := binary_normalize prec emax z 0 false.

(** The decimal literal [num / den], both parts exactly representable. *)
Definition literal (num den : Z) : spec_float := fdiv (of_Z num) (of_Z den).

Definition zero : spec_float := S754_zero false.

(** [x > y]: false when either side is NaN. *)
Definition fgt (x y : spec_float) : bool := SFltb y x.

(** [round] of math.h, halves away from zero, as an integer; infinities
    and NaN have none. *)
Definition fround (x : spec_float) : option Z :=
  match x with
  | S754_zero _ => Some 0
  | S754_finite s m e =>
      let r :=
        match e with
        | Z0 => Zpos m
        | Zpos p => Zpos m * 2 ^ Zpos p
        | Zneg p => (2 * Zpos m + 2 ^ Zpos p) / (2 * 2 ^ Zpos p)
        end in
      Some (if s then - r else r)
  | S754_infinity _ => None
  | S754_nan => None
  end.

(** [(uint16_t) round(x)]: undefined when the rounded value is not
    representable in 16 bits, in particular on infinities and NaN. *)
Definition to_uint16 (x : spec_float) : option Z :=
  z ← fround x;
  if decide (0 <= z < 2 ^ 16) then Some z else None.

(** ** Local constants of sound_level.c *)

Definition SAMPLES : Z := 400.
Definition AMP_FACTOR : spec_float := of_Z 44.
Definition SENSITIVITY : spec_float := literal 1258925 100000000.
Definition V_SUPPLY : spec_float := literal 33 10.
Definition ADC_SCALE : spec_float := of_Z 4095.
Definition REF_PRESSURE : spec_float := literal 20 1000000.
Definition DBZ_MAX : spec_float := of_Z 106.
Definition SCALE_FACTOR : spec_float := of_Z 600.

(** ** The variables of the reduction *)

Record vars : Type := mkVars {
  presSumSquared : spec_float;     (* float *)
  adcScaler : spec_float;          (* float *)
  sampleSum : Z;                   (* uint32_t *)
  sampleAverage : spec_float;      (* float *)
  sampleArray : list Z;            (* uint16_t [SAMPLES] *)
  measurementData : Z * Z          (* volatile uint8_t [2] *)
}.

(** [adcScaler = V_SUPPLY / (ADC_SCALE * SENSITIVITY * AMP_FACTOR);] of
    [SoundLevel_Init]. *)
Definition SoundLevel_Init (v : vars) : vars :=
  mkVars (presSumSquared v)
    (fdiv V_SUPPLY (fmul (fmul ADC_SCALE SENSITIVITY) AMP_FACTOR))
    (sampleSum v) (sampleAverage v) (sampleArray v) (measurementData v).

(** The variables when [measure] calls [processSamples] in a cycle that
    sampled [codes]: the accumulator as [measure] has reset it, the
    buffer and the running sum as the callbacks have left them. *)
Definition completed (codes : list Z) : vars :=
  SoundLevel_Init (mkVars zero zero (foldr Z.add 0 codes) zero codes (0, 0)).

Definition processSamples (v : vars) : vars :=
  let sampleAverage' := fdiv (of_Z (sampleSum v)) (of_Z SAMPLES) in
  let step (acc : spec_float) (i : nat) : spec_float :=
    let sampleToPressure :=
      fmul (fsub (of_Z (nth i (sampleArray v) 0)) sampleAverage')
           (adcScaler v) in
    fadd acc (fmul sampleToPressure sampleToPressure) in
  mkVars (fold_left step (seq 0 (Z.to_nat SAMPLES)) (presSumSquared v))
    (adcScaler v) (sampleSum v) sampleAverage' (sampleArray v)
    (measurementData v).

(** The squared pressures that [processSamples] adds up in a cycle that
    sampled [codes], in the order of the buffer. *)
Definition squared_pressures (codes : list Z) : list spec_float :=
  let v := completed codes in
  let mean := fdiv (of_Z (sampleSum v)) (of_Z SAMPLES) in
  map (fun code =>
         let sampleToPressure :=
           fmul (fsub (of_Z code) mean) (adcScaler v) in
         fmul sampleToPressure sampleToPressure)
      codes.

(** The argument of [log10]. *)
Definition pressure_ratio (v : vars) : spec_float :=
  let presAvgSquared := fdiv (presSumSquared v) (of_Z SAMPLES) in
  fdiv presAvgSquared (fmul REF_PRESSURE REF_PRESSURE).

Definition dBZ_raw (log10f : spec_float -> spec_float) (v : vars)
    : spec_float :=
  fmul (of_Z 10) (log10f (pressure_ratio v)).

Definition dBZ (log10f : spec_float -> spec_float) (v : vars) : spec_float :=
  if fgt (dBZ_raw log10f v) DBZ_MAX then DBZ_MAX else dBZ_raw log10f v.

Definition dataToSend (log10f : spec_float -> spec_float) (v : vars)
    : option Z :=
  to_uint16 (fmul (dBZ log10f v) SCALE_FACTOR).

(** [SoundLevel_PrepareData] up to the two stores into
    [measurementData]; the notification that follows does not depend on
    float arithmetic. *)
Definition SoundLevel_PrepareData (log10f : spec_float -> spec_float)
    (v : vars) : option vars :=
  d ← dataToSend log10f v;
  Some (mkVars (presSumSquared v) (adcScaler v) (sampleSum v)
          (sampleAverage v) (sampleArray v) (u8 (Z.shiftr d 8), u8 d)).

(** ** The C library's [log10] *)

(** The real number a finite float stands for. *)
Definition F2R (x : spec_float) : R :=
  match x with
  | S754_finite s m e =>
      let r :=
        match e with
        | Z0 => IZR (Zpos m)
        | Zpos p => IZR (Zpos m * 2 ^ Zpos p)
        | Zneg p => (IZR (Zpos m) / IZR (2 ^ Zpos p))%R
        end in
      if s then (- r)%R else r
  | _ => 0%R
  end.

(** [log10f] is accurate at [x]: its result there is a binary32 number
    within [2 ^ -19] of the decimal logarithm of [x] (two units in the
    last place for a result between 8 and 16). *)
Definition log10_accurate (log10f : spec_float -> spec_float)
    (x : spec_float) : Prop :=
  valid_binary prec emax (log10f x) = true /\
  (Rabs (F2R (log10f x) - ln (F2R x) / ln 10) <= / 2 ^ 19)%R.

(** ** The formulas of the reduction, as the spec words them, in
    binary32 arithmetic (24 bits of precision, exponents below 128) and
    in buffer order *)

(** The binary32 value of an integer and of a decimal fraction. *)
Definition spec_number (z : Z) : spec_float :=
  binary_normalize 24 128 z 0 false.

Definition spec_decimal (num den : Z) : spec_float :=
  SFdiv 24 128 (spec_number num) (spec_number den).

(** [3.3 / (4095 * 0.01258925 * 44)] *)
Definition spec_adcScaler : spec_float :=
  SFdiv 24 128 (spec_decimal 33 10)
    (SFmul 24 128
       (SFmul 24 128 (spec_number 4095) (spec_decimal 1258925 100000000))
       (spec_number 44)).

Definition spec_mean (sum : Z) : spec_float :=
  SFdiv 24 128 (spec_number sum) (spec_number 400).

Definition spec_pressure (mean : spec_float) (sample : Z) : spec_float :=
  SFmul 24 128 (SFsub 24 128 (spec_number sample) mean) spec_adcScaler.

Definition spec_sumSquares (samples : list Z) (sum : Z) : spec_float :=
  fold_left
    (fun acc sample =>
       SFadd 24 128 acc
         (SFmul 24 128 (spec_pressure (spec_mean sum) sample)
                       (spec_pressure (spec_mean sum) sample)))
    samples (S754_zero false).

Definition spec_avgSquared (samples : list Z) (sum : Z) : spec_float :=
  SFdiv 24 128 (spec_sumSquares samples sum) (spec_number 400).

(** [10 * log10 (avgSquared / (20e-6) ^ 2)] *)
Definition spec_dB (log10f : spec_float -> spec_float)
    (samples : list Z) (sum : Z) : spec_float :=
  SFmul 24 128 (spec_number 10)
    (log10f
       (SFdiv 24 128 (spec_avgSquared samples sum)
          (SFmul 24 128 (spec_decimal 20 1000000)
                        (spec_decimal 20 1000000)))).

(** [round (dB * 600)] as the 16-bit result, after clamping [dB] at
    106. *)
Definition spec_output (log10f : spec_float -> spec_float)
    (samples : list Z) (sum : Z) : option Z :=
  let dB := spec_dB log10f samples sum in
  let clamped :=
    if SFltb (spec_number 106) dB then spec_number 106 else dB in
  to_uint16 (SFmul 24 128 clamped (spec_number 600)).

End Binary32.

(** Ten samples 0 followed by 390 samples 1798, and the same samples in
    the opposite order. *)
Definition step_up : list Z := replicate 10 0 ++ replicate 390 1798.
Definition step_down : list Z := replicate 390 1798 ++ replicate 10 0.

(** Samples that swing over the whole 16-bit range. *)
Definition full_swing : list Z := replicate 200 0 ++ replicate 200 65535.

(** A [log10] given by its values at the arguments it receives for
    [step_up], [step_down] and [full_swing]. *)
Definition log10_table (x : spec_float) : spec_float :=
  if SFeqb x (S754_finite false 13029823 5)
  then S754_finite false 9038818 (-20)
  else if SFeqb x (S754_finite false 13029539 5)
  then S754_finite false 9038808 (-20)
  else S754_finite false 13374003 (-20).

(** ** Enclosures of decimal logarithms

    The binary digits of [log10 y] for [1 <= y <= 10], by repeated
    squaring on a fixed-point interval [lo / LOG_SCALE <= y <= hi /
    LOG_SCALE]: the result [(a, b)] encloses [2 ^ n * log10 y]. *)
Definition LOG_SCALE : Z := 10 ^ 40.

Fixpoint log10_digits (n : nat) (lo hi : Z) : Z * Z :=
  match n with
  | O => (0, 1)
  | S n' =>
      let lo2 := lo * lo / LOG_SCALE in
      let hi2 := hi * hi / LOG_SCALE + 1 in
      if 10 * LOG_SCALE <=? lo2 then
        let r := log10_digits n' (lo2 / 10) (hi2 / 10 + 1) in
        (2 ^ Z.of_nat n' + r.1, 2 ^ Z.of_nat n' + r.2)
      else if hi2 <=? 10 * LOG_SCALE then log10_digits n' lo2 hi2
      else (0, 2 ^ Z.of_nat n)
  end.

(** * Properties *)

(** ** Facts about the numeric primitives *)

Section Numeric.

Lemma ln_10_pos : (0 < ln 10)%R.
Proof. rewrite <- ln_1. apply ln_increasing; lra. Qed.

Lemma log10_0 : log10 0 = NegInfinity.
Proof.
  unfold log10.
  destruct (Rlt_dec 0 0) as [H | _]; [lra |].
  destruct (Req_dec_T 0 0) as [_ | H]; [reflexivity | lra].
Qed.

Lemma round_real_IZR (z : Z) : round_real (IZR z) = z.
Proof.
  unfold round_real.
  destruct (Rle_dec 0 (IZR z)) as [Hz | Hz].
  - apply Zfloor_eq. lra.
  - rewrite <- opp_IZR, (Zfloor_eq (- z)); [lia | lra].
Qed.

Lemma fgt_true (v : fval) (k : R) :
  fgt v k = true <-> exists r, v = Finite r /\ (r > k)%R.
Proof.
  split.
  - destruct v as [r | |]; cbn; try discriminate.
    destruct (Rgt_dec r k); [eauto | discriminate].
  - intros (r & -> & Hr). cbn.
    destruct (Rgt_dec r k); [reflexivity | contradiction].
Qed.

Lemma to_uint16_range (x : rounded) (d : Z) :
  to_uint16 x = Some d -> 0 <= d < 2 ^ 16.
Proof.
  destruct x as [z | |]; cbn; try discriminate.
  destruct (decide (0 <= z < 2 ^ 16)); [| discriminate].
  intros [= <-]. assumption.
Qed.

Lemma bytes_value (d : Z) :
  0 <= d < 2 ^ 16 -> u8 (Z.shiftr d 8) * 2 ^ 8 + u8 d = d.
Proof.
  intros Hd. unfold u8. rewrite Z.shiftr_div_pow2 by lia.
  change (2 ^ 8) with 256 in *. change (2 ^ 16) with 65536 in *.
  rewrite (Z.mod_small (d / 256))
    by (split; [apply Z.div_pos; lia | apply Z.div_lt_upper_bound; lia]).
  pose proof (Z.div_mod d 256 ltac:(lia)). lia.
Qed.

Lemma lor_shiftl_8 (hi lo : Z) :
  is_u8 lo -> Z.lor (Z.shiftl hi 8) lo = 256 * hi + lo.
Proof.
  intros [Hlo Hhi].
  rewrite Z.shiftl_mul_pow2 by lia.
  rewrite <- Z.lxor_lor, <- Z.add_nocarry_lxor; try lia.
  all: apply Z.bits_inj'; intros n Hn; rewrite Z.land_spec, Z.bits_0.
  all: destruct (Z.lt_ge_cases n 8) as [Hlt | Hge].
  all: try (rewrite Z.mul_pow2_bits_low by lia; reflexivity).
  all: rewrite (Z.bits_above_log2 lo n), andb_false_r; try reflexivity; try lia.
  all: destruct (Z.eq_dec lo 0) as [-> | Hne]; [simpl; lia |].
  all: apply Z.log2_lt_pow2; try lia.
  all: change (2 ^ 8) with 256 in *;
    assert (2 ^ 8 <= 2 ^ n) by (apply Z.pow_le_mono_r; lia); lia.
Qed.

Lemma Zsum_bound (l : list Z) :
  Forall is_u16 l -> 0 <= Zsum l <= 65535 * Z.of_nat (length l).
Proof.
  induction 1 as [| x l [Hx0 Hx1] _ IH]; cbn [Zsum foldr length]; [lia |].
  fold (Zsum l). change (2 ^ 16) with 65536 in Hx1. lia.
Qed.

Lemma Zsum_replicate (n : nat) (v : Z) :
  Zsum (replicate n v) = Z.of_nat n * v.
Proof.
  induction n as [| n IH]; [reflexivity |].
  cbn [replicate Zsum foldr]. fold (Zsum (replicate n v)). lia.
Qed.

Lemma Rsum_ext (f g : Z -> R) (l : list Z) :
  (forall x, f x = g x) -> Rsum (map f l) = Rsum (map g l).
Proof.
  intros H. induction l as [| x l IH]; cbn; [reflexivity |].
  unfold Rsum in IH. rewrite IH, H. reflexivity.
Qed.

Lemma Rsum_replicate_0 (f : Z -> R) (v : Z) (n : nat) :
  f v = 0%R -> Rsum (map f (replicate n v)) = 0%R.
Proof.
  intros Hf. induction n as [| n IH]; cbn; [reflexivity |].
  unfold Rsum in IH. rewrite IH, Hf. lra.
Qed.

Lemma ln_10_ge_1 : (1 <= ln 10)%R.
Proof.
  rewrite <- (ln_exp 1). left. apply ln_increasing; [apply exp_pos |].
  pose proof exp_le_3. lra.
Qed.

Lemma ln_le_mono (x y : R) : (0 < x)%R -> (x <= y)%R -> (ln x <= ln y)%R.
Proof.
  intros Hx [Hlt | <-];
    [left; apply ln_increasing; assumption | right; reflexivity].
Qed.

Lemma ln_1p_le (e : R) : (0 <= e)%R -> (ln (1 + e) <= e)%R.
Proof.
  intros [He | <-].
  - rewrite <- (ln_exp e) at 2. apply ln_le_mono; [lra |].
    left. apply exp_ineq1. lra.
  - rewrite Rplus_0_r, ln_1. lra.
Qed.

Lemma log10_ge_pow10 (x : R) (n : nat) :
  (10 ^ n <= x)%R -> exists r, log10 x = Finite r /\ (INR n <= r)%R.
Proof.
  intros Hx.
  assert (Hpos : (0 < 10 ^ n)%R) by (apply pow_lt; lra).
  unfold log10. destruct (Rlt_dec 0 x) as [_ | Hn]; [| lra].
  eexists. split; [reflexivity |].
  pose proof ln_10_pos as H10.
  apply Rmult_le_reg_r with (ln 10); [assumption |].
  replace (ln x / ln 10 * ln 10)%R with (ln x) by (field; lra).
  rewrite <- ln_pow by lra. apply ln_le_mono; assumption.
Qed.

(** [log10 x] located from a rational enclosure of a power of [x]. *)
Lemma log10_near (x : R) (k n : nat) (e : R) :
  (0 < x)%R -> (0 <= e)%R ->
  (10 ^ n <= x ^ k * (1 + e))%R -> (x ^ k <= 10 ^ n * (1 + e))%R ->
  exists r, log10 x = Finite r /\
    (INR n - e <= INR k * r <= INR n + e)%R.
Proof.
  intros Hx He Hlo Hhi.
  unfold log10. destruct (Rlt_dec 0 x) as [_ | Hn]; [| contradiction].
  eexists. split; [reflexivity |].
  pose proof ln_10_ge_1 as H10. pose proof (ln_1p_le e He) as H1p.
  assert (Hxk : (0 < x ^ k)%R) by (apply pow_lt; assumption).
  assert (H10n : (0 < 10 ^ n)%R) by (apply pow_lt; lra).
  assert (Hup : (INR k * ln x <= INR n * ln 10 + e)%R).
  { rewrite <- !ln_pow by lra.
    apply Rle_trans with (ln (10 ^ n * (1 + e)));
      [apply ln_le_mono; assumption |].
    rewrite ln_mult by lra. lra. }
  assert (Hdn : (INR n * ln 10 - e <= INR k * ln x)%R).
  { rewrite <- !ln_pow by lra.
    apply Rle_trans with (ln (x ^ k * (1 + e)) - e)%R;
      [apply Rplus_le_compat_r; apply ln_le_mono; assumption |].
    rewrite ln_mult by lra. lra. }
  assert (Hq : (INR k * (ln x / ln 10) = INR k * ln x / ln 10)%R)
    by (field; lra).
  rewrite Hq.
  split; (apply Rmult_le_reg_r with (ln 10); [lra |]);
    replace (INR k * ln x / ln 10 * ln 10)%R with (INR k * ln x)%R
      by (field; lra);
    nra.
Qed.

Lemma round_real_near (r : R) (z : Z) :
  (0 <= r)%R -> (IZR z - / 2 <= r < IZR z + / 2)%R -> round_real r = z.
Proof.
  intros Hpos Hr. unfold round_real.
  destruct (Rle_dec 0 r) as [_ | Hneg]; [| contradiction].
  apply Zfloor_eq. lra.
Qed.

Lemma Rsum_app (l k : list R) : Rsum (l ++ k) = (Rsum l + Rsum k)%R.
Proof.
  unfold Rsum. induction l as [| x l IH]; cbn; [lra |].
  rewrite IH. lra.
Qed.

Lemma Rsum_replicate (f : Z -> R) (v : Z) (n : nat) :
  Rsum (map f (replicate n v)) = (IZR (Z.of_nat n) * f v)%R.
Proof.
  rewrite <- INR_IZR_INZ.
  induction n as [| n IH]; [cbn; lra |].
  rewrite S_INR. cbn [replicate map Rsum foldr].
  fold (Rsum (map f (replicate n v))). rewrite IH. lra.
Qed.

Lemma testbit_lor_1 (w : Z) : Z.testbit (Z.lor w 1) 0 = true.
Proof. rewrite Z.lor_spec. apply orb_true_r. Qed.

End Numeric.

(** Literal sizes of sample blocks, as integers. *)
Ltac literal_sizes :=
  repeat match goal with
    | |- context [Z.of_nat ?n] =>
        let z := eval vm_compute in (Z.of_nat n) in
        change (Z.of_nat n) with z
    end.


(** ** Boot: the persistent threshold-enable flag *)

Lemma Init_adcScaler (s : state) :
  adcScaler (SoundLevel_Init s) =
    (V_SUPPLY / (ADC_SCALE * SENSITIVITY * AMP_FACTOR))%R.
Proof. unfold SoundLevel_Init. cbn. destruct (nTO s); reflexivity. Qed.

(** C1, as amended: [SoundLevel_Init] keeps the persisted
    [thresholdEnabled] exactly when boot-time cause detection reports a
    watchdog expiry ([nTO] reads 0), and forces it to 0 on every other
    reset cause ([nTO] reads 1). *)
Theorem Init_thresholdEnabled (s : state) :
  thresholdEnabled (SoundLevel_Init s) =
    if watchdog_expiry_reported s then thresholdEnabled s else 0.
Proof.
  unfold SoundLevel_Init, watchdog_expiry_reported. cbn.
  destruct (nTO s); reflexivity.
Qed.

(** C1 as stated fails both ways: after a reported watchdog expiry a
    persisted flag of 1 is still 1 after [SoundLevel_Init], and after a
    reset that is not a watchdog expiry the persisted flag 1 is lost. *)
Lemma Init_flag_after_watchdog_expiry :
  (watchdog_expiry_reported (boot 1 false) = true /\
   thresholdEnabled (SoundLevel_Init (boot 1 false)) <> 0) /\
  (watchdog_expiry_reported (boot 1 true) = false /\
   thresholdEnabled (SoundLevel_Init (boot 1 true))
     <> thresholdEnabled (boot 1 true)).
Proof. repeat split; cbn; discriminate. Qed.

(** ** Threshold configuration *)

(** C7: a metric other than 0 leaves the whole state, hence
    [thresholdEnabled] and [thresholdLevel], as it was, whatever the
    payload, and the call completes normally. *)
Theorem SetThreshold_other_metric
    (metric : Z) (thresholdData : list Z) (s : state) :
  metric <> 0 ->
  SoundLevel_SetThreshold metric thresholdData s = Some s.
Proof.
  intros Hm. unfold SoundLevel_SetThreshold.
  destruct (decide (metric = 0)); [contradiction | reflexivity].
Qed.

Lemma SetThreshold_other_metric_witness :
  1 <> 0 /\ SoundLevel_SetThreshold 1 [1; 0; 0; 195; 80] powered_on
            = Some powered_on.
Proof.
  split; [lia | apply SetThreshold_other_metric; lia].
Defined.

(** C10: with metric 0 the enable flag is payload byte 0, the level is
    the big-endian value of bytes 3 and 4, bytes 1 and 2 play no part, and
    the watchdog is software-enabled whenever the new flag is nonzero. *)
Theorem SetThreshold_metric0
    (b0 b1 b2 b3 b4 : Z) (rest : list Z) (s : state) :
  is_u8 b3 -> is_u8 b4 ->
  exists s',
    SoundLevel_SetThreshold 0 (b0 :: b1 :: b2 :: b3 :: b4 :: rest) s = Some s' /\
    thresholdEnabled s' = b0 /\
    thresholdLevel s' = 256 * b3 + b4 /\
    SWDTEN s' = (if decide (b0 = 0) then SWDTEN s else true) /\
    forall b1' b2' : Z,
      SoundLevel_SetThreshold 0 (b0 :: b1' :: b2' :: b3 :: b4 :: rest) s
      = Some s'.
Proof.
  intros H3 H4.
  assert (Hlvl : u16 (Z.lor (Z.shiftl b3 8) b4) = 256 * b3 + b4).
  { rewrite lor_shiftl_8 by assumption. apply Z.mod_small.
    unfold is_u8 in *. lia. }
  unfold SoundLevel_SetThreshold. cbn. rewrite Hlvl.
  destruct (decide (b0 = 0)) as [Hz | Hnz];
    (eexists; split; [reflexivity | repeat split]).
  apply testbit_lor_1.
Qed.

Lemma SetThreshold_metric0_witness :
  exists s',
    SoundLevel_SetThreshold 0 [1; 7; 9; 195; 80] (boot 0 false) = Some s' /\
    thresholdEnabled s' = 1 /\
    thresholdLevel s' = 256 * 195 + 80 /\
    SWDTEN s' = (if decide (1 = 0) then SWDTEN (boot 0 false) else true) /\
    forall b1' b2' : Z,
      SoundLevel_SetThreshold 0 [1; b1'; b2'; 195; 80] (boot 0 false)
      = Some s'.
Proof.
  apply (SetThreshold_metric0 1 7 9 195 80 [] (boot 0 false));
    unfold is_u8; lia.
Defined.


(** ** Notification of the host *)

Section Notify.

Implicit Types (d : Z) (s : state).

(** Case analysis on the branches of [notify_motherboard]. *)
Ltac notify_cases d s :=
  unfold notify_motherboard;
  destruct (polledMeasurement s) eqn:?;
  [| destruct (decide (d > thresholdLevel s));
     [destruct (overThreshold s) eqn:? |]].

Lemma interrupts_app (t u : list event) :
  interrupts (t ++ u) = (interrupts t + interrupts u)%nat.
Proof. unfold interrupts. rewrite filter_app, length_app. reflexivity. Qed.

Lemma notify_frame d s :
  polledMeasurement (notify_motherboard d s) = polledMeasurement s /\
  thresholdLevel (notify_motherboard d s) = thresholdLevel s /\
  thresholdEnabled (notify_motherboard d s) = thresholdEnabled s /\
  measurementData (notify_motherboard d s) = measurementData s.
Proof. notify_cases d s; repeat split; assumption. Qed.


Lemma notify_rising d s :
  polledMeasurement s = false -> d > thresholdLevel s ->
  overThreshold s = false ->
  trace (notify_motherboard d s) = trace s ++ pulse /\
  overThreshold (notify_motherboard d s) = true.
Proof.
  intros Hp Hd Ho. notify_cases d s; try congruence; try lia.
  split; reflexivity.
Qed.

Lemma notify_sustained d s :
  polledMeasurement s = false -> d > thresholdLevel s ->
  overThreshold s = true ->
  trace (notify_motherboard d s) = trace s /\
  overThreshold (notify_motherboard d s) = true.
Proof.
  intros Hp Hd Ho. notify_cases d s; try congruence; try lia.
  split; [reflexivity | assumption].
Qed.

Lemma notify_below d s :
  polledMeasurement s = false -> d <= thresholdLevel s ->
  trace (notify_motherboard d s) = trace s /\
  overThreshold (notify_motherboard d s) = false.
Proof.
  intros Hp Hd. notify_cases d s; try congruence; try lia.
  split; reflexivity.
Qed.

(** A defined value is stored big-endian and the cycle completes. *)
Lemma PrepareData_defined s d :
  dataToSend s = Some d ->
  exists s',
    SoundLevel_PrepareData s = Some s' /\
    measurementData s' = (u8 (Z.shiftr d 8), u8 d) /\
    transmitted s' = d.
Proof.
  intros Hd. unfold SoundLevel_PrepareData. rewrite Hd.
  eexists. split; [reflexivity |].
  unfold transmitted, SoundLevel_GetData, SoundLevel_LedOff.
  rewrite (proj2 (proj2 (proj2 (notify_frame d _)))).
  cbn [measurementData set_measurementData].
  split; [reflexivity |]. apply bytes_value.
  exact (to_uint16_range _ _ Hd).
Qed.

Lemma dataToSend_clamped s :
  fgt (dBZ_raw s) DBZ_MAX = true -> dataToSend s = Some 63600.
Proof.
  intros H. unfold dataToSend, dBZ. rewrite H. cbn.
  unfold SCALE_FACTOR, DBZ_MAX.
  replace (600 * 106)%R with (IZR 63600) by lra.
  rewrite round_real_IZR. reflexivity.
Qed.

Lemma notify_keeps_buffer d s :
  adcScaler (notify_motherboard d s) = adcScaler s /\
  sampleArray (notify_motherboard d s) = sampleArray s.
Proof. notify_cases d s; split; reflexivity. Qed.

End Notify.

(** ** Sampling *)

Lemma outside_sampling_trans (s1 s2 s3 : state) :
  outside_sampling s1 s2 -> outside_sampling s2 s3 -> outside_sampling s1 s3.
Proof. unfold outside_sampling. intuition congruence. Qed.

(** One invocation of the callback in a cycle that has stored [n] samples. *)
Lemma GetSample_step (c : Z) (s : state) (n : nat) :
  sampleCounter s = Z.of_nat n -> (n < 400)%nat ->
  0 <= sampleSum s <= 65535 * Z.of_nat n -> is_u16 c ->
  exists s',
    SoundLevel_GetSample c s = Some s' /\
    sampleArray s' = <[n := c]> (sampleArray s) /\
    sampleSum s' = sampleSum s + c /\
    sampleCounter s' = Z.of_nat (S n) /\
    (S n < 400 -> sampling s' = sampling s /\
       adc_converting s' = adc_converting s /\
       adc_continuous s' = adc_continuous s /\ trace s' = trace s)%nat /\
    (S n = 400 -> sampling s' = false /\ adc_converting s' = false /\
       adc_continuous s' = false /\
       trace s' = trace s ++ [ADCC_StopConversion])%nat /\
    nTO s' = nTO s /\
    outside_sampling s s'.
Proof.
  intros Hn Hlt Hsum [Hc0 Hc1]. change (2 ^ 16) with 65536 in Hc1.
  unfold SoundLevel_GetSample.
  destruct (decide (0 <= sampleCounter s < SAMPLES)) as [_ | Hout];
    [| unfold SAMPLES in Hout; lia].
  cbn [sampleCounter sampleSum sampleArray set_sampleArray set_sampleSum
       set_sampleCounter].
  assert (Hu32 : u32 (sampleSum s + c) = sampleSum s + c).
  { unfold u32. apply Z.mod_small. change (2 ^ 32) with 4294967296. lia. }
  assert (Hu16 : u16 (sampleCounter s + 1) = Z.of_nat (S n)).
  { unfold u16. rewrite Z.mod_small; change (2 ^ 16) with 65536; lia. }
  rewrite Hu32, Hu16, Hn, Nat2Z.id.
  destruct (decide (Z.of_nat (S n) > SAMPLES - 1)) as [Hfull | Hnot];
    unfold SAMPLES in *; eexists; (split; [reflexivity |]);
    cbn; repeat split; intros; lia.
Qed.

Lemma callbacks_inv (codes : list Z) :
  forall (s : state) (n : nat),
    sampleCounter s = Z.of_nat n -> (n + length codes <= 400)%nat ->
    0 <= sampleSum s <= 65535 * Z.of_nat n -> Forall is_u16 codes ->
    length (sampleArray s) = 400%nat ->
    exists s',
      callbacks codes s = Some s' /\
      sampleArray s' =
        take n (sampleArray s) ++ codes ++ drop (n + length codes) (sampleArray s) /\
      sampleSum s' = sampleSum s + Zsum codes /\
      sampleCounter s' = Z.of_nat (n + length codes) /\
      (n + length codes < 400 -> sampling s' = sampling s /\
         adc_converting s' = adc_converting s /\
         adc_continuous s' = adc_continuous s /\ trace s' = trace s)%nat /\
      (n < 400 -> n + length codes = 400 -> sampling s' = false /\
         adc_converting s' = false /\ adc_continuous s' = false /\
         trace s' = trace s ++ [ADCC_StopConversion])%nat /\
      nTO s' = nTO s /\
      outside_sampling s s'.
Proof.
  induction codes as [| c codes IH]; intros s n Hn Hlen Hsum Hcodes Harr.
  - exists s. cbn [callbacks length Zsum foldr app].
    rewrite Nat.add_0_r, take_drop, Z.add_0_r.
    repeat split; try assumption; try lia.
  - cbn [length] in Hlen.
    apply Forall_cons in Hcodes as [Hc Hcodes].
    destruct (GetSample_step c s n Hn ltac:(lia) Hsum Hc)
      as (s1 & Hstep & Harr1 & Hsum1 & Hcnt1 & Hmid & Hend & HnTO1 & Hout1).
    destruct (IH s1 (S n) Hcnt1 ltac:(lia)) as
      (s' & Hrun & Harr' & Hsum' & Hcnt' & Hmid' & Hend' & HnTO' & Hout');
      [ destruct Hc as [Hc0 Hc1]; change (2 ^ 16) with 65536 in Hc1; lia
      | assumption
      | rewrite Harr1, length_insert; assumption |].
    exists s'. cbn [callbacks]. rewrite Hstep. cbn [mbind option_bind].
    split; [exact Hrun |].
    cbn [length Zsum foldr]. fold (Zsum codes).
    replace (n + S (length codes))%nat with (S n + length codes)%nat by lia.
    split; [| split; [lia | split; [assumption |]]].
    + rewrite Harr', Harr1.
      rewrite (take_S_r _ n c)
        by (apply list_lookup_insert_eq; lia).
      rewrite take_insert_ge by lia.
      rewrite drop_insert_lt by lia.
      rewrite <- app_assoc. reflexivity.
    + split; [| split; [| split]].
      * intros Hlt. destruct (Hmid ltac:(lia)) as (? & ? & ? & ?).
        destruct (Hmid' Hlt) as (? & ? & ? & ?). repeat split; congruence.
      * intros Hlt Heq.
        destruct codes as [| c' codes'].
        -- cbn [length] in Heq.
           assert (s' = s1) by (cbn in Hrun; congruence). subst s'.
           apply Hend. lia.
        -- cbn [length] in *.
           destruct (Hmid ltac:(lia)) as (? & ? & ? & ?).
           destruct (Hend' ltac:(lia) Heq) as (? & ? & ? & ?).
           repeat split; congruence.
      * congruence.
      * eapply outside_sampling_trans; eassumption.
Qed.

(** C9: in a sampling cycle started with [sampleCounter = 0] and
    [sampleSum = 0], after any number of callback invocations up to the
    capacity the buffer holds the conversion codes in arrival order,
    [sampleCounter] is their number and [sampleSum] is the sum of the first
    [sampleCounter] stored samples; the next invocation stores its code at
    index [sampleCounter], adds it to [sampleSum] and increments
    [sampleCounter]; and the conversion is stopped and [sampling] cleared
    exactly when the count has reached 400. *)
Theorem GetSample_cycle (codes : list Z) (s : state) :
  sampling s = true -> adc_converting s = true ->
  sampleCounter s = 0 -> sampleSum s = 0 ->
  length (sampleArray s) = 400%nat ->
  Forall is_u16 codes -> (length codes <= 400)%nat ->
  exists s',
    callbacks codes s = Some s' /\
    sampleCounter s' = Z.of_nat (length codes) /\
    take (length codes) (sampleArray s') = codes /\
    sampleSum s' = Zsum (take (Z.to_nat (sampleCounter s')) (sampleArray s')) /\
    sampling s' = bool_decide (length codes < 400)%nat /\
    adc_converting s' = bool_decide (length codes < 400)%nat /\
    (forall c, is_u16 c -> (length codes < 400)%nat ->
       exists s'',
         SoundLevel_GetSample c s' = Some s'' /\
         sampleArray s'' = <[length codes := c]> (sampleArray s') /\
         sampleSum s'' = sampleSum s' + c /\
         sampleCounter s'' = sampleCounter s' + 1).
Proof.
  intros Hs Hadc Hcnt Hsum Harr Hcodes Hlen.
  destruct (callbacks_inv codes s 0) as
    (s' & Hrun & Harr' & Hsum' & Hcnt' & Hmid & Hend & _ & _);
    [assumption | lia | lia | assumption | assumption |].
  cbn [Nat.add] in *. rewrite take_0 in Harr'. cbn [app] in Harr'.
  assert (Htake : take (length codes) (sampleArray s') = codes)
    by (rewrite Harr'; apply take_app_length).
  assert (Hsum'' : sampleSum s' = Zsum codes) by lia.
  exists s'. split; [exact Hrun |]. split; [exact Hcnt' |].
  split; [exact Htake |].
  split; [rewrite Hcnt', Nat2Z.id, Htake; exact Hsum'' |].
  destruct (decide (length codes < 400)%nat) as [Hlt | Hge].
  - rewrite bool_decide_eq_true_2 by assumption.
    destruct (Hmid Hlt) as (Hs' & Hadc' & _ & _).
    split; [congruence |]. split; [congruence |].
    intros c Hc _.
    destruct (GetSample_step c s' (length codes) Hcnt' Hlt) as
      (s'' & Hstep & Ha & Hb & Hc' & _); [| assumption |].
    + rewrite Hsum''. apply Zsum_bound. assumption.
    + exists s''. repeat split; try assumption. lia.
  - rewrite bool_decide_eq_false_2 by assumption.
    destruct codes as [| c0 codes0]; [cbn in Hge; lia |].
    destruct (Hend ltac:(lia) ltac:(lia)) as (Hs' & Hadc' & _ & _).
    split; [assumption |]. split; [assumption |].
    intros c _ Hlt. contradiction.
Qed.

Lemma GetSample_cycle_witness :
  exists s',
    callbacks [100; 200; 300] sampling_started = Some s' /\
    sampleCounter s' = 3 /\
    take 3 (sampleArray s') = [100; 200; 300] /\
    sampleSum s' = Zsum (take (Z.to_nat (sampleCounter s')) (sampleArray s')) /\
    sampling s' = true /\
    adc_converting s' = true /\
    (forall c, is_u16 c -> (3 < 400)%nat ->
       exists s'',
         SoundLevel_GetSample c s' = Some s'' /\
         sampleArray s'' = <[3%nat := c]> (sampleArray s') /\
         sampleSum s'' = sampleSum s' + c /\
         sampleCounter s'' = sampleCounter s' + 1).
Proof.
  apply (GetSample_cycle [100; 200; 300] sampling_started);
    try reflexivity.
  - repeat constructor; unfold is_u16; lia.
  - cbn. lia.
Defined.

Lemma wait_sampling_complete (codes : list Z) :
  forall (s : state) (n : nat),
    sampling s = true ->
    sampleCounter s = Z.of_nat n -> (n + length codes = 400)%nat -> (n < 400)%nat ->
    0 <= sampleSum s <= 65535 * Z.of_nat n -> Forall is_u16 codes ->
    length (sampleArray s) = 400%nat ->
    exists s',
      wait_sampling codes s = Some s' /\
      sampleArray s' = take n (sampleArray s) ++ codes /\
      sampleSum s' = sampleSum s + Zsum codes /\
      sampling s' = false /\
      adc_converting s' = false /\
      trace s' = trace s ++ [ADCC_StopConversion] /\
      outside_sampling s s'.
Proof.
  induction codes as [| c codes IH]; intros s n Hs Hn Hlen Hlt Hsum Hcodes Harr.
  - cbn [length] in Hlen. lia.
  - cbn [length] in Hlen.
    apply Forall_cons in Hcodes as [Hc Hcodes].
    destruct (GetSample_step c (CLRWDT s) n Hn Hlt Hsum Hc)
      as (s1 & Hstep & Harr1 & Hsum1 & Hcnt1 & Hmid & Hend & _ & Hout1).
    cbn [wait_sampling]. rewrite Hs, Hstep. cbn [mbind option_bind].
    change (sampleArray (CLRWDT s)) with (sampleArray s) in Harr1.
    change (sampleSum (CLRWDT s)) with (sampleSum s) in Hsum1.
    change (outside_sampling s s1) in Hout1.
    assert (Hsnoc : take (S n) (sampleArray s1) = take n (sampleArray s) ++ [c]).
    { rewrite Harr1, (take_S_r _ n c) by (apply list_lookup_insert_eq; lia).
      rewrite take_insert_ge by lia. reflexivity. }
    destruct codes as [| c' codes'].
    + cbn [length] in Hlen.
      destruct (Hend ltac:(lia)) as (Hs1 & Hadc1 & _ & Ht1).
      exists s1. cbn [wait_sampling]. rewrite Hs1.
      split; [reflexivity |]. cbn [Zsum foldr].
      split; [| split; [lia | auto]].
      rewrite <- Hsnoc. symmetry. apply take_ge.
      rewrite Harr1, length_insert. lia.
    + destruct (Hmid ltac:(cbn [length] in Hlen; lia)) as (Hs1 & _ & _ & Ht1).
      destruct (IH s1 (S n)) as
        (s' & Hrun & Harr' & Hsum' & Hs' & Hadc' & Ht' & Hout');
        [ rewrite Hs1; exact Hs | assumption | lia | cbn [length] in Hlen; lia
        | destruct Hc as [Hc0 Hc1]; change (2 ^ 16) with 65536 in Hc1; lia
        | assumption | rewrite Harr1, length_insert; assumption |].
      exists s'. split; [exact Hrun |].
      split; [rewrite Harr', Hsnoc, <- app_assoc; reflexivity |].
      split; [rewrite Hsum', Hsum1; cbn [Zsum foldr]; lia |].
      split; [assumption |]. split; [assumption |].
      split; [rewrite Ht', Ht1; reflexivity |].
      eapply outside_sampling_trans; eassumption.
Qed.

Lemma outside_sampling_refl (s : state) : outside_sampling s s.
Proof. repeat split. Qed.

(** The callback touches nothing but the sampling variables and the ADC,
    and never pulses the host-interrupt line. *)
Lemma GetSample_frame (c : Z) (s s' : state) :
  SoundLevel_GetSample c s = Some s' ->
  outside_sampling s s' /\ interrupts (trace s') = interrupts (trace s).
Proof.
  unfold SoundLevel_GetSample.
  destruct (decide (0 <= sampleCounter s < SAMPLES)); [| discriminate].
  cbn [sampleCounter set_sampleCounter set_sampleSum set_sampleArray].
  destruct (decide (_ > SAMPLES - 1)); intros [= <-].
  - split; [repeat split |].
    cbn -[interrupts]. rewrite interrupts_app.
    change (interrupts [ADCC_StopConversion]) with 0%nat. lia.
  - split; [repeat split | reflexivity].
Qed.

Lemma wait_sampling_frame (codes : list Z) :
  forall s s', wait_sampling codes s = Some s' ->
    outside_sampling s s' /\ interrupts (trace s') = interrupts (trace s).
Proof.
  induction codes as [| c codes IH]; intros s s'; cbn [wait_sampling].
  - destruct (sampling s); [discriminate |]. intros [= <-].
    split; [apply outside_sampling_refl | reflexivity].
  - destruct (sampling s).
    + destruct (SoundLevel_GetSample c (CLRWDT s)) as [s1 |] eqn:Hstep;
        [| discriminate].
      cbn [mbind option_bind]. intros Hrun.
      destruct (GetSample_frame c _ s1 Hstep) as [Ho1 Hi1].
      destruct (IH s1 s' Hrun) as [Ho' Hi'].
      change (outside_sampling s s1) in Ho1.
      change (trace (CLRWDT s)) with (trace s) in Hi1.
      split; [eapply outside_sampling_trans; eassumption | congruence].
    + intros [= <-]. split; [apply outside_sampling_refl | reflexivity].
Qed.

(** ** Reduction *)

(** The index loop of [processSamples] visits the buffer in order. *)
Lemma index_loop (f : Z -> R) (l pre : list Z) (acc : R) :
  fold_left (fun (a : R) (i : nat) => (a + f (nth i (pre ++ l) 0%Z))%R)
    (seq (length pre) (length l)) acc
  = (acc + Rsum (map f l))%R.
Proof.
  revert pre acc. induction l as [| x l IH]; intros pre acc.
  - cbn. lra.
  - cbn [length seq fold_left map Rsum foldr]. fold (Rsum (map f l)).
    rewrite nth_middle.
    replace (pre ++ x :: l) with ((pre ++ [x]) ++ l)
      by (rewrite <- app_assoc; reflexivity).
    replace (S (length pre)) with (length (pre ++ [x]))
      by (rewrite length_app; cbn; lia).
    rewrite IH. lra.
Qed.

Lemma processSamples_sum (s : state) :
  length (sampleArray s) = 400%nat ->
  let mean := (IZR (sampleSum s) / IZR SAMPLES)%R in
  sampleAverage (processSamples s) = mean /\
  presSumSquared (processSamples s) =
    (presSumSquared s +
     Rsum (map (fun x => ((IZR x - mean) * adcScaler s)
                         * ((IZR x - mean) * adcScaler s))%R
             (sampleArray s)))%R.
Proof.
  intros Hlen mean. split; [reflexivity |].
  unfold processSamples.
  cbn [presSumSquared set_presSumSquared set_sampleAverage sampleArray
       sampleAverage adcScaler].
  change (Z.to_nat SAMPLES) with 400%nat. rewrite <- Hlen.
  exact (index_loop
           (fun x => ((IZR x - mean) * adcScaler s
                      * ((IZR x - mean) * adcScaler s))%R)
           (sampleArray s) [] (presSumSquared s)).
Qed.


(** The reduction of a buffer, step by step, as the specification words it. *)
Lemma processSamples_refines (s : state) :
  length (sampleArray s) = 400%nat ->
  presSumSquared s = 0%R ->
  adcScaler s = spec_adcScaler ->
  let samples := sampleArray s in
  let sum := sampleSum s in
  let s1 := processSamples s in
  adcScaler s1 = spec_adcScaler /\
  sampleAverage s1 = spec_mean sum /\
  presSumSquared s1 = spec_sumSquares samples sum /\
  dBZ_raw s1 = spec_dB samples sum /\
  dataToSend s1 = spec_output samples sum.
Proof.
  intros Hlen Hzero Ha samples sum s1.
  destruct (processSamples_sum s Hlen) as [Havg Hsq]. fold s1 in Havg, Hsq.
  assert (Hss : presSumSquared s1 = spec_sumSquares samples sum).
  { rewrite Hsq, Hzero, Rplus_0_l. unfold spec_sumSquares.
    apply Rsum_ext. intros x. unfold spec_pressure. rewrite Ha.
    change (IZR SAMPLES) with 400%R. unfold spec_mean, sum. ring. }
  assert (HdB : dBZ_raw s1 = spec_dB samples sum).
  { unfold dBZ_raw, spec_dB, spec_avgSquared. rewrite Hss.
    unfold REF_PRESSURE. change (IZR SAMPLES) with 400%R.
    do 2 f_equal. lra. }
  repeat split; try assumption.
  unfold dataToSend, dBZ, spec_output. rewrite HdB. reflexivity.
Qed.


(** A buffer of identical samples leaves the accumulator at zero, so the
    logarithm is taken at its pole. *)
Lemma constant_signal_pole (v : Z) (s : state) :
  sampleArray s = replicate 400 v ->
  sampleSum s = 400 * v ->
  presSumSquared s = 0%R ->
  presSumSquared (processSamples s) = 0%R /\
  dBZ_raw (processSamples s) = NegInfinity.
Proof.
  intros Harr Hsum Hzero.
  assert (Hlen : length (sampleArray s) = 400%nat)
    by (rewrite Harr; apply length_replicate).
  destruct (processSamples_sum s Hlen) as [_ Hsq].
  assert (Hp : presSumSquared (processSamples s) = 0%R).
  { rewrite Hsq, Hzero, Harr, Rplus_0_l. apply Rsum_replicate_0.
    rewrite Hsum, mult_IZR. change (IZR SAMPLES) with 400%R.
    replace (IZR v - 400 * IZR v / 400)%R with 0%R by lra. ring. }
  split; [exact Hp |].
  unfold dBZ_raw. rewrite Hp.
  replace (0 / IZR SAMPLES / (REF_PRESSURE * REF_PRESSURE))%R with 0%R
    by (unfold Rdiv; ring).
  rewrite log10_0. reflexivity.
Qed.

(** C2, on the code: for a buffer of 400 identical samples the reduction
    reaches [log10 0]; [dBZ] is minus infinity, its conversion to
    [uint16_t] is undefined, and [SoundLevel_PrepareData] has no defined
    result to store in [measurementData]. *)
Theorem constant_signal_undefined (v : Z) (s : state) :
  sampleArray s = replicate 400 v ->
  sampleSum s = 400 * v ->
  presSumSquared s = 0%R ->
  let s1 := processSamples s in
  presSumSquared s1 = 0%R /\
  dBZ s1 = NegInfinity /\
  dataToSend s1 = None /\
  SoundLevel_PrepareData s1 = None.
Proof.
  intros Harr Hsum Hzero s1.
  destruct (constant_signal_pole v s Harr Hsum Hzero) as [Hp Hraw].
  fold s1 in Hp, Hraw.
  assert (HdB : dBZ s1 = NegInfinity)
    by (unfold dBZ; rewrite Hraw; reflexivity).
  assert (Hd : dataToSend s1 = None)
    by (unfold dataToSend; rewrite HdB; reflexivity).
  repeat split; try assumption.
  unfold SoundLevel_PrepareData. rewrite Hd. reflexivity.
Qed.

Lemma constant_signal_undefined_witness :
  let s1 := processSamples silent in
  presSumSquared s1 = 0%R /\
  dBZ s1 = NegInfinity /\
  dataToSend s1 = None /\
  SoundLevel_PrepareData s1 = None.
Proof.
  exact (constant_signal_undefined 2048 silent eq_refl eq_refl eq_refl).
Defined.

(** ** Clamping *)

Lemma clipping_presSumSquared :
  presSumSquared (processSamples clipping) =
    (400 * ((65535 / 2 * spec_adcScaler) * (65535 / 2 * spec_adcScaler)))%R.
Proof.
  destruct (processSamples_sum clipping eq_refl) as [_ ->].
  cbn [sampleArray clipping set_sampleSum set_sampleArray sampleSum
       presSumSquared].
  rewrite map_app, Rsum_app, !Rsum_replicate. literal_sizes.
  change (adcScaler clipping) with (adcScaler powered_on).
  unfold powered_on. rewrite Init_adcScaler.
  change (presSumSquared (SoundLevel_Init (boot 0 true))) with 0%R.
  change (IZR SAMPLES) with 400%R. rewrite mult_IZR.
  unfold spec_adcScaler, V_SUPPLY, ADC_SCALE, SENSITIVITY, AMP_FACTOR. lra.
Qed.

Lemma clipping_exceeds :
  fgt (dBZ_raw (processSamples clipping)) DBZ_MAX = true.
Proof.
  unfold dBZ_raw. rewrite clipping_presSumSquared.
  match goal with
  | |- context [log10 ?x] =>
      destruct (log10_ge_pow10 x 11) as (r & -> & Hr)
  end.
  - unfold spec_adcScaler, REF_PRESSURE. change (IZR SAMPLES) with 400%R.
    lra.
  - apply fgt_true. eexists. split; [reflexivity |].
    cbn [INR] in Hr. unfold DBZ_MAX. lra.
Qed.

(** C4: whenever the computed [dBZ] exceeds 106, the value that
    [SoundLevel_PrepareData] stores in [measurementData] is 63600
    (bytes 248 and 112). *)
Theorem PrepareData_clamps (s : state) :
  fgt (dBZ_raw s) DBZ_MAX = true ->
  dataToSend s = Some 63600 /\
  exists s',
    SoundLevel_PrepareData s = Some s' /\
    measurementData s' = (248, 112) /\
    transmitted s' = 63600.
Proof.
  intros H. pose proof (dataToSend_clamped s H) as Hd.
  split; [exact Hd |].
  destruct (PrepareData_defined s 63600 Hd) as (s' & Hs' & Hm & Ht).
  exists s'. repeat split; assumption.
Qed.

Lemma PrepareData_clamps_witness :
  let s := processSamples clipping in
  fgt (dBZ_raw s) DBZ_MAX = true /\
  dataToSend s = Some 63600 /\
  exists s',
    SoundLevel_PrepareData s = Some s' /\
    measurementData s' = (248, 112) /\
    transmitted s' = 63600.
Proof.
  split; [exact clipping_exceeds |].
  exact (PrepareData_clamps (processSamples clipping) clipping_exceeds).
Defined.

(** ** On-demand cycles *)



(** ** A whole measurement cycle *)

(** A cycle with 400 conversion results reaches [SoundLevel_PrepareData]
    with the results in the buffer, their sum in [sampleSum] and the
    accumulator of squares started from zero. *)
Lemma measure_acquires (codes : list Z) (s : state) :
  length codes = 400%nat -> Forall is_u16 codes ->
  length (sampleArray s) = 400%nat ->
  exists s0,
    measure codes s =
      SoundLevel_PrepareData
        (emit [SetLow powerMic] (CLRWDT (processSamples s0))) /\
    sampleArray s0 = codes /\
    sampleSum s0 = Zsum codes /\
    presSumSquared s0 = 0%R /\
    adcScaler s0 = adcScaler s /\
    polledMeasurement s0 = polledMeasurement s /\
    overThreshold s0 = overThreshold s /\
    thresholdLevel s0 = thresholdLevel s.
Proof.
  intros Hlen Hcodes Harr. unfold measure.
  set (sb := SoundLevel_StartADC _).
  destruct (wait_sampling_complete codes sb 0) as
    (s0 & Hrun & Harr0 & Hsum0 & _ & _ & _ & Hout);
    [reflexivity | reflexivity | lia | lia | cbn; lia | assumption
    | exact Harr |].
  exists s0. rewrite Hrun. cbn [mbind option_bind].
  destruct Hout as (Hp & Ha & _ & _ & _ & _ & Hl & Hpo & Ho & _).
  repeat split; assumption.
Qed.

(** A whole cycle over a constant signal has no defined result. *)
Lemma measure_constant_signal (v : Z) (s : state) :
  is_u16 v -> length (sampleArray s) = 400%nat ->
  measure (replicate 400 v) s = None.
Proof.
  intros Hv Harr.
  destruct (measure_acquires (replicate 400 v) s) as
    (s0 & Hm & Harr0 & Hsum0 & Hp0 & _);
    [apply length_replicate | apply Forall_replicate; exact Hv | exact Harr |].
  rewrite Hm.
  assert (Hsum : sampleSum s0 = 400 * v)
    by (rewrite Hsum0, Zsum_replicate; reflexivity).
  destruct (constant_signal_pole v s0 Harr0 Hsum Hp0) as [_ Hraw].
  revert Hraw. generalize (processSamples s0). intros sp Hraw.
  unfold SoundLevel_PrepareData, dataToSend, dBZ.
  change (dBZ_raw (emit [SetLow powerMic] (CLRWDT sp))) with (dBZ_raw sp).
  rewrite Hraw. reflexivity.
Qed.

(** What a completed cycle did, read back from its final state. *)
Lemma measure_completed (codes : list Z) (s s' : state) :
  measure codes s = Some s' ->
  exists s1 d,
    dataToSend s1 = Some d /\
    s' = notify_motherboard d (set_measurementData (u8 (Z.shiftr d 8), u8 d) s1) /\
    polledMeasurement s1 = polledMeasurement s /\
    overThreshold s1 = overThreshold s /\
    thresholdLevel s1 = thresholdLevel s /\
    thresholdEnabled s1 = thresholdEnabled s /\
    interrupts (trace s1) = interrupts (trace s).
Proof.
  unfold measure. set (sb := SoundLevel_StartADC _).
  destruct (wait_sampling codes sb) as [sw |] eqn:Hw; [| discriminate].
  cbn [mbind option_bind].
  set (s1 := emit [SetLow powerMic] (CLRWDT (processSamples sw))).
  unfold SoundLevel_PrepareData.
  destruct (dataToSend s1) as [d |] eqn:Hd; [| discriminate].
  cbn [mbind option_bind]. unfold SoundLevel_LedOff. intros [= <-].
  destruct (wait_sampling_frame codes sb sw Hw)
    as [(_ & _ & _ & _ & _ & He & Hl & Hp & Ho & _) Hi].
  exists s1, d. split; [exact Hd |]. split; [reflexivity |].
  repeat split; try assumption.
  change (interrupts (trace sw ++ [SetLow powerMic]) = interrupts (trace s)).
  rewrite interrupts_app, Hi. unfold sb. cbn -[interrupts].
  rewrite !interrupts_app.
  change (interrupts [SetLow powerMic]) with 0%nat.
  change (interrupts [ADCC_StartConversion]) with 0%nat.
  change (interrupts [SetHigh powerMic; delay_ms 500]) with 0%nat.
  lia.
Qed.

(** A whole cycle transmits what the formulas give for its 400 conversion
    results. *)
Lemma measure_transmits (codes : list Z) (s : state) (d : Z) :
  length codes = 400%nat -> Forall is_u16 codes ->
  length (sampleArray s) = 400%nat ->
  adcScaler s = spec_adcScaler ->
  spec_output codes (Zsum codes) = Some d ->
  exists s',
    measure codes s = Some s' /\
    transmitted s' = d /\
    adcScaler s' = spec_adcScaler /\
    length (sampleArray s') = 400%nat.
Proof.
  intros Hlen Hcodes Harr Ha Hout.
  destruct (measure_acquires codes s Hlen Hcodes Harr) as
    (s0 & Hm & Harr0 & Hsum0 & Hp0 & Ha0 & _).
  destruct (processSamples_refines s0) as (Ha1 & _ & _ & _ & Hd);
    [rewrite Harr0; exact Hlen | exact Hp0 | congruence |].
  rewrite Harr0, Hsum0, Hout in Hd.
  set (s1 := emit [SetLow powerMic] (CLRWDT (processSamples s0))) in Hm.
  change (dataToSend s1 = Some d) in Hd.
  rewrite Hm. unfold SoundLevel_PrepareData. rewrite Hd.
  cbn [mbind option_bind]. eexists. split; [reflexivity |].
  unfold SoundLevel_LedOff.
  set (s2 := set_measurementData _ s1).
  destruct (notify_keeps_buffer d s2) as [-> ->].
  split; [| split; [exact Ha1 | rewrite <- Hlen, <- Harr0; reflexivity]].
  unfold transmitted, SoundLevel_GetData.
  rewrite (proj2 (proj2 (proj2 (notify_frame d s2)))).
  apply bytes_value. exact (to_uint16_range _ _ Hd).
Qed.


(** ** Autonomous cycles *)

(** One autonomous cycle of the foreground loop, read back from the state
    it leaves: the line is pulsed exactly on a rising edge of the
    transmitted value over the level. *)
Lemma Loop_autonomous (codes : list Z) (s s' : state) :
  polledMeasurement s = false ->
  measurementRunning s = false ->
  thresholdEnabled s <> 0 ->
  SoundLevel_Loop codes (wdt_timeout s) = Some s' ->
  let d := transmitted s' in
  interrupts (trace s') =
    (interrupts (trace s) +
     if decide (d > thresholdLevel s)%Z
     then (if overThreshold s then 0 else 1) else 0)%nat /\
  overThreshold s' = bool_decide (d > thresholdLevel s) /\
  thresholdLevel s' = thresholdLevel s /\
  thresholdEnabled s' = thresholdEnabled s /\
  polledMeasurement s' = false /\
  measurementRunning s' = false.
Proof.
  intros Hp Hr He. unfold SoundLevel_Loop.
  cbn [nTO wdt_timeout set_nTO negb measurementRunning thresholdEnabled].
  rewrite Hr. destruct (Z.eqb_spec (thresholdEnabled s) 0) as [| _];
    [contradiction |].
  cbn [negb andb orb].
  destruct (measure codes _) as [sm |] eqn:Hm; [| discriminate].
  cbn [mbind option_bind]. intros [= <-].
  destruct (measure_completed _ _ _ Hm)
    as (s1 & d & Hd & -> & Hp1 & Ho1 & Hl1 & He1 & Hi1).
  cbn [polledMeasurement overThreshold thresholdLevel thresholdEnabled trace
       set_measurementRunning CLRWDT set_nTO set_SWDTEN set_WDTCON wdt_timeout]
    in Hp1, Ho1, Hl1, He1, Hi1.
  set (s2 := set_measurementData (u8 (Z.shiftr d 8), u8 d) s1).
  assert (Ht : transmitted
                 (set_measurementRunning false
                    (set_polledMeasurement false (notify_motherboard d s2)))
               = d).
  { unfold transmitted, SoundLevel_GetData.
    cbn [measurementData set_measurementRunning set_polledMeasurement].
    rewrite (proj2 (proj2 (proj2 (notify_frame d s2)))).
    apply bytes_value. exact (to_uint16_range _ _ Hd). }
  cbv zeta. rewrite Ht.
  cbn [trace overThreshold thresholdLevel thresholdEnabled polledMeasurement
       measurementRunning set_measurementRunning set_polledMeasurement].
  destruct (notify_frame d s2) as (_ & Hl2 & He2 & _).
  rewrite Hl2, He2. change (thresholdLevel s2) with (thresholdLevel s1).
  change (thresholdEnabled s2) with (thresholdEnabled s1).
  rewrite Hl1, He1, <- Hl1.
  assert (Hp2 : polledMeasurement s2 = false) by (rewrite <- Hp; exact Hp1).
  change (thresholdLevel s1) with (thresholdLevel s2).
  change (interrupts (trace s1)) with (interrupts (trace s2)) in Hi1.
  change (overThreshold s1) with (overThreshold s2) in Ho1.
  rewrite <- Hi1, <- Ho1.
  destruct (decide (d > thresholdLevel s2)) as [Hgt | Hle].
  - rewrite bool_decide_eq_true_2 by assumption.
    destruct (overThreshold s2) eqn:Ho2.
    + destruct (notify_sustained d s2 Hp2 Hgt Ho2) as [-> ->].
      repeat split; lia.
    + destruct (notify_rising d s2 Hp2 Hgt Ho2) as [-> ->].
      rewrite interrupts_app. change (interrupts pulse) with 1%nat.
      repeat split; lia.
  - rewrite bool_decide_eq_false_2 by assumption.
    destruct (notify_below d s2 Hp2 ltac:(lia)) as [-> ->].
    repeat split; lia.
Qed.

Lemma Loop_autonomous_completes (codes : list Z) (s : state) (d : Z) :
  polledMeasurement s = false ->
  measurementRunning s = false ->
  thresholdEnabled s <> 0 ->
  length codes = 400%nat -> Forall is_u16 codes ->
  length (sampleArray s) = 400%nat ->
  adcScaler s = spec_adcScaler ->
  spec_output codes (Zsum codes) = Some d ->
  exists s',
    SoundLevel_Loop codes (wdt_timeout s) = Some s' /\
    transmitted s' = d /\
    adcScaler s' = spec_adcScaler /\
    length (sampleArray s') = 400%nat.
Proof.
  intros Hp Hr He Hlen Hcodes Harr Ha Hout. unfold SoundLevel_Loop.
  cbn [nTO wdt_timeout set_nTO negb measurementRunning thresholdEnabled].
  rewrite Hr. destruct (Z.eqb_spec (thresholdEnabled s) 0) as [| _];
    [contradiction |].
  cbn [negb andb orb].
  match goal with
  | |- context [measure codes ?x] =>
      destruct (measure_transmits codes x d)
        as (sm & -> & Ht & Ha' & Harr'); try assumption
  end.
  cbn [mbind option_bind]. eexists. split; [reflexivity |].
  repeat split; assumption.
Qed.

Lemma autonomous_step (codes : list Z) (s : state) (d : Z) :
  autonomous_ready s ->
  length codes = 400%nat -> Forall is_u16 codes ->
  spec_output codes (Zsum codes) = Some d ->
  exists s',
    SoundLevel_Loop codes (wdt_timeout s) = Some s' /\
    transmitted s' = d /\
    autonomous_ready s'.
Proof.
  intros (Hp & Hr & He & Harr & Ha) Hlen Hcodes Hout.
  destruct (Loop_autonomous_completes codes s d) as
    (s' & Hrun & Ht & Ha' & Harr'); try assumption.
  destruct (Loop_autonomous codes s s' Hp Hr He Hrun)
    as (_ & _ & _ & He' & Hp' & Hr').
  exists s'. repeat split; try assumption. congruence.
Qed.

Ltac reduce_blocks :=
  unfold spec_output, spec_dB, spec_avgSquared, spec_sumSquares;
  rewrite !map_app, !Rsum_app, !Rsum_replicate;
  unfold spec_pressure, spec_mean, spec_adcScaler;
  literal_sizes.

Lemma burst_output : spec_output burst (Zsum burst) = Some 60000.
Proof.
  change (Zsum burst) with 800000. unfold burst. reduce_blocks.
  match goal with
  | |- context [log10 ?x] =>
      destruct (log10_near x 1 10 (1 / 100000)) as (r & -> & Hr)
  end; try lra.
  cbn [INR] in Hr. cbn [fscale].
  destruct (fgt (Finite (10 * r)) 106) eqn:Hgt.
  - apply fgt_true in Hgt as (r' & [= <-] & Hr'). lra.
  - cbn [fscale fround].
    rewrite (round_real_near _ 60000); [reflexivity | lra | lra].
Qed.

Lemma hum_output : spec_output hum (Zsum hum) = Some 40000.
Proof.
  change (Zsum hum) with 800000. unfold hum. reduce_blocks.
  match goal with
  | |- context [log10 ?x] =>
      destruct (log10_near x 3 20 (21 / 100000)) as (r & -> & Hr)
  end; try lra.
  cbn [INR] in Hr. cbn [fscale].
  destruct (fgt (Finite (10 * r)) 106) eqn:Hgt.
  - apply fgt_true in Hgt as (r' & [= <-] & Hr'). lra.
  - cbn [fscale fround].
    rewrite (round_real_near _ 40000); [reflexivity | lra | lra].
Qed.

Lemma burst_codes : length burst = 400%nat /\ Forall is_u16 burst.
Proof.
  split; [reflexivity |]. unfold burst.
  repeat apply Forall_app_2; apply Forall_replicate; unfold is_u16; lia.
Qed.

Lemma hum_codes : length hum = 400%nat /\ Forall is_u16 hum.
Proof.
  split; [reflexivity |]. unfold hum.
  repeat apply Forall_app_2; apply Forall_replicate; unfold is_u16; lia.
Qed.

Lemma armed_ready : autonomous_ready armed_50000.
Proof.
  unfold autonomous_ready.
  change (thresholdEnabled armed_50000) with 1.
  repeat split. lia.
Qed.

(** C3: in the autonomous path with level 50000 and the edge state
    "below", four completed cycles whose scaled results are 60000, 60000,
    40000 and 60000 pulse the host-interrupt line on the first and on the
    fourth cycle and on no other; a cycle whose value is above the level
    while the edge state is already "above" never pulses the line, and a
    cycle whose value is at or below the level clears the edge state. *)
Theorem autonomous_edge_trigger
    (c1 c2 c3 c4 : list Z) (s0 s1 s2 s3 s4 : state) :
  polledMeasurement s0 = false ->
  measurementRunning s0 = false ->
  thresholdEnabled s0 <> 0 ->
  thresholdLevel s0 = 50000 ->
  overThreshold s0 = false ->
  SoundLevel_Loop c1 (wdt_timeout s0) = Some s1 -> transmitted s1 = 60000 ->
  SoundLevel_Loop c2 (wdt_timeout s1) = Some s2 -> transmitted s2 = 60000 ->
  SoundLevel_Loop c3 (wdt_timeout s2) = Some s3 -> transmitted s3 = 40000 ->
  SoundLevel_Loop c4 (wdt_timeout s3) = Some s4 -> transmitted s4 = 60000 ->
  (interrupts (trace s1) = S (interrupts (trace s0)) /\
   interrupts (trace s2) = interrupts (trace s1) /\
   interrupts (trace s3) = interrupts (trace s2) /\
   interrupts (trace s4) = S (interrupts (trace s3))) /\
  (forall codes s s',
     polledMeasurement s = false -> measurementRunning s = false ->
     thresholdEnabled s <> 0 ->
     SoundLevel_Loop codes (wdt_timeout s) = Some s' ->
     (transmitted s' > thresholdLevel s -> overThreshold s = true ->
      interrupts (trace s') = interrupts (trace s)) /\
     (transmitted s' <= thresholdLevel s ->
      overThreshold s' = false /\
      interrupts (trace s') = interrupts (trace s))).
Proof.
  intros Hp0 Hr0 He0 Hl0 Ho0 H1 Ht1 H2 Ht2 H3 Ht3 H4 Ht4.
  destruct (Loop_autonomous c1 s0 s1 Hp0 Hr0 He0 H1)
    as (Hi1 & Ho1 & Hl1 & He1 & Hp1 & Hr1).
  destruct (Loop_autonomous c2 s1 s2 Hp1 Hr1 ltac:(congruence) H2)
    as (Hi2 & Ho2 & Hl2 & He2 & Hp2 & Hr2).
  destruct (Loop_autonomous c3 s2 s3 Hp2 Hr2 ltac:(congruence) H3)
    as (Hi3 & Ho3 & Hl3 & He3 & Hp3 & Hr3).
  destruct (Loop_autonomous c4 s3 s4 Hp3 Hr3 ltac:(congruence) H4)
    as (Hi4 & _).
  cbv zeta in *.
  rewrite Ht1, Hl0 in Hi1, Ho1.
  rewrite Ht2, Hl1, Hl0 in Hi2, Ho2.
  rewrite Ht3, Hl2, Hl1, Hl0 in Hi3, Ho3.
  rewrite Ht4, Hl3, Hl2, Hl1, Hl0 in Hi4.
  rewrite bool_decide_eq_true_2 in Ho1, Ho2 by lia.
  rewrite bool_decide_eq_false_2 in Ho3 by lia.
  rewrite Ho0 in Hi1. rewrite Ho1 in Hi2. rewrite Ho2 in Hi3.
  rewrite Ho3 in Hi4.
  destruct (decide (60000 > 50000)) as [_ | ?]; [| lia].
  destruct (decide (40000 > 50000)) as [? | _]; [lia |].
  split.
  - repeat split; lia.
  - intros codes s s' Hp Hr He Hrun.
    destruct (Loop_autonomous codes s s' Hp Hr He Hrun) as (Hi & Ho & _).
    cbv zeta in *. split.
    + intros Hgt Hover. rewrite Hi, Hover.
      destruct (decide (transmitted s' > thresholdLevel s)); lia.
    + intros Hle. rewrite Hi, Ho.
      rewrite bool_decide_eq_false_2 by lia.
      destruct (decide (transmitted s' > thresholdLevel s)); [lia |].
      split; [reflexivity | lia].
Qed.

Lemma autonomous_edge_trigger_witness :
  exists s1 s2 s3 s4 : state,
    (SoundLevel_Loop burst (wdt_timeout armed_50000) = Some s1 /\
     transmitted s1 = 60000) /\
    (SoundLevel_Loop burst (wdt_timeout s1) = Some s2 /\
     transmitted s2 = 60000) /\
    (SoundLevel_Loop hum (wdt_timeout s2) = Some s3 /\
     transmitted s3 = 40000) /\
    (SoundLevel_Loop burst (wdt_timeout s3) = Some s4 /\
     transmitted s4 = 60000) /\
    interrupts (trace s1) = S (interrupts (trace armed_50000)) /\
    interrupts (trace s2) = interrupts (trace s1) /\
    interrupts (trace s3) = interrupts (trace s2) /\
    interrupts (trace s4) = S (interrupts (trace s3)).
Proof.
  destruct burst_codes as [Hbl Hbu]. destruct hum_codes as [Hhl Hhu].
  destruct (autonomous_step burst armed_50000 60000 armed_ready Hbl Hbu
              burst_output) as (s1 & H1 & Ht1 & Hready1).
  destruct (autonomous_step burst s1 60000 Hready1 Hbl Hbu burst_output)
    as (s2 & H2 & Ht2 & Hready2).
  destruct (autonomous_step hum s2 40000 Hready2 Hhl Hhu hum_output)
    as (s3 & H3 & Ht3 & Hready3).
  destruct (autonomous_step burst s3 60000 Hready3 Hbl Hbu burst_output)
    as (s4 & H4 & Ht4 & _).
  exists s1, s2, s3, s4.
  destruct armed_ready as (Hp0 & Hr0 & He0 & _).
  destruct (autonomous_edge_trigger burst burst hum burst
              armed_50000 s1 s2 s3 s4)
    as [(Hi1 & Hi2 & Hi3 & Hi4) _]; try assumption; try reflexivity.
  repeat split; assumption.
Defined.

(** * Further properties of the sound level sensor *)

(** ** The watchdog *)

Lemma set_nTO_same (s : state) : nTO s = true -> set_nTO true s = s.
Proof. destruct s; cbn; intros ->; reflexivity. Qed.

Lemma GetSample_watchdog (c : Z) (s s' : state) :
  SoundLevel_GetSample c s = Some s' ->
  nTO s' = nTO s /\ SWDTEN s' = SWDTEN s /\
  measurementRunning s' = measurementRunning s.
Proof.
  unfold SoundLevel_GetSample.
  destruct (decide (0 <= sampleCounter s < SAMPLES)); [| discriminate].
  cbn [sampleCounter set_sampleCounter set_sampleSum set_sampleArray].
  destruct (decide (_ > SAMPLES - 1)); intros [= <-]; repeat split.
Qed.

Lemma wait_sampling_watchdog (codes : list Z) :
  forall s s', wait_sampling codes s = Some s' ->
    SWDTEN s' = SWDTEN s /\ measurementRunning s' = measurementRunning s.
Proof.
  induction codes as [| c codes IH]; intros s s'; cbn [wait_sampling].
  - destruct (sampling s); [discriminate |]. intros [= <-]. split; reflexivity.
  - destruct (sampling s); [| intros [= <-]; split; reflexivity].
    destruct (SoundLevel_GetSample c (CLRWDT s)) as [s1 |] eqn:Hstep;
      [| discriminate].
    cbn [mbind option_bind]. intros Hrun.
    destruct (GetSample_watchdog c _ s1 Hstep) as (_ & Hw & Hr).
    destruct (IH s1 s' Hrun) as [Hw' Hr'].
    change (SWDTEN (CLRWDT s)) with (SWDTEN s) in Hw.
    change (measurementRunning (CLRWDT s)) with (measurementRunning s) in Hr.
    split; congruence.
Qed.

Lemma notify_watchdog (d : Z) (s : state) :
  nTO (notify_motherboard d s) = nTO s /\
  measurementRunning (notify_motherboard d s) = measurementRunning s /\
  (SWDTEN s = true -> SWDTEN (notify_motherboard d s) = true).
Proof.
  unfold notify_motherboard.
  destruct (polledMeasurement s); [repeat split; auto |].
  destruct (decide (d > thresholdLevel s)); [destruct (overThreshold s) |];
    repeat split; intros _; apply testbit_lor_1.
Qed.

(** A completed cycle has refreshed the watchdog and has not switched it
    off. *)
Lemma measure_watchdog (codes : list Z) (s s' : state) :
  measure codes s = Some s' ->
  nTO s' = true /\
  measurementRunning s' = measurementRunning s /\
  (SWDTEN s = true -> SWDTEN s' = true).
Proof.
  unfold measure. set (sb := SoundLevel_StartADC _).
  destruct (wait_sampling codes sb) as [sw |] eqn:Hw; [| discriminate].
  cbn [mbind option_bind].
  set (s1 := emit [SetLow powerMic] (CLRWDT (processSamples sw))).
  unfold SoundLevel_PrepareData.
  destruct (dataToSend s1) as [d |]; [| discriminate].
  cbn [mbind option_bind]. unfold SoundLevel_LedOff. intros [= <-].
  destruct (wait_sampling_watchdog codes sb sw Hw) as [Hsw Hrw].
  set (s2 := set_measurementData _ s1).
  destruct (notify_watchdog d s2) as (-> & -> & Hen).
  split; [reflexivity |]. split; [exact Hrw |].
  intros H. apply Hen. change (SWDTEN sw = true). rewrite Hsw. exact H.
Qed.

Lemma Loop_watchdog (codes : list Z) (s s' : state) :
  SoundLevel_Loop codes s = Some s' ->
  nTO s' = true /\ polledMeasurement s' = false /\
  (SWDTEN s = true -> SWDTEN s' = true).
Proof.
  unfold SoundLevel_Loop.
  set (s1 := CLRWDT (if nTO s then s else set_SWDTEN true s)).
  assert (Hen : SWDTEN s = true -> SWDTEN s1 = true)
    by (unfold s1; destruct (nTO s); [auto | intros _; apply testbit_lor_1]).
  destruct (negb (nTO s) && negb (measurementRunning s)
            && negb (thresholdEnabled s =? 0) || polledMeasurement s1)
    eqn:Htrig.
  - destruct (measure codes _) as [sm |] eqn:Hm; [| discriminate].
    cbn [mbind option_bind]. intros [= <-].
    destruct (measure_watchdog _ _ _ Hm) as (HnTO & _ & Hsw).
    repeat split; auto.
  - intros [= <-]. apply orb_false_elim in Htrig as [_ Hp].
    repeat split; auto.
Qed.

(** X1.  The software enable of the watchdog is a bit of [WDTCON0]:
    [SoundLevel_Init] clears it with its write [WDTCON0 = 0x14] and sets
    it again as its last step, so that the watchdog is enabled when
    [SoundLevel_Init] returns, whatever the state before.  Once enabled,
    it is still enabled after [SoundLevel_Measure],
    [SoundLevel_SetThreshold] (every metric and payload, also one that
    disables the threshold mode), an ADC callback and a pass of
    [SoundLevel_Loop]; and a pass of the loop that returns has cleared
    the watchdog ([nTO] reads 1). *)
Theorem watchdog_stays_enabled (s : state) :
  SWDTEN (set_WDTCON 0x14 0x07 s) = false /\
  WDTCON0 (SoundLevel_Init s) = 0x15 /\
  SWDTEN (SoundLevel_Init s) = true /\
  (SWDTEN s = true ->
   SWDTEN (SoundLevel_Measure s) = true /\
   (forall metric thresholdData s',
      SoundLevel_SetThreshold metric thresholdData s = Some s' ->
      SWDTEN s' = true) /\
   (forall c s', SoundLevel_GetSample c s = Some s' -> SWDTEN s' = true) /\
   (forall codes s', SoundLevel_Loop codes s = Some s' ->
      SWDTEN s' = true /\ nTO s' = true)).
Proof.
  split; [reflexivity |].
  split; [unfold SoundLevel_Init; cbn; destruct (nTO s); reflexivity |].
  split; [unfold SoundLevel_Init; cbn; destruct (nTO s); reflexivity |].
  intros H. split; [exact H |]. split; [| split].
  - intros metric thresholdData s'. unfold SoundLevel_SetThreshold.
    destruct (decide (metric = 0)); [| intros [= <-]; exact H].
    destruct (thresholdData !! 0%nat) as [b0 |]; [| discriminate].
    destruct (thresholdData !! 3%nat) as [b3 |]; [| discriminate].
    destruct (thresholdData !! 4%nat) as [b4 |]; [| discriminate].
    cbn [thresholdEnabled set_thresholdLevel set_thresholdEnabled].
    destruct (decide (b0 = 0)); intros [= <-];
      [exact H | apply testbit_lor_1].
  - intros c s' Hc. destruct (GetSample_watchdog c s s' Hc) as (_ & -> & _).
    exact H.
  - intros codes s' HL. destruct (Loop_watchdog codes s s' HL) as (? & _ & ?).
    auto.
Qed.

Lemma watchdog_stays_enabled_witness :
  SWDTEN (set_WDTCON 0x14 0x07 powered_on) = false /\
  WDTCON0 (SoundLevel_Init powered_on) = 0x15 /\
  SWDTEN powered_on = true /\
  forall s',
    SoundLevel_SetThreshold 0 [0; 0; 0; 0; 0] powered_on = Some s' ->
    SWDTEN s' = true.
Proof.
  destruct (watchdog_stays_enabled powered_on) as (H14 & H15 & _ & Hkeep).
  split; [exact H14 |]. split; [exact H15 |].
  split; [reflexivity |]. intros s'.
  exact (proj1 (proj2 (Hkeep eq_refl)) 0 [0; 0; 0; 0; 0] s').
Defined.

(** X2.  One trigger, one cycle: the state in which a pass of
    [SoundLevel_Loop] returns is a fixed point of the loop.  Until the
    next watchdog wake-up or host request, further passes neither sample
    nor pulse nor change any variable, whatever the ADC would deliver. *)
Theorem Loop_idle_after_pass (codes codes' : list Z) (s s' : state) :
  SoundLevel_Loop codes s = Some s' ->
  SoundLevel_Loop codes' s' = Some s'.
Proof.
  intros HL. destruct (Loop_watchdog codes s s' HL) as (HnTO & Hp & _).
  unfold SoundLevel_Loop. rewrite HnTO. cbn [negb andb].
  unfold CLRWDT. rewrite (set_nTO_same s' HnTO), Hp. reflexivity.
Qed.

Lemma Loop_idle_after_pass_witness :
  exists s',
    SoundLevel_Loop burst (wdt_timeout armed_50000) = Some s' /\
    SoundLevel_Loop hum s' = Some s'.
Proof.
  destruct burst_codes as [Hl Hu].
  destruct (autonomous_step burst armed_50000 60000 armed_ready Hl Hu
              burst_output) as (s' & HL & _).
  exists s'. split; [exact HL |].
  exact (Loop_idle_after_pass burst hum (wdt_timeout armed_50000) s' HL).
Defined.

(** ** Whole cycles *)

(** The value a completed cycle leaves for [SoundLevel_GetData]. *)
Lemma measure_result (codes : list Z) (s s' : state) :
  measure codes s = Some s' ->
  exists s1 d,
    dataToSend s1 = Some d /\ transmitted s' = d /\
    SoundLevel_GetData s' = (2, (u8 (Z.shiftr d 8), u8 d)).
Proof.
  intros Hm.
  destruct (measure_completed codes s s' Hm) as (s1 & d & Hd & -> & _).
  exists s1, d. split; [exact Hd |].
  unfold transmitted, SoundLevel_GetData.
  rewrite (proj2 (proj2 (proj2 (notify_frame d _)))).
  cbn [measurementData set_measurementData].
  split; [| reflexivity]. apply bytes_value. exact (to_uint16_range _ _ Hd).
Qed.



(** Once the wait is released, further conversion results are not
    consumed. *)
Lemma wait_sampling_app (codes extra : list Z) :
  forall s s', wait_sampling codes s = Some s' ->
    wait_sampling (codes ++ extra) s = Some s'.
Proof.
  induction codes as [| c codes IH]; intros s s'.
  - cbn [wait_sampling app]. destruct (sampling s) eqn:Hs; [discriminate |].
    intros [= <-]. destruct extra; cbn [wait_sampling]; rewrite Hs; reflexivity.
  - cbn [wait_sampling app]. destruct (sampling s); [| trivial].
    destruct (SoundLevel_GetSample c (CLRWDT s)) as [s1 |]; [| discriminate].
    cbn [mbind option_bind]. apply IH.
Qed.

(** With fewer results than the buffer holds, [sampling] is never cleared. *)
Lemma wait_sampling_short (codes : list Z) :
  forall (s : state) (n : nat),
    sampling s = true ->
    sampleCounter s = Z.of_nat n -> (n + length codes < 400)%nat ->
    0 <= sampleSum s <= 65535 * Z.of_nat n -> Forall is_u16 codes ->
    wait_sampling codes s = None.
Proof.
  induction codes as [| c codes IH]; intros s n Hs Hn Hlen Hsum Hcodes;
    cbn [wait_sampling]; rewrite Hs; [reflexivity |].
  cbn [length] in Hlen. apply Forall_cons in Hcodes as [Hc Hcodes].
  destruct (GetSample_step c (CLRWDT s) n Hn ltac:(lia) Hsum Hc)
    as (s1 & -> & _ & Hsum1 & Hcnt1 & Hmid & _).
  cbn [mbind option_bind].
  destruct (Hmid ltac:(lia)) as (Hs1 & _).
  apply (IH s1 (S n)); try assumption; try lia.
  - rewrite Hs1. exact Hs.
  - change (sampleSum (CLRWDT s)) with (sampleSum s) in Hsum1.
    destruct Hc as [Hc0 Hc1]. change (2 ^ 16) with 65536 in Hc1. lia.
Qed.

(** X4.  A cycle consumes exactly 400 conversion results: results that
    the ADC would deliver after the 400th change nothing, and with fewer
    than 400 the busy-wait of [measure] is never released. *)
Theorem measure_consumes_400 (codes extra : list Z) (s : state) :
  Forall is_u16 codes -> length (sampleArray s) = 400%nat ->
  (length codes = 400%nat -> measure (codes ++ extra) s = measure codes s) /\
  ((length codes < 400)%nat -> measure codes s = None).
Proof.
  intros Hcodes Harr. split; intros Hlen; unfold measure;
    set (sb := SoundLevel_StartADC _).
  - destruct (wait_sampling_complete codes sb 0) as (sw & Hw & _);
      [reflexivity | reflexivity | lia | lia | cbn; lia | assumption
      | exact Harr |].
    rewrite (wait_sampling_app codes extra sb sw Hw), Hw. reflexivity.
  - rewrite (wait_sampling_short codes sb 0); [reflexivity | reflexivity
      | reflexivity | lia | cbn; lia | assumption].
Qed.

Lemma measure_consumes_400_witness :
  measure (burst ++ [1; 2; 3]) powered_on = measure burst powered_on /\
  measure (take 399 burst) powered_on = None.
Proof.
  split.
  - exact (proj1 (measure_consumes_400 burst [1; 2; 3] powered_on
                    (proj2 burst_codes) eq_refl) (proj1 burst_codes)).
  - apply (measure_consumes_400 (take 399 burst) [] powered_on
             (Forall_take _ 399 _ (proj2 burst_codes)) eq_refl).
    rewrite length_take, (proj1 burst_codes). cbn. lia.
Defined.

Lemma callbacks_app (l k : list Z) :
  forall s, callbacks (l ++ k) s = callbacks l s ≫= callbacks k.
Proof.
  induction l as [| c l IH]; intros s; cbn [callbacks app]; [reflexivity |].
  destruct (SoundLevel_GetSample c s) as [s1 |]; cbn [mbind option_bind];
    [apply IH | reflexivity].
Qed.

(** X5.  [SoundLevel_GetSample] does not guard its index: from the start
    of a cycle, a 401st invocation without a new [measure] in between
    writes [sampleArray[400]], past the end of the buffer (undefined
    behaviour, [None]). *)
Theorem callbacks_overrun (codes : list Z) (s : state) :
  sampleCounter s = 0 -> sampleSum s = 0 ->
  length (sampleArray s) = 400%nat ->
  Forall is_u16 codes -> (400 < length codes)%nat ->
  callbacks codes s = None.
Proof.
  intros Hcnt Hsum Harr Hcodes Hlen.
  rewrite <- (take_drop 400 codes), callbacks_app.
  destruct (callbacks_inv (take 400 codes) s 0) as
    (s1 & -> & _ & _ & Hcnt1 & _);
    [assumption | rewrite length_take; lia | lia
    | apply Forall_take; assumption | assumption |].
  cbn [mbind option_bind].
  rewrite length_take, Nat.min_l in Hcnt1 by lia.
  destruct (drop 400 codes) as [| c rest] eqn:Hd.
  - apply (f_equal length) in Hd. rewrite length_drop in Hd. cbn in Hd. lia.
  - cbn [callbacks]. unfold SoundLevel_GetSample.
    destruct (decide (0 <= sampleCounter s1 < SAMPLES)) as [Hin |];
      [| reflexivity].
    rewrite Hcnt1 in Hin. unfold SAMPLES in Hin. cbn in Hin. lia.
Qed.

Lemma callbacks_overrun_witness :
  callbacks (burst ++ [7]) sampling_started = None.
Proof.
  apply callbacks_overrun; try reflexivity.
  - apply Forall_app_2; [exact (proj2 burst_codes) |].
    repeat constructor; unfold is_u16; lia.
  - rewrite length_app, (proj1 burst_codes). cbn. lia.
Defined.

(** ** The range of the result *)

Lemma round_real_range (r : R) (z : Z) :
  (0 <= r <= IZR z)%R -> 0 <= round_real r <= z.
Proof.
  intros [Hlo Hhi]. unfold round_real.
  destruct (Rle_dec 0 r) as [_ | Hn]; [| contradiction].
  pose proof (Zfloor_bound (r + / 2)) as [Hb1 Hb2].
  split.
  - apply Zfloor_lub. cbn. lra.
  - apply Z.lt_succ_r. apply lt_IZR. rewrite succ_IZR. lra.
Qed.

(** What the clamp, the scaling and the conversion make of a decibel
    value. *)
Lemma encode_range (v : fval) (d : Z) :
  to_uint16 (fround (fscale 600 (if fgt v 106 then Finite 106 else v)))
    = Some d ->
  0 <= d <= 63600.
Proof.
  destruct (fgt v 106) eqn:Hgt.
  - cbn. replace (600 * 106)%R with (IZR 63600) by lra.
    rewrite round_real_IZR. cbn. intros [= <-]. lia.
  - destruct v as [r | |]; cbn [fscale fround to_uint16]; try discriminate.
    destruct (decide (0 <= round_real (600 * r) < 2 ^ 16)) as [[H0 _] |];
      [| discriminate].
    intros [= <-]. split; [exact H0 |].
    cbn in Hgt. destruct (Rgt_dec r 106) as [| Hle]; [discriminate |].
    unfold round_real in *.
    destruct (Rle_dec 0 (600 * r)) as [Hpos | Hneg].
    + pose proof (Zfloor_bound (600 * r + / 2)) as [Hb1 _].
      apply Z.lt_succ_r. apply lt_IZR. rewrite succ_IZR. lra.
    + assert (0 <= Zfloor (- (600 * r) + / 2)) by (apply Zfloor_lub; cbn; lra).
      lia.
Qed.

Lemma encode_defined (r : R) :
  (0 <= r)%R ->
  exists d,
    to_uint16
      (fround (fscale 600 (if fgt (Finite r) 106 then Finite 106
                           else Finite r))) = Some d.
Proof.
  intros Hr. destruct (fgt (Finite r) 106) eqn:Hgt.
  - exists 63600. cbn. replace (600 * 106)%R with (IZR 63600) by lra.
    rewrite round_real_IZR. reflexivity.
  - cbn in Hgt. destruct (Rgt_dec r 106) as [| Hle]; [discriminate |].
    cbn [fscale fround to_uint16].
    destruct (round_real_range (600 * r) 63600) as [H0 H1];
      [cbn; lra |].
    eexists. destruct (decide (0 <= round_real (600 * r) < 2 ^ 16)) as [| Hn];
      [reflexivity |].
    exfalso. apply Hn. change (2 ^ 16) with 65536. lia.
Qed.

(** X6.  Whatever the samples, a cycle that completes transmits a value
    between 0 and 63600 = 106 dB * 600, in two bytes: the clamp at
    [DBZ_MAX] bounds every result, not only those of the clipping
    signal. *)
Theorem result_at_most_63600 (codes : list Z) (s s' : state) :
  measure codes s = Some s' ->
  0 <= transmitted s' <= 63600 /\
  is_u8 (fst (measurementData s')) /\ is_u8 (snd (measurementData s')).
Proof.
  intros Hm.
  destruct (measure_result codes s s' Hm) as (s1 & d & Hd & Ht & Hg).
  split.
  - rewrite Ht. exact (encode_range (dBZ_raw s1) d Hd).
  - unfold SoundLevel_GetData in Hg. injection Hg as ->. cbn [fst snd].
    unfold is_u8, u8. split; apply Z.mod_pos_bound; lia.
Qed.

Lemma result_at_most_63600_witness :
  exists s',
    measure burst powered_on = Some s' /\
    0 <= transmitted s' <= 63600 /\
    is_u8 (fst (measurementData s')) /\ is_u8 (snd (measurementData s')).
Proof.
  destruct burst_codes as [Hl Hu].
  destruct (measure_transmits burst powered_on 60000 Hl Hu eq_refl eq_refl
              burst_output) as (s' & Hm & _).
  exists s'. split; [exact Hm |].
  exact (result_at_most_63600 burst powered_on s' Hm).
Defined.

(** ** Which signals have a result *)

Lemma Rsum_ge_elem (f : Z -> R) (l : list Z) (x : Z) :
  (forall z, 0 <= f z)%R -> x ∈ l -> (f x <= Rsum (map f l))%R.
Proof.
  intros Hf. induction l as [| a l IH]; intros Hx.
  - inversion Hx.
  - cbn [map Rsum foldr]. fold (Rsum (map f l)).
    assert (0 <= Rsum (map f l))%R.
    { clear IH Hx. induction l as [| b l IHl]; cbn; [lra |].
      fold (Rsum (map f l)). pose proof (Hf b). lra. }
    apply elem_of_cons in Hx as [-> | Hx]; [lra |].
    pose proof (Hf a). pose proof (IH Hx). lra.
Qed.

Lemma Rsum_ge_two (f : Z -> R) (l : list Z) (x y : Z) :
  (forall z, 0 <= f z)%R -> x ∈ l -> y ∈ l -> x <> y ->
  (f x + f y <= Rsum (map f l))%R.
Proof.
  intros Hf. induction l as [| a l IH]; intros Hx Hy Hne.
  - inversion Hx.
  - cbn [map Rsum foldr]. fold (Rsum (map f l)).
    apply elem_of_cons in Hx as [-> | Hx];
      apply elem_of_cons in Hy as [-> | Hy].
    + contradiction.
    + pose proof (Rsum_ge_elem f l y Hf Hy). lra.
    + pose proof (Rsum_ge_elem f l x Hf Hx). lra.
    + pose proof (Hf a). pose proof (IH Hx Hy Hne). lra.
Qed.

(** Two different integer samples are at least one code apart, whatever
    the mean is. *)
Lemma two_samples_apart (x y : Z) (m : R) :
  x <> y ->
  (/ 2 <= (IZR x - m) * (IZR x - m) + (IZR y - m) * (IZR y - m))%R.
Proof.
  intros Hne.
  assert (H1 : (1 <= (IZR x - IZR y) * (IZR x - IZR y))%R).
  { rewrite <- minus_IZR, <- mult_IZR. apply IZR_le. nia. }
  pose proof (Rle_0_sqr ((IZR x - m) + (IZR y - m))) as H2.
  unfold Rsqr in H2. lra.
Qed.

(** A buffer with two different samples has a defined, positive decibel
    value. *)
Lemma varied_output (codes : list Z) (sum : Z) (x y : Z) :
  x ∈ codes -> y ∈ codes -> x <> y ->
  exists d, spec_output codes sum = Some d.
Proof.
  intros Hx Hy Hne.
  unfold spec_output, spec_dB, spec_avgSquared, spec_sumSquares.
  set (f := fun z : Z => (spec_pressure (spec_mean sum) z ^ 2)%R).
  assert (Hf : forall z, (0 <= f z)%R) by (intros z; unfold f; nra).
  pose proof (Rsum_ge_two f codes x y Hf Hx Hy Hne) as Hsum.
  pose proof (two_samples_apart x y (spec_mean sum) Hne) as Hap.
  assert (Hlow : (spec_adcScaler * spec_adcScaler * / 2 <= Rsum (map f codes))%R).
  { eapply Rle_trans; [| exact Hsum]. unfold f, spec_pressure.
    assert (0 <= spec_adcScaler * spec_adcScaler)%R by nra. nra. }
  match goal with
  | |- context [log10 ?a] => destruct (log10_ge_pow10 a 0) as (r & -> & Hr)
  end.
  - unfold spec_adcScaler in Hlow. cbn [pow]. lra.
  - cbn [INR] in Hr. cbn [fscale].
    apply encode_defined. lra.
Qed.

(** X7.  A cycle over 400 conversion results has a defined result exactly
    when two of the results differ: the constant signals are the only
    ones on which the reduction reaches the pole of the logarithm. *)
Theorem result_defined_iff_varied (codes : list Z) (s : state) :
  length codes = 400%nat -> Forall is_u16 codes ->
  length (sampleArray s) = 400%nat ->
  adcScaler s = spec_adcScaler ->
  (exists s', measure codes s = Some s') <->
  (exists x y, x ∈ codes /\ y ∈ codes /\ x <> y).
Proof.
  intros Hlen Hcodes Harr Ha. split.
  - intros [s' Hm].
    destruct codes as [| v rest]; [discriminate |].
    destruct (decide (Forall (eq v) (v :: rest))) as [Hall | Hnot].
    + exfalso.
      apply (replicate_as_Forall_2 v 400) in Hall; [| exact Hlen].
      rewrite <- Hall in Hm.
      rewrite measure_constant_signal in Hm; [discriminate | | exact Harr].
      apply Forall_cons in Hcodes as [Hv _]. exact Hv.
    + apply not_Forall_Exists in Hnot; [| intros z; apply _].
      apply Exists_exists in Hnot as (y & Hy & Hne).
      exists v, y. split; [left |]. split; [exact Hy | exact Hne].
  - intros (x & y & Hx & Hy & Hne).
    destruct (varied_output codes (Zsum codes) x y Hx Hy Hne) as [d Hd].
    destruct (measure_transmits codes s d Hlen Hcodes Harr Ha Hd)
      as (s' & Hm & _).
    exists s'. exact Hm.
Qed.

Lemma result_defined_iff_varied_witness :
  (exists s', measure hum powered_on = Some s') <->
  (exists x y, x ∈ hum /\ y ∈ hum /\ x <> y).
Proof.
  destruct hum_codes as [Hl Hu].
  exact (result_defined_iff_varied hum powered_on Hl Hu eq_refl eq_refl).
Defined.

(** ** An on-demand measurement from end to end *)



(** ** Threshold level encoding *)

(** X8.  The threshold level survives its encoding: a metric 0 payload
    that carries [level >> 8] and [level & 0xFF] in bytes 3 and 4 sets
    [thresholdLevel] to [level], for every 16-bit level, every enable
    byte, every value of bytes 1 and 2 and every longer payload. *)
Theorem SetThreshold_level_roundtrip
    (enable b1 b2 level : Z) (rest : list Z) (s : state) :
  is_u16 level ->
  exists s',
    SoundLevel_SetThreshold 0
      (enable :: b1 :: b2 :: Z.shiftr level 8 :: Z.land level 255 :: rest) s
    = Some s' /\
    thresholdLevel s' = level /\
    thresholdEnabled s' = enable.
Proof.
  intros [H0 H1]. change (2 ^ 16) with 65536 in H1.
  assert (Hlo : Z.land level 255 = level mod 256)
    by (change 255 with (Z.ones 8); rewrite Z.land_ones by lia; reflexivity).
  assert (Hhi : Z.shiftr level 8 = level / 256)
    by (rewrite Z.shiftr_div_pow2 by lia; reflexivity).
  assert (Hb4 : is_u8 (Z.land level 255))
    by (rewrite Hlo; unfold is_u8; apply Z.mod_pos_bound; lia).
  assert (Hb3 : is_u8 (Z.shiftr level 8)).
  { rewrite Hhi. unfold is_u8. change (2 ^ 8) with 256.
    split; [apply Z.div_pos; lia | apply Z.div_lt_upper_bound; lia]. }
  assert (Hlvl : u16 (Z.lor (Z.shiftl (Z.shiftr level 8) 8)
                           (Z.land level 255)) = level).
  { rewrite lor_shiftl_8 by assumption. rewrite Hhi, Hlo.
    pose proof (Z.div_mod level 256 ltac:(lia)).
    unfold u16. rewrite Z.mod_small; change (2 ^ 16) with 65536; lia. }
  unfold SoundLevel_SetThreshold. cbn. rewrite Hlvl.
  destruct (decide (enable = 0));
    (eexists; split; [reflexivity | split; reflexivity]).
Qed.

Lemma SetThreshold_level_roundtrip_witness :
  exists s',
    SoundLevel_SetThreshold 0
      [1; 0; 0; Z.shiftr 50000 8; Z.land 50000 255] powered_on = Some s' /\
    thresholdLevel s' = 50000 /\
    thresholdEnabled s' = 1.
Proof.
  apply (SetThreshold_level_roundtrip 1 0 0 50000 [] powered_on).
  unfold is_u16. lia.
Defined.

(** ** Independence of the past *)

(** X9.  The result of a cycle depends on the 400 conversion results and
    the ADC scale factor only: two states that agree on [adcScaler] give
    the same answer to [SoundLevel_GetData] (or both none), whatever the
    buffer, the sums, the accumulator, the previous result and the
    threshold settings were before. *)
Theorem result_ignores_history (codes : list Z) (s1 s2 : state) :
  length codes = 400%nat -> Forall is_u16 codes ->
  length (sampleArray s1) = 400%nat -> length (sampleArray s2) = 400%nat ->
  adcScaler s1 = adcScaler s2 ->
  SoundLevel_GetData <$> measure codes s1
  = SoundLevel_GetData <$> measure codes s2.
Proof.
  intros Hlen Hcodes Harr1 Harr2 Ha.
  destruct (measure_acquires codes s1 Hlen Hcodes Harr1) as
    (a1 & -> & Hc1 & Hs1 & Hp1 & Ha1 & _).
  destruct (measure_acquires codes s2 Hlen Hcodes Harr2) as
    (a2 & -> & Hc2 & Hs2 & Hp2 & Ha2 & _).
  assert (Hl1 : length (sampleArray a1) = 400%nat) by congruence.
  assert (Hl2 : length (sampleArray a2) = 400%nat) by congruence.
  destruct (processSamples_sum a1 Hl1) as [_ Hq1].
  destruct (processSamples_sum a2 Hl2) as [_ Hq2].
  assert (Hq : presSumSquared (processSamples a1)
               = presSumSquared (processSamples a2)).
  { rewrite Hq1, Hq2, Hp1, Hp2, Hc1, Hc2, Hs1, Hs2, Ha1, Ha2, Ha.
    reflexivity. }
  revert Hq. generalize (processSamples a1) (processSamples a2).
  intros p1 p2 Hq.
  unfold SoundLevel_PrepareData, dataToSend, dBZ, dBZ_raw.
  cbn [presSumSquared emit CLRWDT set_nTO]. rewrite Hq.
  destruct (to_uint16 _) as [d |]; [| reflexivity].
  cbn [mbind option_bind fmap option_fmap option_map].
  unfold SoundLevel_GetData, SoundLevel_LedOff.
  rewrite !(proj2 (proj2 (proj2 (notify_frame d _)))). reflexivity.
Qed.

Lemma result_ignores_history_witness :
  SoundLevel_GetData <$> measure burst powered_on
  = SoundLevel_GetData <$> measure burst silent.
Proof.
  destruct burst_codes as [Hl Hu].
  exact (result_ignores_history burst powered_on silent Hl Hu
           eq_refl eq_refl eq_refl).
Defined.

(** ** After a watchdog reset *)

Lemma watchdog_reset_ready (s : state) :
  thresholdEnabled s <> 0 ->
  autonomous_ready (SoundLevel_Init (watchdog_reset s)).
Proof. intros H. unfold autonomous_ready. repeat split. exact H. Qed.

(** X10.  After a reset by the watchdog the threshold mode is still
    enabled (the flag is [__persistent]) but the level is not kept
    ([thresholdLevel] is re-initialised to 0): the first autonomous cycle
    after [SoundLevel_Init] pulses READY for every nonzero result, also
    one below the level the host had set. *)
Theorem watchdog_reset_forgets_level (codes : list Z) (s s' : state) :
  thresholdEnabled s <> 0 ->
  SoundLevel_Loop codes (wdt_timeout (SoundLevel_Init (watchdog_reset s)))
    = Some s' ->
  0 < transmitted s' ->
  thresholdEnabled s' = thresholdEnabled s /\
  thresholdLevel s' = 0 /\
  interrupts (trace s') = 1%nat.
Proof.
  intros He HL Hpos.
  set (s0 := SoundLevel_Init (watchdog_reset s)) in *.
  assert (He0 : thresholdEnabled s0 = thresholdEnabled s) by reflexivity.
  destruct (Loop_autonomous codes s0 s' eq_refl eq_refl
              ltac:(rewrite He0; exact He) HL)
    as (Hi & _ & Hl & He' & _).
  cbv zeta in Hi.
  change (thresholdLevel s0) with 0 in Hi, Hl.
  change (overThreshold s0) with false in Hi.
  change (interrupts (trace s0)) with 0%nat in Hi.
  destruct (decide (transmitted s' > 0)); [| lia].
  repeat split; [congruence | exact Hl | exact Hi].
Qed.

Lemma watchdog_reset_forgets_level_witness :
  exists s',
    SoundLevel_Loop hum
      (wdt_timeout (SoundLevel_Init (watchdog_reset armed_50000))) = Some s' /\
    transmitted s' = 40000 /\
    thresholdEnabled s' = thresholdEnabled armed_50000 /\
    thresholdLevel s' = 0 /\
    interrupts (trace s') = 1%nat.
Proof.
  destruct hum_codes as [Hl Hu].
  pose proof (proj1 (proj2 (proj2 armed_ready))) as He.
  destruct (autonomous_step hum _ 40000
              (watchdog_reset_ready armed_50000 He) Hl Hu hum_output)
    as (s' & HL & Ht & _).
  exists s'. split; [exact HL |]. split; [exact Ht |].
  apply (watchdog_reset_forgets_level hum armed_50000 s' He HL).
  rewrite Ht. lia.
Defined.

(** ** Runs of autonomous cycles *)

(** X11.  Over any run of autonomous cycles in threshold mode, the number
    of READY pulses is the number of rising edges of the transmitted
    results across the threshold level, counted from the edge state the
    run starts in; each cycle transmits one result. *)
Theorem pulses_count_rising_edges (cycles : list (list Z)) :
  forall (s s' : state) (values : list Z),
    polledMeasurement s = false ->
    measurementRunning s = false ->
    thresholdEnabled s <> 0 ->
    autonomous_run cycles s = Some (values, s') ->
    length values = length cycles /\
    interrupts (trace s') =
      (interrupts (trace s)
       + rising_edges (thresholdLevel s) (overThreshold s) values)%nat.
Proof.
  induction cycles as [| codes cycles IH]; intros s s' values Hp Hr He;
    cbn [autonomous_run].
  - intros [= <- <-]. cbn. split; [reflexivity | lia].
  - destruct (SoundLevel_Loop codes (wdt_timeout s)) as [s1 |] eqn:HL;
      cbn [mbind option_bind]; [| discriminate].
    destruct (autonomous_run cycles s1) as [[vals s2] |] eqn:Hrun;
      cbn [mbind option_bind fst snd]; [| discriminate].
    intros [= <- <-].
    destruct (Loop_autonomous codes s s1 Hp Hr He HL)
      as (Hi & Ho & Hl & He1 & Hp1 & Hr1).
    cbv zeta in Hi, Ho.
    destruct (IH s1 s2 vals Hp1 Hr1 ltac:(congruence) Hrun) as [Hlen Hi2].
    cbn [length rising_edges]. split; [congruence |].
    rewrite Hi2, Hi, Hl, Ho. lia.
Qed.

Lemma pulses_count_rising_edges_witness :
  exists s',
    autonomous_run [burst; burst; hum; burst] armed_50000
      = Some ([60000; 60000; 40000; 60000], s') /\
    interrupts (trace s') =
      Nat.add (interrupts (trace armed_50000)) 2.
Proof.
  destruct burst_codes as [Hbl Hbu]. destruct hum_codes as [Hhl Hhu].
  destruct (autonomous_step burst armed_50000 60000 armed_ready Hbl Hbu
              burst_output) as (s1 & H1 & Ht1 & Hready1).
  destruct (autonomous_step burst s1 60000 Hready1 Hbl Hbu burst_output)
    as (s2 & H2 & Ht2 & Hready2).
  destruct (autonomous_step hum s2 40000 Hready2 Hhl Hhu hum_output)
    as (s3 & H3 & Ht3 & Hready3).
  destruct (autonomous_step burst s3 60000 Hready3 Hbl Hbu burst_output)
    as (s4 & H4 & Ht4 & _).
  assert (Hrun : autonomous_run [burst; burst; hum; burst] armed_50000
                 = Some ([60000; 60000; 40000; 60000], s4)).
  { cbn [autonomous_run]. rewrite H1. cbn [mbind option_bind].
    rewrite H2. cbn [mbind option_bind]. rewrite H3. cbn [mbind option_bind].
    rewrite H4. cbn [mbind option_bind fst snd].
    rewrite Ht1, Ht2, Ht3, Ht4. reflexivity. }
  exists s4. split; [exact Hrun |].
  destruct armed_ready as (Hp0 & Hr0 & He0 & _).
  pose proof (proj2 (pulses_count_rising_edges _ armed_50000 s4 _
                       Hp0 Hr0 He0 Hrun)) as Hi.
  change (thresholdLevel armed_50000) with 50000 in Hi.
  change (overThreshold armed_50000) with false in Hi.
  exact Hi.
Defined.

(** * Power sensor: properties *)

Lemma Power_voltage_millivolt (code : Z) :
  Power.voltage code = (IZR code / 1000)%R.
Proof. unfold Power.voltage. lra. Qed.

(** The transmitted value is six tenths of the conversion code, rounded
    to the nearest integer; no code falls on a tie. *)
Lemma Power_scaled_voltage (code : Z) :
  is_u16 code -> Power.scaled (Power.voltage code) = Some ((6 * code + 5) / 10).
Proof.
  intros [H0 H1]. change (2 ^ 16) with 65536 in H1.
  unfold Power.scaled. rewrite Power_voltage_millivolt.
  pose proof (Z.div_mod (6 * code + 5) 10 ltac:(lia)) as Hdm.
  pose proof (Z.mod_pos_bound (6 * code + 5) 10 ltac:(lia)) as Hmod.
  set (q := (6 * code + 5) / 10) in *. set (r := (6 * code + 5) mod 10) in *.
  assert (Hc : (IZR code * 6 + 5 = 10 * IZR q + IZR r)%R).
  { rewrite <- (mult_IZR code 6), <- (plus_IZR _ 5), <- (mult_IZR 10 q),
      <- plus_IZR. f_equal. lia. }
  assert (Hr0 : (0 <= IZR r)%R) by (apply IZR_le; lia).
  assert (Hr1 : (IZR r <= 9)%R) by (apply IZR_le; lia).
  assert (Hc0 : (0 <= IZR code)%R) by (apply IZR_le; lia).
  assert (Hround : round_real (IZR code / 1000 * 600) = q).
  { unfold round_real.
    destruct (Rle_dec 0 (IZR code / 1000 * 600)) as [_ | Hn]; [| lra].
    apply Zfloor_eq. lra. }
  rewrite Hround. cbn [to_uint16].
  destruct (decide (0 <= q < 2 ^ 16)) as [| Hn]; [reflexivity |].
  exfalso. apply Hn. change (2 ^ 16) with 65536. lia.
Qed.

Lemma Power_store_Some (i : nat) (v : Z) (data : list Z) :
  (i < length data)%nat -> Power.store i v data = Some (<[i := v]> data).
Proof.
  intros H. unfold Power.store.
  destruct (decide (i < length data)%nat); [reflexivity | contradiction].
Qed.

(** The undervoltage flag after a measurement that read [bat]. *)
Lemma Power_flag_cases (bat flag : Z) :
  let v := Power.voltage bat in
  let under1 := if Rlt_dec v 3.3 then 1 else flag in
  let under2 :=
    if decide (under1 = 1) then if Rgt_dec v 3.5 then 0 else under1
    else under1 in
  (bat < 3300 -> under2 = 1) /\
  (3300 < bat < 3500 -> under2 = flag) /\
  (3500 < bat -> under2 = if decide (flag = 1) then 0 else flag).
Proof.
  cbv zeta. rewrite Power_voltage_millivolt.
  assert (Hlt : forall k : Z, bat < k -> (IZR bat < IZR k)%R)
    by (intros k; apply IZR_lt).
  assert (Hle : forall k : Z, k <= bat -> (IZR k <= IZR bat)%R)
    by (intros k; apply IZR_le).
  repeat split; intros H.
  - specialize (Hlt 3300 H).
    destruct (Rlt_dec (IZR bat / 1000) 3.3) as [_ | Hn]; [| lra].
    destruct (decide (1 = 1)) as [_ | ?]; [| contradiction].
    destruct (Rgt_dec (IZR bat / 1000) 3.5); [lra | reflexivity].
  - destruct H as [H1 H2]. apply IZR_lt in H1. apply IZR_lt in H2.
    destruct (Rlt_dec (IZR bat / 1000) 3.3) as [| _]; [lra |].
    destruct (decide (flag = 1)); [| reflexivity].
    destruct (Rgt_dec (IZR bat / 1000) 3.5); [lra | reflexivity].
  - pose proof (IZR_lt 3500 bat H) as Hlt'.
    destruct (Rlt_dec (IZR bat / 1000) 3.3) as [| _]; [lra |].
    destruct (decide (flag = 1)); [| reflexivity].
    destruct (Rgt_dec (IZR bat / 1000) 3.5); [reflexivity | lra].
Qed.

(** A requested measurement on a buffer of at least six bytes, with the
    state it leaves. *)
Lemma Power_Loop_requested (adc : Power.conversions) (s : Power.state)
    (d0 d1 d2 d3 d4 d5 : Z) (rest : list Z) :
  Power.measurementRunning s = false ->
  Power.measurementData s = d0 :: d1 :: d2 :: d3 :: d4 :: d5 :: rest ->
  is_u16 (Power.sol_first adc) -> is_u16 (Power.sol_second adc) ->
  is_u16 (Power.bat_value adc) ->
  let bat := (6 * Power.bat_value adc + 5) / 10 in
  let solmin := Z.min (Power.sol_first adc) (Power.sol_second adc) in
  let sol := (6 * solmin + 5) / 10 in
  exists s',
    Power.Power_Loop adc (Power.Power_Measure s) = Some s' /\
    Power.measurementData s' =
      u8 (Z.shiftr bat 8) :: u8 bat :: u8 (Z.shiftr sol 8) :: u8 sol ::
      u8 (Power.batteryundervoltage s') :: 0 :: rest /\
    Power.batteryundervoltage s' =
      (let v := Power.voltage (Power.bat_value adc) in
       let under1 :=
         if Rlt_dec v 3.3 then 1 else Power.batteryundervoltage s in
       if decide (under1 = 1) then if Rgt_dec v 3.5 then 0 else under1
       else under1) /\
    Power.solvoltage s' = solmin /\
    Power.startMeasurement s' = false /\
    Power.measurementRunning s' = false /\
    Power.FVRCON s' = 0 /\
    Power.interrupts (Power.trace s') = S (Power.interrupts (Power.trace s)).
Proof.
  intros Hr Hd Hs1 Hs2 Hb bat solmin sol.
  unfold Power.Power_Loop.
  cbn [Power.startMeasurement Power.measurementRunning Power.Power_Measure
       Power.set_FVRCON Power.measurementData Power.batteryundervoltage
       Power.trace].
  rewrite Hr, Hd. cbn [negb andb].
  assert (Hmin : (if decide (Power.sol_second adc < Power.sol_first adc)
                  then Power.sol_second adc else Power.sol_first adc)
                 = solmin).
  { unfold solmin. destruct (decide _); lia. }
  rewrite Hmin.
  assert (Hsm : is_u16 solmin).
  { unfold solmin, is_u16 in *. lia. }
  rewrite (Power_scaled_voltage _ Hb), (Power_scaled_voltage _ Hsm).
  cbn [mbind option_bind]. fold bat sol.
  unfold Power.store. cbn [length].
  repeat (destruct (decide _) as [_ | Hn]; [| exfalso; apply Hn; lia];
          cbn [mbind option_bind]).
  eexists. split; [reflexivity |].
  cbn [Power.measurementData Power.batteryundervoltage Power.solvoltage
       Power.startMeasurement Power.measurementRunning Power.FVRCON
       Power.trace].
  repeat split.
  unfold Power.interrupts. rewrite filter_app, length_app.
  match goal with |- (_ + ?n = _)%nat => change n with 1%nat end. lia.
Qed.

Lemma Power_six_bytes (data : list Z) :
  (6 <= length data)%nat ->
  exists d0 d1 d2 d3 d4 d5 rest,
    data = d0 :: d1 :: d2 :: d3 :: d4 :: d5 :: rest.
Proof.
  intros H.
  destruct data as [| d0 [| d1 [| d2 [| d3 [| d4 [| d5 rest]]]]]];
    cbn in H; try lia.
  repeat eexists.
Qed.

(** X12.  A requested power measurement on a result buffer of at least
    six bytes returns; [Power_GetData] then gives the length 2 and the
    battery value, high byte first, which is six tenths of the battery
    conversion code rounded to the nearest integer (600 per volt, at one
    millivolt per code); bytes 2 and 3 of the buffer hold the same for the
    lower of the two solar readings, and READY is pulsed exactly once. *)
Theorem Power_battery_reading (adc : Power.conversions) (s : Power.state) :
  Power.measurementRunning s = false ->
  (6 <= length (Power.measurementData s))%nat ->
  is_u16 (Power.sol_first adc) -> is_u16 (Power.sol_second adc) ->
  is_u16 (Power.bat_value adc) ->
  let bat := (6 * Power.bat_value adc + 5) / 10 in
  let sol :=
    (6 * Z.min (Power.sol_first adc) (Power.sol_second adc) + 5) / 10 in
  exists s' msb lsb,
    Power.Power_Loop adc (Power.Power_Measure s) = Some s' /\
    Power.Power_GetData s' = Some (2, (msb, lsb)) /\
    is_u8 msb /\ is_u8 lsb /\ msb * 2 ^ 8 + lsb = bat /\
    Power.measurementData s' !! 2%nat = Some (u8 (Z.shiftr sol 8)) /\
    Power.measurementData s' !! 3%nat = Some (u8 sol) /\
    Power.interrupts (Power.trace s') = S (Power.interrupts (Power.trace s)).
Proof.
  intros Hr Hlen Hs1 Hs2 Hb bat sol.
  destruct (Power_six_bytes _ Hlen) as (d0 & d1 & d2 & d3 & d4 & d5 & rest & Hd).
  destruct (Power_Loop_requested adc s d0 d1 d2 d3 d4 d5 rest Hr Hd Hs1 Hs2 Hb)
    as (s' & HL & Hdata & _ & _ & _ & _ & _ & Hi).
  fold bat sol in Hdata.
  exists s', (u8 (Z.shiftr bat 8)), (u8 bat).
  split; [exact HL |].
  unfold Power.Power_GetData. rewrite Hdata. cbn [lookup list_lookup mbind option_bind].
  split; [reflexivity |].
  assert (Hbat : 0 <= bat < 2 ^ 16).
  { unfold bat. destruct Hb as [H0 H1]. change (2 ^ 16) with 65536 in *.
    split; [apply Z.div_pos; lia | apply Z.div_lt_upper_bound; lia]. }
  repeat split; try (unfold u8; apply Z.mod_pos_bound; lia).
  - apply bytes_value. exact Hbat.
  - exact Hi.
Qed.

Lemma Power_battery_reading_witness :
  exists s' msb lsb,
    Power.Power_Loop Power_sample (Power.Power_Measure (Power.boot 3))
      = Some s' /\
    Power.Power_GetData s' = Some (2, (msb, lsb)) /\
    is_u8 msb /\ is_u8 lsb /\ msb * 2 ^ 8 + lsb = 2220 /\
    Power.measurementData s' !! 2%nat = Some (u8 (Z.shiftr 1710 8)) /\
    Power.measurementData s' !! 3%nat = Some (u8 1710) /\
    Power.interrupts (Power.trace s') = 1%nat.
Proof.
  apply (Power_battery_reading Power_sample (Power.boot 3));
    try reflexivity; cbn; try lia; unfold is_u16; lia.
Defined.

(** X13.  The battery undervoltage flag has hysteresis: a reading below
    3300 (3.3 V) sets it, a reading above 3500 (3.5 V) clears it, and a
    reading strictly between leaves it as it was; byte 4 of the buffer is
    the flag after the update.  (The readings 3300 and 3500 themselves
    compare differently in float and in exact arithmetic and are left
    out.) *)
Theorem Power_undervoltage_hysteresis
    (adc : Power.conversions) (s s' : Power.state) :
  Power.measurementRunning s = false ->
  is_u16 (Power.sol_first adc) -> is_u16 (Power.sol_second adc) ->
  is_u16 (Power.bat_value adc) ->
  Power.Power_Loop adc (Power.Power_Measure s) = Some s' ->
  let bat := Power.bat_value adc in
  let flag := Power.batteryundervoltage s in
  let flag' := Power.batteryundervoltage s' in
  (bat < 3300 -> flag' = 1) /\
  (3300 < bat < 3500 -> flag' = flag) /\
  (3500 < bat -> flag' = if decide (flag = 1) then 0 else flag) /\
  Power.measurementData s' !! 4%nat = Some (u8 flag').
Proof.
  intros Hr Hs1 Hs2 Hb HL bat flag flag'.
  assert (Hlen : (6 <= length (Power.measurementData s))%nat).
  { destruct (le_lt_dec 6 (length (Power.measurementData s))) as [| Hlt];
      [assumption | exfalso].
    revert HL. unfold Power.Power_Loop.
    cbn [Power.startMeasurement Power.measurementRunning Power.Power_Measure
         Power.set_FVRCON Power.measurementData].
    rewrite Hr. cbn [negb andb].
    rewrite (Power_scaled_voltage _ Hb). cbn [mbind option_bind].
    destruct (Power.scaled _); [| discriminate]. cbn [mbind option_bind].
    unfold Power.store.
    destruct (Power.measurementData s)
      as [| d0 [| d1 [| d2 [| d3 [| d4 [| d5 rest]]]]]];
      cbn in Hlt |- *; try discriminate; lia. }
  destruct (Power_six_bytes _ Hlen) as (d0 & d1 & d2 & d3 & d4 & d5 & rest & Hd).
  destruct (Power_Loop_requested adc s d0 d1 d2 d3 d4 d5 rest Hr Hd Hs1 Hs2 Hb)
    as (s0 & HL0 & Hdata & Hflag & _).
  assert (s0 = s') as -> by congruence.
  destruct (Power_flag_cases bat flag) as (H1 & H2 & H3).
  cbv zeta in H1, H2, H3. fold bat flag in Hflag. cbv zeta in Hflag.
  unfold flag'. rewrite Hdata. rewrite Hflag.
  repeat split; auto.
Qed.

Lemma Power_undervoltage_hysteresis_witness :
  exists s',
    Power.Power_Loop Power_sample (Power.Power_Measure (Power.boot 3))
      = Some s' /\
    (3700 < 3300 -> Power.batteryundervoltage s' = 1) /\
    (3300 < 3700 < 3500 -> Power.batteryundervoltage s' = 0) /\
    (3500 < 3700 ->
     Power.batteryundervoltage s' = if decide (0 = 1) then 0 else 0) /\
    Power.measurementData s' !! 4%nat
      = Some (u8 (Power.batteryundervoltage s')).
Proof.
  assert (Hu : forall z, 0 <= z < 65536 -> is_u16 z)
    by (intros z Hz; unfold is_u16; change (2 ^ 16) with 65536; exact Hz).
  destruct (Power_Loop_requested Power_sample (Power.boot 3) 0 0 0 0 0 0 [])
    as (s' & HL & _); try reflexivity; try (apply Hu; cbn; lia).
  exists s'. split; [exact HL |].
  apply (Power_undervoltage_hysteresis Power_sample (Power.boot 3) s');
    try reflexivity; try (apply Hu; cbn; lia).
  exact HL.
Defined.

(** X14.  One request, one measurement: the state in which a pass of
    [Power_Loop] returns is a fixed point of the loop, with no request
    pending and the fixed voltage reference switched off. *)
Theorem Power_one_request_one_measurement
    (adc adc' : Power.conversions) (s s' : Power.state) :
  Power.Power_Loop adc s = Some s' ->
  Power.Power_Loop adc' s' = Some s' /\
  Power.startMeasurement s' && negb (Power.measurementRunning s') = false /\
  Power.FVRCON s' = 0.
Proof.
  unfold Power.Power_Loop at 1.
  cbn [Power.startMeasurement Power.measurementRunning Power.set_FVRCON].
  destruct (Power.startMeasurement s && negb (Power.measurementRunning s))
    eqn:Htrig.
  - destruct (Power.scaled (Power.voltage (Power.bat_value adc)))
      as [db |]; cbn [mbind option_bind]; [| discriminate].
    destruct (Power.scaled _) as [ds |]; cbn [mbind option_bind];
      [| discriminate].
    repeat (destruct (Power.store _ _ _) as [? |]; cbn [mbind option_bind];
            [| discriminate]).
    intros [= <-]. repeat split.
  - intros [= <-]. unfold Power.Power_Loop.
    cbn [Power.startMeasurement Power.measurementRunning Power.set_FVRCON
         Power.FVRCON].
    rewrite Htrig. repeat split.
Qed.

Lemma Power_one_request_one_measurement_witness :
  exists s',
    Power.Power_Loop Power_sample (Power.Power_Measure (Power.boot 3))
      = Some s' /\
    Power.Power_Loop Power_sample s' = Some s' /\
    Power.startMeasurement s' && negb (Power.measurementRunning s') = false /\
    Power.FVRCON s' = 0.
Proof.
  assert (Hu : forall z, 0 <= z < 65536 -> is_u16 z)
    by (intros z Hz; unfold is_u16; change (2 ^ 16) with 65536; exact Hz).
  destruct (Power_Loop_requested Power_sample (Power.boot 3) 0 0 0 0 0 0 [])
    as (s' & HL & _); try reflexivity; try (apply Hu; cbn; lia).
  exists s'. split; [exact HL |].
  exact (Power_one_request_one_measurement Power_sample Power_sample
           (Power.Power_Measure (Power.boot 3)) s' HL).
Defined.

(** X15.  The six bytes that [Power_Loop] writes need a buffer of at
    least three 16-bit values: with [measurementData[2 * M_NR]], a
    requested measurement is defined exactly when [3 <= M_NR].  For the
    [M_NR = 2] that the comment of [Power_GetData] names, the writes to
    bytes 4 and 5 fall outside the buffer. *)
Theorem Power_buffer_needs_six_bytes
    (M_NR : nat) (adc : Power.conversions) (s : Power.state) :
  Power.measurementRunning s = false ->
  length (Power.measurementData s) = (2 * M_NR)%nat ->
  is_u16 (Power.sol_first adc) -> is_u16 (Power.sol_second adc) ->
  is_u16 (Power.bat_value adc) ->
  (exists s', Power.Power_Loop adc (Power.Power_Measure s) = Some s') <->
  (3 <= M_NR)%nat.
Proof.
  intros Hr Hlen Hs1 Hs2 Hb. split.
  - intros [s' HL].
    destruct (le_lt_dec 3 M_NR) as [| Hlt]; [assumption | exfalso].
    revert HL. unfold Power.Power_Loop.
    cbn [Power.startMeasurement Power.measurementRunning Power.Power_Measure
         Power.set_FVRCON Power.measurementData].
    rewrite Hr. cbn [negb andb].
    rewrite (Power_scaled_voltage _ Hb). cbn [mbind option_bind].
    destruct (Power.scaled _); [| discriminate]. cbn [mbind option_bind].
    unfold Power.store.
    destruct (Power.measurementData s)
      as [| d0 [| d1 [| d2 [| d3 [| d4 [| d5 rest]]]]]];
      cbn in Hlen |- *; try discriminate; lia.
  - intros HM.
    destruct (Power_six_bytes (Power.measurementData s) ltac:(lia))
      as (d0 & d1 & d2 & d3 & d4 & d5 & rest & Hd).
    destruct (Power_Loop_requested adc s d0 d1 d2 d3 d4 d5 rest
                Hr Hd Hs1 Hs2 Hb) as (s' & HL & _).
    exists s'. exact HL.
Qed.

Lemma Power_buffer_needs_six_bytes_witness :
  (exists s',
     Power.Power_Loop Power_sample (Power.Power_Measure (Power.boot 2))
     = Some s') <-> (3 <= 2)%nat.
Proof.
  apply (Power_buffer_needs_six_bytes 2 Power_sample (Power.boot 2));
    try reflexivity; unfold is_u16; cbn; lia.
Defined.

(** * The reduction in float arithmetic: properties *)

(** ** Decimal logarithms *)

Lemma IZR_div_le (a b : Z) : 0 < b -> (IZR (a / b) <= IZR a / IZR b)%R.
Proof.
  intros Hb. assert (Hb' : (0 < IZR b)%R) by (apply IZR_lt; exact Hb).
  apply Rmult_le_reg_r with (IZR b); [exact Hb' |].
  replace (IZR a / IZR b * IZR b)%R with (IZR a) by (field; lra).
  rewrite <- mult_IZR. apply IZR_le.
  pose proof (Z.mul_div_le a b Hb). lia.
Qed.

Lemma IZR_div_lt (a b : Z) : 0 < b -> (IZR a / IZR b < IZR (a / b + 1))%R.
Proof.
  intros Hb. assert (Hb' : (0 < IZR b)%R) by (apply IZR_lt; exact Hb).
  apply Rmult_lt_reg_r with (IZR b); [exact Hb' |].
  replace (IZR a / IZR b * IZR b)%R with (IZR a) by (field; lra).
  rewrite <- mult_IZR. apply IZR_lt.
  pose proof (Z.div_mod a b ltac:(lia)). pose proof (Z.mod_pos_bound a b Hb).
  lia.
Qed.

Lemma log10_unit (y : R) : (1 <= y <= 10)%R -> (0 <= ln y / ln 10 <= 1)%R.
Proof.
  intros [H1 H10]. pose proof ln_10_pos as Hl.
  assert (H0 : (0 <= ln y)%R).
  { rewrite <- ln_1. destruct H1 as [H1 | <-]; [left; apply ln_increasing; lra | right; reflexivity]. }
  assert (Hu : (ln y <= ln 10)%R).
  { destruct H10 as [H10 | ->]; [left; apply ln_increasing; lra | right; reflexivity]. }
  split.
  - apply Rmult_le_reg_r with (ln 10); [exact Hl |].
    replace (ln y / ln 10 * ln 10)%R with (ln y) by (field; lra). lra.
  - apply Rmult_le_reg_r with (ln 10); [exact Hl |].
    replace (ln y / ln 10 * ln 10)%R with (ln y) by (field; lra). lra.
Qed.

Lemma log10_digits_sound (n : nat) :
  forall (lo hi : Z) (y : R),
    0 <= lo -> (1 <= y <= 10)%R ->
    (IZR lo / IZR LOG_SCALE <= y <= IZR hi / IZR LOG_SCALE)%R ->
    (IZR (log10_digits n lo hi).1 <= 2 ^ n * (ln y / ln 10)
     <= IZR (log10_digits n lo hi).2)%R.
Proof.
  assert (HS : 0 < LOG_SCALE) by reflexivity.
  assert (HS' : (0 < IZR LOG_SCALE)%R) by (apply IZR_lt; exact HS).
  pose proof ln_10_pos as Hl.
  induction n as [| n IH]; intros lo hi y Hlo Hy Hb.
  - cbn [log10_digits fst snd pow]. pose proof (log10_unit y Hy). lra.
  - cbn [log10_digits].
    set (lo2 := lo * lo / LOG_SCALE). set (hi2 := hi * hi / LOG_SCALE + 1).
    assert (Hlo0 : (0 <= IZR lo)%R) by (apply IZR_le; exact Hlo).
    assert (Hylo : (IZR lo <= y * IZR LOG_SCALE)%R).
    { apply Rmult_le_reg_r with (/ IZR LOG_SCALE)%R;
        [apply Rinv_0_lt_compat; exact HS' |].
      replace (y * IZR LOG_SCALE * / IZR LOG_SCALE)%R with y by (field; lra).
      apply Hb. }
    assert (Hyhi : (y * IZR LOG_SCALE <= IZR hi)%R).
    { apply Rmult_le_reg_r with (/ IZR LOG_SCALE)%R;
        [apply Rinv_0_lt_compat; exact HS' |].
      replace (y * IZR LOG_SCALE * / IZR LOG_SCALE)%R with y by (field; lra).
      apply Hb. }
    assert (Hsq_lo : (IZR lo2 / IZR LOG_SCALE <= y * y)%R).
    { apply Rle_trans with (IZR (lo * lo) / IZR LOG_SCALE / IZR LOG_SCALE)%R.
      - apply Rmult_le_compat_r; [left; apply Rinv_0_lt_compat; exact HS' |].
        apply IZR_div_le; exact HS.
      - rewrite mult_IZR.
        apply Rmult_le_reg_r with (IZR LOG_SCALE * IZR LOG_SCALE)%R; [nra |].
        replace (IZR lo * IZR lo / IZR LOG_SCALE / IZR LOG_SCALE
                 * (IZR LOG_SCALE * IZR LOG_SCALE))%R
          with (IZR lo * IZR lo)%R by (field; lra).
        nra. }
    assert (Hsq_hi : (y * y <= IZR hi2 / IZR LOG_SCALE)%R).
    { apply Rle_trans with (IZR (hi * hi) / IZR LOG_SCALE / IZR LOG_SCALE)%R.
      - rewrite mult_IZR.
        apply Rmult_le_reg_r with (IZR LOG_SCALE * IZR LOG_SCALE)%R; [nra |].
        replace (IZR hi * IZR hi / IZR LOG_SCALE / IZR LOG_SCALE
                 * (IZR LOG_SCALE * IZR LOG_SCALE))%R
          with (IZR hi * IZR hi)%R by (field; lra).
        nra.
      - apply Rmult_le_compat_r; [left; apply Rinv_0_lt_compat; exact HS' |].
        left. apply IZR_div_lt; exact HS. }
    assert (Hln2 : ln (y * y) = (2 * ln y)%R) by (rewrite ln_mult by lra; lra).
    destruct (Z.leb_spec (10 * LOG_SCALE) lo2) as [Hd1 | Hd1].
    + cbn [fst snd].
      assert (Hy2 : (10 <= y * y)%R).
      { apply Rle_trans with (IZR lo2 / IZR LOG_SCALE)%R; [| exact Hsq_lo].
        apply Rmult_le_reg_r with (IZR LOG_SCALE); [exact HS' |].
        replace (IZR lo2 / IZR LOG_SCALE * IZR LOG_SCALE)%R with (IZR lo2)
          by (field; lra).
        rewrite <- mult_IZR. apply IZR_le. exact Hd1. }
      assert (Hy' : (1 <= y * y / 10 <= 10)%R) by (split; nra).
      assert (Hb' : (IZR (lo2 / 10) / IZR LOG_SCALE <= y * y / 10
                     <= IZR (hi2 / 10 + 1) / IZR LOG_SCALE)%R).
      { pose proof (IZR_div_le lo2 10 ltac:(lia)) as H1.
        pose proof (IZR_div_lt hi2 10 ltac:(lia)) as H2.
        split.
        - apply Rle_trans with (IZR lo2 / 10 / IZR LOG_SCALE)%R.
          + apply Rmult_le_compat_r;
              [left; apply Rinv_0_lt_compat; exact HS' | exact H1].
          + replace (IZR lo2 / 10 / IZR LOG_SCALE)%R
              with (IZR lo2 / IZR LOG_SCALE / 10)%R by (field; lra).
            lra.
        - apply Rle_trans with (IZR hi2 / 10 / IZR LOG_SCALE)%R.
          + replace (IZR hi2 / 10 / IZR LOG_SCALE)%R
              with (IZR hi2 / IZR LOG_SCALE / 10)%R by (field; lra).
            lra.
          + apply Rmult_le_compat_r;
              [left; apply Rinv_0_lt_compat; exact HS' | left; exact H2]. }
      assert (Hlo' : 0 <= lo2 / 10) by (apply Z.div_pos; lia).
      specialize (IH (lo2 / 10) (hi2 / 10 + 1) (y * y / 10)%R Hlo' Hy' Hb').
      assert (Hln : (ln (y * y / 10) / ln 10 = 2 * (ln y / ln 10) - 1)%R).
      { unfold Rdiv at 2. rewrite ln_mult by lra.
        rewrite ln_Rinv by lra. rewrite Hln2. field. lra. }
      rewrite Hln in IH. rewrite !plus_IZR, <- pow_IZR.
      change (IZR 2) with 2%R. cbn [pow]. lra.
    + destruct (Z.leb_spec hi2 (10 * LOG_SCALE)) as [Hd0 | Hd0].
      * assert (Hy2 : (y * y <= 10)%R).
        { apply Rle_trans with (IZR hi2 / IZR LOG_SCALE)%R; [exact Hsq_hi |].
          apply Rmult_le_reg_r with (IZR LOG_SCALE); [exact HS' |].
          replace (IZR hi2 / IZR LOG_SCALE * IZR LOG_SCALE)%R with (IZR hi2)
            by (field; lra).
          rewrite <- mult_IZR. apply IZR_le. exact Hd0. }
        assert (Hy' : (1 <= y * y <= 10)%R) by (split; nra).
        assert (Hlo' : 0 <= lo2) by (apply Z.div_pos; lia).
        specialize (IH lo2 hi2 (y * y)%R Hlo' Hy' (conj Hsq_lo Hsq_hi)).
        rewrite Hln2 in IH. cbn [pow]. 
        replace (2 * 2 ^ n * (ln y / ln 10))%R
          with (2 ^ n * (2 * ln y / ln 10))%R by (field; lra).
        exact IH.
      * cbn [fst snd]. pose proof (log10_unit y Hy) as Hu.
        rewrite <- pow_IZR. change (IZR 2) with 2%R.
        assert (Hp : (0 < 2 ^ S n)%R) by (apply pow_lt; lra).
        split; [apply Rmult_le_pos; lra | nra].
Qed.

(** [log10 x] from the digits of [log10 (x / 10 ^ k)]. *)
Lemma log10_enclosure (x : R) (k n : nat) (lo hi : Z) :
  0 <= lo ->
  (1 <= x / 10 ^ k <= 10)%R ->
  (IZR lo / IZR LOG_SCALE <= x / 10 ^ k <= IZR hi / IZR LOG_SCALE)%R ->
  (INR k + IZR (log10_digits n lo hi).1 / 2 ^ n <= ln x / ln 10
   <= INR k + IZR (log10_digits n lo hi).2 / 2 ^ n)%R.
Proof.
  intros Hlo Hy Hb.
  pose proof (log10_digits_sound n lo hi _ Hlo Hy Hb) as H.
  pose proof ln_10_pos as Hl.
  assert (Hk : (0 < 10 ^ k)%R) by (apply pow_lt; lra).
  assert (Hx : (0 < x)%R).
  { destruct Hy as [Hy _].
    apply Rmult_le_compat_r with (r := (10 ^ k)%R) in Hy; [| lra].
    replace (x / 10 ^ k * 10 ^ k)%R with x in Hy by (field; lra). lra. }
  assert (Hln : (ln (x / 10 ^ k) / ln 10 = ln x / ln 10 - INR k)%R).
  { unfold Rdiv at 2. rewrite ln_mult by (try apply Rinv_0_lt_compat; lra).
    rewrite ln_Rinv by lra. rewrite ln_pow by lra. field. lra. }
  rewrite Hln in H.
  assert (Hp : (0 < 2 ^ n)%R) by (apply pow_lt; lra).
  destruct H as [H1 H2]. split.
  - apply Rmult_le_reg_r with (2 ^ n)%R; [exact Hp |].
    replace ((INR k + IZR (log10_digits n lo hi).1 / 2 ^ n) * 2 ^ n)%R
      with (INR k * 2 ^ n + IZR (log10_digits n lo hi).1)%R by (field; lra).
    lra.
  - apply Rmult_le_reg_r with (2 ^ n)%R; [exact Hp |].
    replace ((INR k + IZR (log10_digits n lo hi).2 / 2 ^ n) * 2 ^ n)%R
      with (INR k * 2 ^ n + IZR (log10_digits n lo hi).2)%R by (field; lra).
    lra.
Qed.

Lemma pow2_40 : (2 ^ 40 = 1099511627776)%R.
Proof.
  change 40%nat with (20 + 20)%nat. rewrite pow_add.
  assert (E : (2 ^ 20 = 1048576)%R) by (simpl; lra).
  rewrite E. lra.
Qed.

Lemma pow10_8 : (10 ^ 8 = 100000000)%R.
Proof. simpl. lra. Qed.

(** The decimal logarithm of 416954336, to one unit in the last place of
    binary32. *)
Lemma log10_416954336 :
  (IZR 9038817 / 1048576 <= ln 416954336 / ln 10 <= IZR 9038818 / 1048576)%R.
Proof.
  pose proof (log10_enclosure 416954336 8 40
                (416954336 * 10 ^ 32) (416954336 * 10 ^ 32)) as H.
  assert (E : log10_digits 40 (416954336 * 10 ^ 32) (416954336 * 10 ^ 32)
              = (681794509975, 681794509976)) by (vm_compute; reflexivity).
  rewrite E in H. cbn [fst snd] in H.
  rewrite pow2_40, pow10_8 in H.
  change (INR 8) with (1 + 1 + 1 + 1 + 1 + 1 + 1 + 1)%R in H.
  assert (ES : IZR LOG_SCALE = (10000000000000000000000000000000000000000)%R)
    by reflexivity.
  assert (EL : IZR (416954336 * 10 ^ 32)
               = (41695433600000000000000000000000000000000)%R)
    by reflexivity.
  rewrite ES, EL in H.
  destruct H as [H1 H2]; [lia | lra | lra |]. lra.
Qed.

Lemma log10_416945248 :
  (IZR 9038807 / 1048576 <= ln 416945248 / ln 10 <= IZR 9038808 / 1048576)%R.
Proof.
  pose proof (log10_enclosure 416945248 8 40
                (416945248 * 10 ^ 32) (416945248 * 10 ^ 32)) as H.
  assert (E : log10_digits 40 (416945248 * 10 ^ 32) (416945248 * 10 ^ 32)
              = (681784101941, 681784101942)) by (vm_compute; reflexivity).
  rewrite E in H. cbn [fst snd] in H.
  rewrite pow2_40, pow10_8 in H.
  change (INR 8) with (1 + 1 + 1 + 1 + 1 + 1 + 1 + 1)%R in H.
  assert (ES : IZR LOG_SCALE = (10000000000000000000000000000000000000000)%R)
    by reflexivity.
  assert (EL : IZR (416945248 * 10 ^ 32)
               = (41694524800000000000000000000000000000000)%R)
    by reflexivity.
  rewrite ES, EL in H.
  destruct H as [H1 H2]; [lia | lra | lra |]. lra.
Qed.

Lemma pow10_12 : (10 ^ 12 = 1000000000000)%R.
Proof. simpl. lra. Qed.

Lemma log10_5681239818240 :
  (IZR 13374002 / 1048576 <= ln 5681239818240 / ln 10
   <= IZR 13374003 / 1048576)%R.
Proof.
  pose proof (log10_enclosure 5681239818240 12 40
                (5681239818240 * 10 ^ 28) (5681239818240 * 10 ^ 28)) as H.
  assert (E : log10_digits 40 (5681239818240 * 10 ^ 28)
                (5681239818240 * 10 ^ 28)
              = (829518985394, 829518985395)) by (vm_compute; reflexivity).
  rewrite E in H. cbn [fst snd] in H.
  rewrite pow2_40, pow10_12 in H.
  change (INR 12)
    with (1 + 1 + 1 + 1 + 1 + 1 + 1 + 1 + 1 + 1 + 1 + 1)%R in H.
  assert (ES : IZR LOG_SCALE = (10000000000000000000000000000000000000000)%R)
    by reflexivity.
  assert (EL : IZR (5681239818240 * 10 ^ 28)
               = (56812398182400000000000000000000000000000)%R)
    by reflexivity.
  rewrite ES, EL in H.
  destruct H as [H1 H2]; [lia | lra | lra |]. lra.
Qed.

(** ** The binary32 numbers near a logarithm *)

Lemma digits2_pos_bounds (m : positive) :
  2 ^ (Zpos (digits2_pos m) - 1) <= Zpos m < 2 ^ Zpos (digits2_pos m).
Proof.
  induction m as [p IH | p IH |]; cbn [digits2_pos].
  - rewrite Pos2Z.inj_succ.
    replace (Z.succ (Zpos (digits2_pos p)) - 1)
      with (Z.succ (Zpos (digits2_pos p) - 1)) by lia.
    rewrite !Z.pow_succ_r by lia. lia.
  - rewrite Pos2Z.inj_succ.
    replace (Z.succ (Zpos (digits2_pos p)) - 1)
      with (Z.succ (Zpos (digits2_pos p) - 1)) by lia.
    rewrite !Z.pow_succ_r by lia. lia.
  - cbn. lia.
Qed.

(** The binary32 numbers between 8 and 16 are the multiples of
    [2 ^ -20] with a 24-bit numerator. *)
Lemma binary32_between_8_and_16 (y : spec_float) :
  valid_binary Binary32.prec Binary32.emax y = true ->
  (8 <= Binary32.F2R y < 16)%R ->
  exists m : positive,
    y = S754_finite false m (-20) /\
    Binary32.F2R y = (IZR (Zpos m) / 1048576)%R.
Proof.
  intros Hvalid Hr.
  destruct y as [s | s | | s m e]; cbn [Binary32.F2R] in Hr; try lra.
  cbn [valid_binary] in Hvalid. unfold bounded, canonical_mantissa in Hvalid.
  apply andb_true_iff in Hvalid as [Hcan Hmax].
  apply Z.eqb_eq in Hcan. unfold fexp, emin in Hcan.
  change (3 - Binary32.emax - Binary32.prec) with (-149) in Hcan.
  change Binary32.prec with 24 in Hcan.
  pose proof (digits2_pos_bounds m) as Hd.
  set (d := Zpos (digits2_pos m)) in *.
  assert (Hd0 : 0 < d) by (unfold d; lia).
  assert (Hm : (0 < IZR (Zpos m))%R) by (apply IZR_lt; lia).
  assert (H24 : d = 24 -> 8388608 <= Zpos m < 16777216).
  { intros E. rewrite E in Hd. exact Hd. }
  destruct e as [| p | p].
  - (* an integer of 24 bits is at least 2 ^ 23 *)
    assert (E : d = 24) by lia. apply H24 in E.
    assert (8388608 <= IZR (Zpos m))%R by (apply IZR_le; lia).
    destruct s; lra.
  - assert (E : d = 24) by lia. apply H24 in E.
    assert (Hp : 0 < 2 ^ Zpos p) by (apply Z.pow_pos_nonneg; lia).
    assert (8388608 <= IZR (Zpos m * 2 ^ Zpos p))%R by (apply IZR_le; nia).
    destruct s; lra.
  - set (k := 2 ^ Zpos p) in *.
    assert (Hk : 0 < k) by (apply Z.pow_pos_nonneg; lia).
    assert (Hk' : (0 < IZR k)%R) by (apply IZR_lt; exact Hk).
    assert (Hq : (0 < IZR (Zpos m) / IZR k)%R)
      by (apply Rdiv_lt_0_compat; assumption).
    destruct s; [lra |].
    destruct Hr as [Hlo Hhi].
    assert (Hlo' : 8 * k <= Zpos m).
    { apply le_IZR. rewrite mult_IZR.
      apply Rmult_le_compat_r with (r := IZR k) in Hlo; [| lra].
      replace (IZR (Zpos m) / IZR k * IZR k)%R with (IZR (Zpos m)) in Hlo
        by (field; lra).
      exact Hlo. }
    assert (Hhi' : Zpos m < 16 * k).
    { apply lt_IZR. rewrite mult_IZR.
      apply Rmult_lt_compat_r with (r := IZR k) in Hhi; [| lra].
      replace (IZR (Zpos m) / IZR k * IZR k)%R with (IZR (Zpos m)) in Hhi
        by (field; lra).
      exact Hhi. }
    assert (Hp : Zpos p = 20).
    { destruct (Z_lt_le_dec (Zpos p) 20) as [Hlt | Hge].
      - (* too few fraction bits: the numerator would have under 24 bits *)
        exfalso.
        assert (k <= 2 ^ 19) by (apply Z.pow_le_mono_r; lia).
        assert (E : d = 24) by lia. apply H24 in E.
        change (2 ^ 19) with 524288 in *. lia.
      - destruct (Z.eq_dec (Zpos p) 20) as [E | Hne]; [exact E | exfalso].
        assert (2 ^ 21 <= k) by (apply Z.pow_le_mono_r; lia).
        change (2 ^ 21) with 2097152 in *.
        assert (Hd24 : d <= 24) by lia.
        assert (2 ^ d <= 2 ^ 24) by (apply Z.pow_le_mono_r; lia).
        change (2 ^ 24) with 16777216 in *. lia. }
    exists m. injection Hp as ->. split; [reflexivity |].
    unfold k. reflexivity.
Qed.

(** What [log10_accurate] leaves of the results when the logarithm is
    known to lie between 8 and 16. *)
Lemma log10_accurate_candidates
    (log10f : spec_float -> spec_float) (x : spec_float) (lo hi : Z) :
  Binary32.log10_accurate log10f x ->
  (8 + / 1024 <= IZR lo / 1048576)%R ->
  (IZR hi / 1048576 <= 16 - / 1024)%R ->
  (IZR lo / 1048576 <= ln (Binary32.F2R x) / ln 10 <= IZR hi / 1048576)%R ->
  exists m : positive,
    log10f x = S754_finite false m (-20) /\ lo - 2 <= Zpos m <= hi + 2.
Proof.
  intros [Hvalid Hacc] Hlo Hhi HL.
  assert (E19 : (2 ^ 19 = 524288)%R) by (simpl; lra).
  rewrite E19 in Hacc.
  assert (Hb : (- / 524288 <= Binary32.F2R (log10f x)
                              - ln (Binary32.F2R x) / ln 10 <= / 524288)%R).
  { revert Hacc. unfold Rabs. destruct (Rcase_abs _); lra. }
  clear Hacc.
  destruct (binary32_between_8_and_16 (log10f x) Hvalid) as (m & E & Hm);
    [lra |].
  exists m. split; [exact E |].
  rewrite Hm in Hb.
  split.
  - apply le_IZR. rewrite minus_IZR. lra.
  - apply le_IZR. rewrite plus_IZR. lra.
Qed.

(** ** The two orders of one sample set *)

Lemma step_up_ratio :
  Binary32.pressure_ratio (Binary32.processSamples (Binary32.completed step_up))
  = S754_finite false 13029823 5.
Proof. vm_compute. reflexivity. Qed.

Lemma step_down_ratio :
  Binary32.pressure_ratio
    (Binary32.processSamples (Binary32.completed step_down))
  = S754_finite false 13029539 5.
Proof. vm_compute. reflexivity. Qed.

Lemma step_up_output (log10f : spec_float -> spec_float) :
  Binary32.log10_accurate log10f
    (Binary32.pressure_ratio
       (Binary32.processSamples (Binary32.completed step_up))) ->
  Binary32.dataToSend log10f
    (Binary32.processSamples (Binary32.completed step_up)) = Some 51721.
Proof.
  unfold Binary32.dataToSend, Binary32.dBZ, Binary32.dBZ_raw.
  rewrite step_up_ratio. intros Hacc.
  destruct (log10_accurate_candidates log10f _ 9038817 9038818 Hacc)
    as (m & -> & Hm); [lra | lra | exact log10_416954336 |].
  assert (Hcases : m = 9038815%positive \/ m = 9038816%positive \/
                   m = 9038817%positive \/ m = 9038818%positive \/
                   m = 9038819%positive \/ m = 9038820%positive) by lia.
  destruct Hcases as [-> | [-> | [-> | [-> | [-> | ->]]]]];
    vm_compute; reflexivity.
Qed.

Lemma step_down_output (log10f : spec_float -> spec_float) :
  Binary32.log10_accurate log10f
    (Binary32.pressure_ratio
       (Binary32.processSamples (Binary32.completed step_down))) ->
  Binary32.dataToSend log10f
    (Binary32.processSamples (Binary32.completed step_down)) = Some 51720.
Proof.
  unfold Binary32.dataToSend, Binary32.dBZ, Binary32.dBZ_raw.
  rewrite step_down_ratio. intros Hacc.
  destruct (log10_accurate_candidates log10f _ 9038807 9038808 Hacc)
    as (m & -> & Hm); [lra | lra | exact log10_416945248 |].
  assert (Hcases : m = 9038805%positive \/ m = 9038806%positive \/
                   m = 9038807%positive \/ m = 9038808%positive \/
                   m = 9038809%positive \/ m = 9038810%positive) by lia.
  destruct Hcases as [-> | [-> | [-> | [-> | [-> | ->]]]]];
    vm_compute; reflexivity.
Qed.

Lemma full_swing_ratio :
  Binary32.pressure_ratio
    (Binary32.processSamples (Binary32.completed full_swing))
  = S754_finite false 10836105 19.
Proof. vm_compute. reflexivity. Qed.

(** The clamp: samples over the whole range are far above 106 dB. *)
Lemma full_swing_output (log10f : spec_float -> spec_float) :
  Binary32.log10_accurate log10f
    (Binary32.pressure_ratio
       (Binary32.processSamples (Binary32.completed full_swing))) ->
  Binary32.dataToSend log10f
    (Binary32.processSamples (Binary32.completed full_swing)) = Some 63600.
Proof.
  unfold Binary32.dataToSend, Binary32.dBZ, Binary32.dBZ_raw.
  rewrite full_swing_ratio. intros Hacc.
  destruct (log10_accurate_candidates log10f _ 13374002 13374003 Hacc)
    as (m & -> & Hm); [lra | lra | exact log10_5681239818240 |].
  assert (Hcases : m = 13374000%positive \/ m = 13374001%positive \/
                   m = 13374002%positive \/ m = 13374003%positive \/
                   m = 13374004%positive \/ m = 13374005%positive) by lia.
  destruct Hcases as [-> | [-> | [-> | [-> | [-> | ->]]]]];
    vm_compute; reflexivity.
Qed.

(** The hypothesis of the three lemmas above can be met. *)
Lemma log10_table_accurate :
  Binary32.log10_accurate log10_table
    (Binary32.pressure_ratio
       (Binary32.processSamples (Binary32.completed step_up))) /\
  Binary32.log10_accurate log10_table
    (Binary32.pressure_ratio
       (Binary32.processSamples (Binary32.completed step_down))) /\
  Binary32.log10_accurate log10_table
    (Binary32.pressure_ratio
       (Binary32.processSamples (Binary32.completed full_swing))).
Proof.
  rewrite step_up_ratio, step_down_ratio, full_swing_ratio.
  assert (E19 : (2 ^ 19 = 524288)%R) by (simpl; lra).
  unfold Binary32.log10_accurate. rewrite E19.
  split; [| split]; (split; [vm_compute; reflexivity |]).
  - change (log10_table (S754_finite false 13029823 5))
      with (S754_finite false 9038818 (-20)).
    change (Binary32.F2R (S754_finite false 9038818 (-20)))
      with (IZR 9038818 / IZR 1048576)%R.
    change (Binary32.F2R (S754_finite false 13029823 5))
      with (IZR 416954336).
    pose proof log10_416954336 as H.
    unfold Rabs. destruct (Rcase_abs _); lra.
  - change (log10_table (S754_finite false 13029539 5))
      with (S754_finite false 9038808 (-20)).
    change (Binary32.F2R (S754_finite false 9038808 (-20)))
      with (IZR 9038808 / IZR 1048576)%R.
    change (Binary32.F2R (S754_finite false 13029539 5))
      with (IZR 416945248).
    pose proof log10_416945248 as H.
    unfold Rabs. destruct (Rcase_abs _); lra.
  - change (log10_table (S754_finite false 10836105 19))
      with (S754_finite false 13374003 (-20)).
    change (Binary32.F2R (S754_finite false 13374003 (-20)))
      with (IZR 13374003 / IZR 1048576)%R.
    change (Binary32.F2R (S754_finite false 10836105 19))
      with (IZR 5681239818240).
    pose proof log10_5681239818240 as H.
    unfold Rabs. destruct (Rcase_abs _); lra.
Qed.

(** ** The reduction and its formulas *)

Lemma index_fold {A : Type} (f : A -> Z -> A) (l pre : list Z) (acc : A) :
  fold_left (fun (a : A) (i : nat) => f a (nth i (pre ++ l) 0))
    (seq (length pre) (length l)) acc
  = fold_left f l acc.
Proof.
  revert pre acc. induction l as [| x l IH]; intros pre acc; [reflexivity |].
  cbn [length seq fold_left]. rewrite nth_middle.
  replace (pre ++ x :: l) with ((pre ++ [x]) ++ l)
    by (rewrite <- app_assoc; reflexivity).
  replace (S (length pre)) with (length (pre ++ [x]))
    by (rewrite length_app; cbn; lia).
  apply IH.
Qed.

Lemma Binary32_processSamples_sum (v : Binary32.vars) :
  length (Binary32.sampleArray v) = 400%nat ->
  let mean :=
    Binary32.fdiv (Binary32.of_Z (Binary32.sampleSum v))
                  (Binary32.of_Z Binary32.SAMPLES) in
  Binary32.sampleAverage (Binary32.processSamples v) = mean /\
  Binary32.presSumSquared (Binary32.processSamples v) =
    fold_left
      (fun acc x =>
         Binary32.fadd acc
           (Binary32.fmul
              (Binary32.fmul (Binary32.fsub (Binary32.of_Z x) mean)
                             (Binary32.adcScaler v))
              (Binary32.fmul (Binary32.fsub (Binary32.of_Z x) mean)
                             (Binary32.adcScaler v))))
      (Binary32.sampleArray v) (Binary32.presSumSquared v) /\
  Binary32.adcScaler (Binary32.processSamples v) = Binary32.adcScaler v /\
  Binary32.sampleArray (Binary32.processSamples v) = Binary32.sampleArray v /\
  Binary32.sampleSum (Binary32.processSamples v) = Binary32.sampleSum v.
Proof.
  intros Hlen mean. unfold Binary32.processSamples.
  cbn [Binary32.sampleAverage Binary32.presSumSquared Binary32.adcScaler
       Binary32.sampleArray Binary32.sampleSum].
  split; [reflexivity |]. split; [| repeat split].
  change (Z.to_nat Binary32.SAMPLES) with 400%nat. rewrite <- Hlen.
  exact (index_fold
           (fun acc x =>
              Binary32.fadd acc
                (Binary32.fmul
                   (Binary32.fmul (Binary32.fsub (Binary32.of_Z x) mean)
                                  (Binary32.adcScaler v))
                   (Binary32.fmul (Binary32.fsub (Binary32.of_Z x) mean)
                                  (Binary32.adcScaler v))))
           (Binary32.sampleArray v) [] (Binary32.presSumSquared v)).
Qed.

(** [fround] gives a nearest integer. *)
Lemma fround_nearest (x : spec_float) (z : Z) :
  Binary32.fround x = Some z ->
  (Rabs (Binary32.F2R x - IZR z) <= / 2)%R.
Proof.
  assert (Hzero : (Rabs 0 <= / 2)%R) by (rewrite Rabs_R0; lra).
  destruct x as [s | s | | s m e]; cbn [Binary32.fround Binary32.F2R];
    try discriminate.
  - intros [= <-]. rewrite Rminus_0_r. exact Hzero.
  - intros [= <-].
    assert (Hmag : forall (r : R) (n : Z),
               (Rabs (r - IZR n) <= / 2)%R ->
               (Rabs ((if s then - r else r)
                      - IZR (if s then - n else n)) <= / 2)%R).
    { intros r n H. destruct s; [| exact H].
      rewrite opp_IZR.
      replace (- r - - IZR n)%R with (- (r - IZR n))%R by lra.
      rewrite Rabs_Ropp. exact H. }
    apply Hmag. destruct e as [| p | p].
    + rewrite Rminus_diag. exact Hzero.
    + rewrite Rminus_diag. exact Hzero.
    + set (k := 2 ^ Zpos p).
      assert (Hk : 0 < k) by (apply Z.pow_pos_nonneg; lia).
      assert (Hk' : (0 < IZR k)%R) by (apply IZR_lt; exact Hk).
      set (q := (2 * Zpos m + k) / (2 * k)).
      pose proof (Z.div_mod (2 * Zpos m + k) (2 * k) ltac:(lia)) as Hdm.
      pose proof (Z.mod_pos_bound (2 * Zpos m + k) (2 * k) ltac:(lia)) as Hr.
      fold q in Hdm. set (r := (2 * Zpos m + k) mod (2 * k)) in *.
      assert (Hm : (2 * IZR (Zpos m) + IZR k
                    = 2 * IZR k * IZR q + IZR r)%R).
      { rewrite <- !mult_IZR, <- !plus_IZR. f_equal. exact Hdm. }
      assert (Hr0 : (0 <= IZR r)%R) by (apply IZR_le; lia).
      assert (Hr1 : (IZR r < 2 * IZR k)%R)
        by (rewrite <- mult_IZR; apply IZR_lt; lia).
      assert (Hdiff : (IZR (Zpos m) / IZR k - IZR q
                       = (IZR r - IZR k) / (2 * IZR k))%R)
        by (field_simplify_eq; [lra | lra]).
      rewrite Hdiff. apply Rabs_le. split.
      * apply Rmult_le_reg_r with (2 * IZR k)%R; [lra |].
        replace ((IZR r - IZR k) / (2 * IZR k) * (2 * IZR k))%R
          with (IZR r - IZR k)%R by (field; lra).
        lra.
      * apply Rmult_le_reg_r with (2 * IZR k)%R; [lra |].
        replace ((IZR r - IZR k) / (2 * IZR k) * (2 * IZR k))%R
          with (IZR r - IZR k)%R by (field; lra).
        lra.
Qed.

Lemma to_uint16_nearest (x : spec_float) (d : Z) :
  Binary32.to_uint16 x = Some d ->
  0 <= d < 2 ^ 16 /\ (Rabs (Binary32.F2R x - IZR d) <= / 2)%R.
Proof.
  unfold Binary32.to_uint16.
  destruct (Binary32.fround x) as [z |] eqn:Hz; cbn [mbind option_bind];
    [| discriminate].
  destruct (decide (0 <= z < 2 ^ 16)) as [Hrange |]; [| discriminate].
  intros [= <-]. split; [exact Hrange | exact (fround_nearest x z Hz)].
Qed.

(** Halves are rounded away from zero. *)
Lemma fround_halves :
  Binary32.fround (Binary32.literal 5 2) = Some 3 /\
  Binary32.fround (Binary32.literal 7 2) = Some 4 /\
  Binary32.fround (Binary32.literal (-5) 2) = Some (-3) /\
  Binary32.fround (Binary32.literal 249 100) = Some 2.
Proof. repeat split; vm_compute; reflexivity. Qed.

Lemma Binary32_PrepareData_defined
    (log10f : spec_float -> spec_float) (v : Binary32.vars) (d : Z) :
  Binary32.dataToSend log10f v = Some d ->
  exists v',
    Binary32.SoundLevel_PrepareData log10f v = Some v' /\
    Binary32.measurementData v' = (u8 (Z.shiftr d 8), u8 d) /\
    (Binary32.measurementData v').1 * 2 ^ 8 + (Binary32.measurementData v').2
    = d.
Proof.
  intros Hd. unfold Binary32.SoundLevel_PrepareData. rewrite Hd.
  cbn [mbind option_bind]. eexists. split; [reflexivity |].
  cbn [Binary32.measurementData fst snd]. split; [reflexivity |].
  apply bytes_value.
  unfold Binary32.dataToSend, Binary32.to_uint16 in Hd.
  destruct (Binary32.fround _) as [z |]; cbn [mbind option_bind] in Hd;
    [| discriminate].
  destruct (decide (0 <= z < 2 ^ 16)); [| discriminate].
  injection Hd as <-. assumption.
Qed.

(** C8: from a completed 400-sample buffer with running sum [sum], the
    accumulator started from zero and [adcScaler] as [SoundLevel_Init]
    sets it, the code computes, in its float arithmetic and in buffer
    order, mean = sum / 400, the sum of the squared pressures
    (sample - mean) * adcScaler with
    adcScaler = 3.3 / (4095 * 0.01258925 * 44), their average over 400,
    dB = 10 * log10 (average / (20e-6)^2), and transmits round (dB * 600)
    as the 16-bit result after clamping dB at 106, for every [log10] of
    the C library; the result is an integer of 16 bits within one half of
    dB * 600. *)
Theorem reduction_formula
    (log10f : spec_float -> spec_float) (v : Binary32.vars) :
  length (Binary32.sampleArray v) = 400%nat ->
  Binary32.presSumSquared v = Binary32.zero ->
  Binary32.adcScaler v = Binary32.adcScaler (Binary32.SoundLevel_Init v) ->
  let samples := Binary32.sampleArray v in
  let sum := Binary32.sampleSum v in
  let v1 := Binary32.processSamples v in
  Binary32.adcScaler v1 = Binary32.spec_adcScaler /\
  Binary32.sampleAverage v1 = Binary32.spec_mean sum /\
  Binary32.presSumSquared v1 = Binary32.spec_sumSquares samples sum /\
  Binary32.dBZ_raw log10f v1 = Binary32.spec_dB log10f samples sum /\
  Binary32.dataToSend log10f v1 = Binary32.spec_output log10f samples sum /\
  forall d, Binary32.spec_output log10f samples sum = Some d ->
    0 <= d < 2 ^ 16 /\
    (Rabs (Binary32.F2R
             (Binary32.fmul (Binary32.dBZ log10f v1) Binary32.SCALE_FACTOR)
           - IZR d) <= / 2)%R /\
    exists v',
      Binary32.SoundLevel_PrepareData log10f v1 = Some v' /\
      Binary32.measurementData v' = (u8 (Z.shiftr d 8), u8 d) /\
      (Binary32.measurementData v').1 * 2 ^ 8
      + (Binary32.measurementData v').2 = d.
Proof.
  intros Hlen Hzero Hscale samples sum v1.
  destruct (Binary32_processSamples_sum v Hlen)
    as (Havg & Hsq & Ha & _ & _).
  fold v1 in Havg, Hsq, Ha.
  assert (Ha1 : Binary32.adcScaler v1 = Binary32.spec_adcScaler)
    by (rewrite Ha, Hscale; reflexivity).
  assert (Hss : Binary32.presSumSquared v1
                = Binary32.spec_sumSquares samples sum).
  { rewrite Hsq, Hzero, <- Ha, Ha1. reflexivity. }
  assert (HdB : Binary32.dBZ_raw log10f v1
                = Binary32.spec_dB log10f samples sum).
  { unfold Binary32.dBZ_raw, Binary32.pressure_ratio, Binary32.spec_dB,
      Binary32.spec_avgSquared. rewrite Hss. reflexivity. }
  assert (Hout : Binary32.dataToSend log10f v1
                 = Binary32.spec_output log10f samples sum).
  { unfold Binary32.dataToSend, Binary32.dBZ, Binary32.spec_output.
    rewrite HdB. reflexivity. }
  do 5 (split; [assumption |]).
  intros d Hd. rewrite <- Hout in Hd.
  destruct (to_uint16_nearest _ d Hd) as [Hrange Hnear].
  split; [exact Hrange |]. split; [exact Hnear |].
  exact (Binary32_PrepareData_defined log10f v1 d Hd).
Qed.

Lemma reduction_formula_witness :
  (exists log10f,
     Binary32.log10_accurate log10f
       (Binary32.pressure_ratio
          (Binary32.processSamples (Binary32.completed step_up))) /\
     Binary32.log10_accurate log10f
       (Binary32.pressure_ratio
          (Binary32.processSamples (Binary32.completed full_swing)))) /\
  forall log10f,
    Binary32.log10_accurate log10f
      (Binary32.pressure_ratio
         (Binary32.processSamples (Binary32.completed step_up))) ->
    Binary32.log10_accurate log10f
      (Binary32.pressure_ratio
         (Binary32.processSamples (Binary32.completed full_swing))) ->
    (Binary32.spec_output log10f step_up 701220 = Some 51721 /\
     exists v',
       Binary32.SoundLevel_PrepareData log10f
         (Binary32.processSamples (Binary32.completed step_up)) = Some v' /\
       Binary32.measurementData v' = (202, 9)) /\
    (Binary32.spec_output log10f full_swing 13107000 = Some 63600 /\
     exists v',
       Binary32.SoundLevel_PrepareData log10f
         (Binary32.processSamples (Binary32.completed full_swing))
       = Some v' /\
       Binary32.measurementData v' = (248, 112)).
Proof.
  split.
  { exists log10_table.
    split; [exact (proj1 log10_table_accurate)
           | exact (proj2 (proj2 log10_table_accurate))]. }
  intros log10f Hup Hfull. split.
  - destruct (reduction_formula log10f (Binary32.completed step_up)
                eq_refl eq_refl eq_refl) as (_ & _ & _ & _ & Hout & Hprep).
    rewrite (step_up_output log10f Hup) in Hout.
    change (Binary32.sampleArray (Binary32.completed step_up)) with step_up
      in Hout, Hprep.
    change (Binary32.sampleSum (Binary32.completed step_up)) with 701220
      in Hout, Hprep.
    split; [symmetry; exact Hout |].
    destruct (Hprep 51721 (eq_sym Hout)) as (_ & _ & v' & Hv' & Hdata & _).
    exists v'. split; [exact Hv' | exact Hdata].
  - destruct (reduction_formula log10f (Binary32.completed full_swing)
                eq_refl eq_refl eq_refl) as (_ & _ & _ & _ & Hout & Hprep).
    rewrite (full_swing_output log10f Hfull) in Hout.
    change (Binary32.sampleArray (Binary32.completed full_swing))
      with full_swing in Hout, Hprep.
    change (Binary32.sampleSum (Binary32.completed full_swing))
      with 13107000 in Hout, Hprep.
    split; [symmetry; exact Hout |].
    destruct (Hprep 63600 (eq_sym Hout)) as (_ & _ & v' & Hv' & Hdata & _).
    exists v'. split; [exact Hv' | exact Hdata].
Defined.

(** ** Permutations of the buffer *)

Lemma Zsum_Permutation (l k : list Z) : l ≡ₚ k -> Zsum l = Zsum k.
Proof.
  unfold Zsum. induction 1 as [| x l k _ IH | x y l | l k m _ IH1 _ IH2];
    cbn [foldr]; lia.
Qed.

Lemma Rsum_Permutation (l k : list R) : l ≡ₚ k -> Rsum l = Rsum k.
Proof.
  unfold Rsum. induction 1 as [| x l k _ IH | x y l | l k m _ IH1 _ IH2];
    cbn [foldr]; lra.
Qed.

Lemma fold_left_map_acc {A B C : Type} (f : A -> B -> A) (g : C -> B)
    (l : list C) (acc : A) :
  fold_left (fun a x => f a (g x)) l acc = fold_left f (map g l) acc.
Proof.
  revert acc. induction l as [| x l IH]; intros acc; [reflexivity |].
  cbn [fold_left map]. apply IH.
Qed.

Lemma Binary32_accumulates (codes : list Z) :
  length codes = 400%nat ->
  Binary32.presSumSquared (Binary32.processSamples (Binary32.completed codes))
  = fold_left Binary32.fadd (Binary32.squared_pressures codes) Binary32.zero.
Proof.
  intros Hlen.
  destruct (Binary32_processSamples_sum (Binary32.completed codes) Hlen)
    as (_ & -> & _).
  unfold Binary32.squared_pressures.
  rewrite <- fold_left_map_acc. reflexivity.
Qed.

(** On the exact reading the result of a cycle does not depend on the
    order of the conversion results: the reduction is order-independent
    mathematically. *)
Lemma measure_Permutation (codes codes' : list Z) (s : state) :
  codes ≡ₚ codes' ->
  length codes = 400%nat -> Forall is_u16 codes ->
  length (sampleArray s) = 400%nat ->
  SoundLevel_GetData <$> measure codes s
  = SoundLevel_GetData <$> measure codes' s.
Proof.
  intros Hperm Hlen Hcodes Harr.
  assert (Hlen' : length codes' = 400%nat)
    by (rewrite <- Hlen; symmetry; apply Permutation_length; exact Hperm).
  assert (Hcodes' : Forall is_u16 codes')
    by (rewrite <- Hperm; exact Hcodes).
  destruct (measure_acquires codes s Hlen Hcodes Harr) as
    (a1 & -> & Hc1 & Hs1 & Hp1 & Ha1 & _).
  destruct (measure_acquires codes' s Hlen' Hcodes' Harr) as
    (a2 & -> & Hc2 & Hs2 & Hp2 & Ha2 & _).
  assert (Hl1 : length (sampleArray a1) = 400%nat) by congruence.
  assert (Hl2 : length (sampleArray a2) = 400%nat) by congruence.
  destruct (processSamples_sum a1 Hl1) as [_ Hq1].
  destruct (processSamples_sum a2 Hl2) as [_ Hq2].
  assert (Hq : presSumSquared (processSamples a1)
               = presSumSquared (processSamples a2)).
  { rewrite Hq1, Hq2, Hp1, Hp2, Hc1, Hc2, Hs1, Hs2, Ha1, Ha2.
    rewrite (Zsum_Permutation codes codes' Hperm). f_equal.
    apply Rsum_Permutation. apply Permutation_map. exact Hperm. }
  revert Hq. generalize (processSamples a1) (processSamples a2).
  intros p1 p2 Hq.
  unfold SoundLevel_PrepareData, dataToSend, dBZ, dBZ_raw.
  cbn [presSumSquared emit CLRWDT set_nTO]. rewrite Hq.
  destruct (to_uint16 _) as [d |]; [| reflexivity].
  cbn [mbind option_bind fmap option_fmap option_map].
  unfold SoundLevel_GetData, SoundLevel_LedOff.
  rewrite !(proj2 (proj2 (proj2 (notify_frame d _)))). reflexivity.
Qed.

(** C5, as amended: for a 400-sample sequence and a permutation of it, the
    reduction has the same running sum and the same mean and adds up the
    same squared pressures, each in the order of its buffer, in the float
    accumulator from which the scaled decibel output is computed. *)
Theorem reduction_permutation (codes codes' : list Z) :
  codes ≡ₚ codes' ->
  length codes = 400%nat ->
  let v := Binary32.processSamples (Binary32.completed codes) in
  let v' := Binary32.processSamples (Binary32.completed codes') in
  Binary32.sampleSum v = Binary32.sampleSum v' /\
  Binary32.sampleAverage v = Binary32.sampleAverage v' /\
  Binary32.presSumSquared v
  = fold_left Binary32.fadd (Binary32.squared_pressures codes)
      Binary32.zero /\
  Binary32.presSumSquared v'
  = fold_left Binary32.fadd (Binary32.squared_pressures codes')
      Binary32.zero /\
  Binary32.squared_pressures codes ≡ₚ Binary32.squared_pressures codes'.
Proof.
  intros Hperm Hlen v v'.
  assert (Hlen' : length codes' = 400%nat)
    by (rewrite <- Hlen; symmetry; apply Permutation_length; exact Hperm).
  assert (Hsum : foldr Z.add 0 codes = foldr Z.add 0 codes')
    by exact (Zsum_Permutation codes codes' Hperm).
  split; [exact Hsum |].
  split.
  { unfold v, v', Binary32.processSamples, Binary32.completed.
    cbn [Binary32.sampleAverage Binary32.sampleSum Binary32.SoundLevel_Init].
    rewrite Hsum. reflexivity. }
  split; [exact (Binary32_accumulates codes Hlen) |].
  split; [exact (Binary32_accumulates codes' Hlen') |].
  unfold Binary32.squared_pressures, Binary32.completed.
  cbn [Binary32.sampleSum Binary32.adcScaler Binary32.SoundLevel_Init].
  rewrite Hsum. apply Permutation_map. exact Hperm.
Qed.

Lemma step_up_codes : length step_up = 400%nat /\ Forall is_u16 step_up.
Proof.
  split; [reflexivity |].
  unfold step_up. apply Forall_app_2; apply Forall_replicate;
    unfold is_u16; lia.
Qed.

Lemma step_down_step_up : step_up ≡ₚ step_down.
Proof. unfold step_up, step_down. apply Permutation_app_comm. Qed.

Lemma reduction_permutation_witness :
  let v := Binary32.processSamples (Binary32.completed step_up) in
  let v' := Binary32.processSamples (Binary32.completed step_down) in
  Binary32.sampleSum v = Binary32.sampleSum v' /\
  Binary32.sampleAverage v = Binary32.sampleAverage v' /\
  Binary32.presSumSquared v
  = fold_left Binary32.fadd (Binary32.squared_pressures step_up)
      Binary32.zero /\
  Binary32.presSumSquared v'
  = fold_left Binary32.fadd (Binary32.squared_pressures step_down)
      Binary32.zero /\
  Binary32.squared_pressures step_up
    ≡ₚ Binary32.squared_pressures step_down.
Proof.
  exact (reduction_permutation step_up step_down step_down_step_up
           (proj1 step_up_codes)).
Defined.

(** C5 as stated fails: the sequence of ten samples 0 followed by 390
    samples 1798 and its permutation with the ten samples 0 last give the
    scaled outputs 51721 and 51720, with every [log10] of the C library
    that is accurate to [2 ^ -19] at the two arguments it receives; such
    a [log10] exists. *)
Lemma accumulation_order_matters :
  step_up ≡ₚ step_down /\
  (exists log10f,
     Binary32.log10_accurate log10f
       (Binary32.pressure_ratio
          (Binary32.processSamples (Binary32.completed step_up))) /\
     Binary32.log10_accurate log10f
       (Binary32.pressure_ratio
          (Binary32.processSamples (Binary32.completed step_down)))) /\
  (forall log10f,
     Binary32.log10_accurate log10f
       (Binary32.pressure_ratio
          (Binary32.processSamples (Binary32.completed step_up))) ->
     Binary32.log10_accurate log10f
       (Binary32.pressure_ratio
          (Binary32.processSamples (Binary32.completed step_down))) ->
     Binary32.dataToSend log10f
       (Binary32.processSamples (Binary32.completed step_up)) = Some 51721 /\
     Binary32.dataToSend log10f
       (Binary32.processSamples (Binary32.completed step_down))
     = Some 51720).
Proof.
  split; [exact step_down_step_up |].
  split.
  { exists log10_table.
    split; [exact (proj1 log10_table_accurate)
           | exact (proj1 (proj2 log10_table_accurate))]. }
  intros log10f Hup Hdown.
  split; [exact (step_up_output log10f Hup)
         | exact (step_down_output log10f Hdown)].
Qed.

(** ** The exact reading against the float reading *)

(** Read in exact arithmetic, the formulas of the reduction give 51720
    for [step_up], where the float arithmetic of the code gives 51721
    ([step_up_output]). *)
Lemma step_up_exact_output : spec_output step_up (Zsum step_up) = Some 51720.
Proof.
  change (Zsum step_up) with 701220. unfold step_up. reduce_blocks.
  match goal with
  | |- context [log10 ?x] =>
      pose proof (log10_enclosure x 8 40
                    41694522695014910625888049747797999484797
                    41694522695014910625888049747797999484798) as H;
      assert (Hx : (0 < x)%R) by lra
  end.
  assert (E : log10_digits 40 41694522695014910625888049747797999484797
                41694522695014910625888049747797999484798
              = (681784077833, 681784077834)) by (vm_compute; reflexivity).
  rewrite E in H. cbn [fst snd] in H. rewrite pow2_40, pow10_8 in H.
  change (INR 8) with (1 + 1 + 1 + 1 + 1 + 1 + 1 + 1)%R in H.
  assert (ES : IZR LOG_SCALE = (10000000000000000000000000000000000000000)%R)
    by reflexivity.
  rewrite ES in H.
  destruct H as [H1 H2]; [lia | lra | lra |].
  unfold log10.
  match goal with
  | |- context [Rlt_dec 0 ?x] => destruct (Rlt_dec 0 x) as [_ | Hn]
  end; [| contradiction].
  match type of H1 with (_ <= ?r)%R => set (L := r) in * end.
  cbn [fscale].
  match goal with
  | |- context [fgt (Finite ?r) 106] =>
      destruct (fgt (Finite r) 106) eqn:Hgt
  end.
  - apply fgt_true in Hgt as (r' & [= <-] & Hr'). lra.
  - cbn [fscale fround].
    rewrite (round_real_near _ 51720); [reflexivity | lra | lra].
Qed.
